(** * Velocloud VCO collectors: the fetch worker and the write loop

    A shallow embedding of the two collector scripts

      - getVCOEnterpriseGetEdgeFlowVisibilityMetrics.py  (module [EdgeFlow])
      - getVCOEnterpriseGetEnterpriseEvents.py           (module [Events])

    Each script runs a worker process [fetch_data_worker] that walks the
    paginated API and puts every page on a queue, and a main process that
    drains the queue into a JSON array file.

    Modelling decisions.
    - Python values that travel through the code are JSON values ([json]);
      a dict is an association list in insertion order, looked up by first
      match.  Number payloads are integers; strings are sequences of
      one-byte characters.
    - Python exceptions that the code does not catch are explicit
      ([exn], [result]); the messages put on the queue before an exception
      are kept.
    - The HTTP transport is a script: the list of outcomes of the successive
      [session.post] calls.  A run that needs one more outcome than the
      script holds stops in [AwaitingResponse].
    - The queue is FIFO with one producer and one consumer, so the main
      process sees exactly the sequence of values the worker put.  [None]
      on the queue is [JNull].
    - Logging is dropped, except where the logged expression can raise;
      the worker process is forked, so the module-level [logger] exists in
      it.  [json.dumps] is a parameter of the file contents. *)

From Stdlib Require Import List String Ascii ZArith Bool Lia.
Import ListNotations.
Open Scope string_scope.

(** ** JSON values *)

#[local] Set Warnings "-register-all".

Inductive json : Type :=
| JNull
| JBool (b : bool)
| JNum (n : Z)
| JStr (s : string)
| JArr (items : list json)
| JObj (fields : list (string * json)).

Fixpoint assoc {A : Type} (k : string) (kvs : list (string * A)) : option A :=
  match kvs with
  | [] => None
  | (k', v) :: rest => if String.eqb k k' then Some v else assoc k rest
  end.

Definition keys {A : Type} (kvs : list (string * A)) : list string :=
  map fst kvs.

(** ** The Python operations the scripts apply to parsed JSON *)

Module Py.

Inductive exn : Type :=
| KeyError
| TypeError
| AttributeError
| IndexError
| UnboundLocalError.

Definition result (A : Type) : Type := (exn + A)%type.

Definition rbind {A B : Type} (r : result A) (f : A -> result B) : result B :=
  match r with
  | inl e => inl e
  | inr a => f a
  end.

(** [bool(v)] *)
Definition truthy (v : json) : bool :=
  match v with
  | JNull => false
  | JBool b => b
  | JNum n => negb (n =? 0)%Z
  | JStr s => negb (String.eqb s "")
  | JArr l => match l with [] => false | _ => true end
  | JObj kvs => match kvs with [] => false | _ => true end
  end.

(** [v == s] for a str [s] *)
Definition eq_str (v : json) (s : string) : bool :=
  match v with
  | JStr s' => String.eqb s' s
  | _ => false
  end.

Definition substring_of (k s : string) : bool :=
  match index 0 k s with
  | Some _ => true
  | None => false
  end.

(** [k in v] for a str [k] *)
Definition contains (k : string) (v : json) : result bool :=
  match v with
  | JObj kvs => inr (match assoc k kvs with Some _ => true | None => false end)
  | JArr l => inr (existsb (fun x => eq_str x k) l)
  | JStr s => inr (substring_of k s)
  | _ => inl TypeError
  end.

(** [v[k]] for a str [k] *)
Definition getitem (v : json) (k : string) : result json :=
  match v with
  | JObj kvs => match assoc k kvs with Some x => inr x | None => inl KeyError end
  | _ => inl TypeError
  end.

Definition char_at (s : string) (i : nat) : option json :=
  match String.get i s with
  | Some c => Some (JStr (String c EmptyString))
  | None => None
  end.

(** [v[i]] for an int [i >= 0]; no str key of a dict equals an int *)
Definition getitem_int (v : json) (i : nat) : result json :=
  match v with
  | JArr l => match nth_error l i with Some x => inr x | None => inl IndexError end
  | JStr s => match char_at s i with Some x => inr x | None => inl IndexError end
  | JObj _ => inl KeyError
  | _ => inl TypeError
  end.

(** [len(v)] *)
Definition len (v : json) : result nat :=
  match v with
  | JStr s => inr (String.length s)
  | JArr l => inr (List.length l)
  | JObj kvs => inr (List.length kvs)
  | _ => inl TypeError
  end.

(** [v.get(k)] *)
Definition get (v : json) (k : string) : result json :=
  match v with
  | JObj kvs => inr (match assoc k kvs with Some x => x | None => JNull end)
  | _ => inl AttributeError
  end.

Fixpoint chars (s : string) : list json :=
  match s with
  | EmptyString => []
  | String c rest => JStr (String c EmptyString) :: chars rest
  end.

(** the values [for item in v] runs through *)
Definition iter (v : json) : result (list json) :=
  match v with
  | JArr l => inr l
  | JStr s => inr (chars s)
  | JObj kvs => inr (map (fun kv => JStr (fst kv)) kvs)
  | _ => inl TypeError
  end.

Definition is_None (v : json) : bool :=
  match v with
  | JNull => true
  | _ => false
  end.

End Py.

Import Py.

Declare Scope result_scope.
Delimit Scope result_scope with result.
Notation "x <~ r ; k" := (rbind r (fun x => k))
  (at level 100, r at next level, right associativity) : result_scope.

(** ** Code that emits events and may raise

    [M E A]: the events emitted so far, in order, and either the exception
    that stopped the code or its value. *)

Definition M (E A : Type) : Type := (list E * result A)%type.

Definition ret {E A : Type} (a : A) : M E A := ([], inr a).

Definition bind {E A B : Type} (m : M E A) (f : A -> M E B) : M E B :=
  match snd m with
  | inl e => (fst m, inl e)
  | inr a => ((fst m ++ fst (f a))%list, snd (f a))
  end.

Definition emit {E : Type} (ev : E) : M E unit := ([ev], inr tt).

Definition lift {E A : Type} (r : result A) : M E A := ([], r).

Declare Scope m_scope.
Delimit Scope m_scope with m.
Notation "x <- m ; k" := (bind m (fun x => k))
  (at level 100, m at next level, right associativity) : m_scope.
Notation "m ;; k" := (bind m (fun _ => k))
  (at level 100, right associativity) : m_scope.

(** ** The transport *)

(** The outcome of one [session.post(url, data=json_body)]:
    the call raises [requests.exceptions.RequestException], or it returns a
    response with a status code whose [.json()] raises ([None]) or returns a
    value. *)
Inductive post_result : Type :=
| RequestException
| Response (status_code : Z) (parsed : option json).

(** The status of a worker run. *)
Inductive status : Type :=
| Finished
| Raised (e : exn)
| AwaitingResponse.

Record run : Type := mkRun {
  requests : list json;   (* the bodies posted, in order *)
  puts : list json;       (* the values put on the queue, in order *)
  final : status
}.

(** The [metaData] test that ends pagination:
    ['metaData' not in data or 'more' not in data["metaData"]
      or not data["metaData"]["more"]] *)
Definition no_more (data : json) : result bool :=
  (c1 <~ contains "metaData" data;
   if negb c1 then inr true else
   m <~ getitem data "metaData";
   c2 <~ contains "more" m;
   if negb c2 then inr true else
   m' <~ getitem data "metaData";
   v <~ getitem m' "more";
   inr (negb (truthy v)))%result.

(** [not data or 'data' not in data] *)
Definition no_data (data : json) : result bool :=
  (if negb (truthy data) then inr true else
   c <~ contains "data" data;
   inr (negb c))%result.

(** [data["metaData"]["nextPageLink"]], on the variable [data], which is
    unbound until the first response has been parsed *)
Definition next_page_link (data : option json) : result json :=
  match data with
  | None => inl UnboundLocalError
  | Some d => (m <~ getitem d "metaData"; getitem m "nextPageLink")%result
  end.

(** The local variables of [fetch_data_worker] that live across iterations. *)
Record locals : Type := mkLocals {
  first_page : bool;
  data : option json
}.

Inductive control : Type :=
| Continue (st : locals)
| Break.

Definition StreamEnd : json := JNull.

(** Running the loop body against the transport script.  [build] is the
    construction of the request body at the top of the iteration, [after]
    the rest of the iteration, from the outcome of [session.post] on. *)
Section Loop.

Variable build : locals -> result json.
Variable after : locals -> post_result -> M json control.

Fixpoint loop (st : locals) (script : list post_result) : run :=
  match build st with
  | inl e => mkRun [] [] (Raised e)
  | inr body =>
      match script with
      | [] => mkRun [body] [] AwaitingResponse
      | r :: script' =>
          match after st r with
          | (q, inl e) => mkRun [body] q (Raised e)
          | (q, inr Break) => mkRun [body] q Finished
          | (q, inr (Continue st')) =>
              let rest := loop st' script' in
              mkRun (body :: requests rest) (q ++ puts rest)%list (final rest)
          end
      end
  end.

End Loop.

(** ** What the main process does to the output file *)

Definition LF : string := String (ascii_of_nat 10) EmptyString.
Definition array_open : string := "[" ++ LF.    (* "[\n" *)
Definition array_sep : string := "," ++ LF.     (* ",\n" *)
Definition array_close : string := LF ++ "]".   (* "\n]" *)

Inductive file_op : Type :=
| Write (s : string)                       (* output_file.write(s) *)
| WriteJson (item : json) (indent : nat).  (* write_json_with_indent(item, output_file, indent) *)

Inductive wstatus : Type :=
| Closed            (* the loop saw None, the closing bracket was written *)
| WRaised (e : exn) (* an exception left the [with] block *)
| Blocked.          (* queue.get() waits for a value that never comes *)

Record output : Type := mkOutput {
  ops : list file_op;
  wfinal : wstatus
}.

Definition written_items (l : list file_op) : list json :=
  flat_map (fun op => match op with WriteJson item _ => [item] | Write _ => [] end) l.

(** The expression [len(data_chunk) if data_chunk else 'None'] of the log
    line that follows [queue.get()]. *)
Definition log_chunk_size (data_chunk : json) : result unit :=
  if truthy data_chunk then (_ <~ len data_chunk; inr tt)%result else inr tt.

Section WriteLoop.

(** the [for item in data_chunk] loop, from the current [FirstElement]
    to the one it leaves *)
Variable write_chunk : list json -> bool -> M file_op bool.

Fixpoint write_loop (msgs : list json) (FirstElement : bool) : output :=
  match msgs with
  | [] => mkOutput [] Blocked
  | data_chunk :: msgs' =>
      match log_chunk_size data_chunk with
      | inl e => mkOutput [] (WRaised e)
      | inr _ =>
          if is_None data_chunk then mkOutput [] Closed
          else
            match iter data_chunk with
            | inl e => mkOutput [] (WRaised e)
            | inr items =>
                match write_chunk items FirstElement with
                | (w, inl e) => mkOutput w (WRaised e)
                | (w, inr FirstElement') =>
                    let rest := write_loop msgs' FirstElement' in
                    mkOutput (w ++ ops rest)%list (wfinal rest)
                end
            end
      end
  end.

(** [output_file.write("[\n")], the loop, [output_file.write("\n]")] *)
Definition write_file (msgs : list json) : output :=
  let body := write_loop msgs true in
  match wfinal body with
  | Closed => mkOutput (Write array_open :: ops body ++ [Write array_close])%list Closed
  | s => mkOutput (Write array_open :: ops body) s
  end.

End WriteLoop.

(** ** getVCOEnterpriseGetEdgeFlowVisibilityMetrics.py *)

Module EdgeFlow.

(** The arguments of [fetch_data_worker] that reach the request body. *)
Record params : Type := mkParams {
  EdgeID : json;
  enterpriseId : json;
  start : json;
  stop : json;
  limit_flow : json
}.

Definition first_body (p : params) : json :=
  JObj [ ("edgeId", EdgeID p);
         ("enterpriseId", enterpriseId p);
         ("interval", JObj [("start", start p); ("end", stop p)]);
         ("limit", limit_flow p);
         ("_filterSpec", JBool false) ].

Definition next_body (p : params) (link : json) : json :=
  JObj [ ("edgeId", EdgeID p);
         ("interval", JObj [("start", start p); ("end", stop p)]);
         ("nextPageLink", link) ].

Definition build_body (p : params) (st : locals) : result json :=
  if first_page st then inr (first_body p)
  else (link <~ next_page_link (data st); inr (next_body p link))%result.

(** [len(data['data']) == 1 and data['data'][0].get("name") == "other"] *)
Definition only_other (items : json) : result bool :=
  (n <~ len items;
   if Nat.eqb n 1 then
     x <~ getitem_int items 0;
     nm <~ get x "name";
     inr (eq_str nm "other")
   else inr false)%result.

(** One iteration of the [while True] loop, from the outcome of
    [session.post] on. *)
Definition after_post (st : locals) (r : post_result) : M json control :=
  match r with
  | RequestException => (emit StreamEnd ;; ret Break)%m
  | Response status_code parsed =>
      if negb (status_code =? 200)%Z then (emit StreamEnd ;; ret Break)%m
      else
        match parsed with
        | None => (emit StreamEnd ;; ret Break)%m
        | Some d =>
            (missing <- lift (no_data d);
             if (missing : bool) then emit StreamEnd ;; ret Break
             else
               items <- lift (getitem d "data");
               _ <- lift (len items);
               skip <- lift (only_other items);
               first_page' <- (if (skip : bool) then ret (first_page st)
                               else emit items ;; ret false);
               stop_now <- lift (no_more d);
               if (stop_now : bool) then emit StreamEnd ;; ret Break
               else ret (Continue (mkLocals first_page' (Some d))))%m
        end
  end.

Definition fetch_data_worker (p : params) (script : list post_result) : run :=
  loop (build_body p) after_post (mkLocals true None) script.

(** The [for item in data_chunk] loop of [main]. *)
Fixpoint write_chunk (items : list json) (FirstElement : bool) : M file_op bool :=
  match items with
  | [] => ret FirstElement
  | item :: rest =>
      (nm <- lift (get item "name");
       if eq_str nm "other" then write_chunk rest FirstElement
       else
         (if negb FirstElement then emit (Write array_sep) else ret tt) ;;
         emit (WriteJson item 4) ;;
         write_chunk rest false)%m
  end.

Definition main_write (msgs : list json) : output :=
  write_file write_chunk msgs.

(** The worker and the main process joined by the queue. *)
Definition main (p : params) (script : list post_result) : output :=
  main_write (puts (fetch_data_worker p script)).

End EdgeFlow.

(** ** getVCOEnterpriseGetEnterpriseEvents.py *)

Module Events.

Record params : Type := mkParams {
  enterpriseId : json;
  start : json;
  stop : json;
  Vtype : json;
  limit_event : json
}.

Definition interval (p : params) : json :=
  JObj [("start", start p); ("end", stop p); ("type", Vtype p)].

Definition first_body (p : params) : json :=
  JObj [ ("filter", JObj [("limit", limit_event p)]);
         ("interval", interval p);
         ("enterpriseId", enterpriseId p) ].

Definition next_body (p : params) (link : json) : json :=
  JObj [ ("nextPageLink", link);
         ("limit", limit_event p);
         ("interval", interval p);
         ("enterpriseId", enterpriseId p) ].

Definition build_body (p : params) (st : locals) : result json :=
  if first_page st then inr (first_body p)
  else (link <~ next_page_link (data st); inr (next_body p link))%result.

Definition after_post (st : locals) (r : post_result) : M json control :=
  match r with
  | RequestException => (emit StreamEnd ;; ret Break)%m
  | Response status_code parsed =>
      if negb (status_code =? 200)%Z then (emit StreamEnd ;; ret Break)%m
      else
        match parsed with
        | None => (emit StreamEnd ;; ret Break)%m
        | Some d =>
            (missing <- lift (no_data d);
             if (missing : bool) then emit StreamEnd ;; ret Break
             else
               items <- lift (getitem d "data");
               _ <- lift (len items);
               emit items ;;
               stop_now <- lift (no_more d);
               if (stop_now : bool) then emit StreamEnd ;; ret Break
               else ret (Continue (mkLocals false (Some d))))%m
        end
  end.

Definition fetch_data_worker (p : params) (script : list post_result) : run :=
  loop (build_body p) after_post (mkLocals true None) script.

Fixpoint write_chunk (items : list json) (FirstElement : bool) : M file_op bool :=
  match items with
  | [] => ret FirstElement
  | item :: rest =>
      ((if negb FirstElement then emit (Write array_sep) else ret tt) ;;
       emit (WriteJson item 4) ;;
       write_chunk rest false)%m
  end.

Definition main_write (msgs : list json) : output :=
  write_file write_chunk msgs.

Definition main (p : params) (script : list post_result) : output :=
  main_write (puts (fetch_data_worker p script)).

End Events.

(** ** The text of the output file

    [json.dumps(item, indent=indent)] is the parameter [dumps]. *)

Definition is_line_boundary (c : ascii) : bool :=
  match nat_of_ascii c with
  | 10 | 11 | 12 | 13 | 28 | 29 | 30 | 133 => true
  | _ => false
  end.

(** [s.splitlines()], with [cur] the line read so far *)
Fixpoint splitlines_from (s : string) (cur : string) : list string :=
  match s with
  | EmptyString => if String.eqb cur "" then [] else [cur]
  | String c rest =>
      if Ascii.eqb c (ascii_of_nat 13) then
        match rest with
        | String c' rest' =>
            if Ascii.eqb c' (ascii_of_nat 10) then cur :: splitlines_from rest' ""
            else cur :: splitlines_from rest ""
        | EmptyString => cur :: splitlines_from rest ""
        end
      else if is_line_boundary c then cur :: splitlines_from rest ""
      else splitlines_from rest (cur ++ String c EmptyString)
  end.

Definition splitlines (s : string) : list string := splitlines_from s "".

Fixpoint spaces (n : nat) : string :=
  match n with
  | O => ""
  | S n' => " " ++ spaces n'
  end.

Section FileText.

Variable dumps : json -> nat -> string.

(** the string [write_json_with_indent] writes *)
Definition write_json_with_indent (item : json) (indent : nat) : string :=
  let json_str := dumps item indent in
  String.concat LF (map (fun line => spaces indent ++ line) (splitlines json_str)).

Definition op_text (op : file_op) : string :=
  match op with
  | Write s => s
  | WriteJson item indent => write_json_with_indent item indent
  end.

Definition file_text (l : list file_op) : string :=
  String.concat "" (map op_text l).

(** the text of one element of the array: [main] writes with indent 4 *)
Definition element_text (item : json) : string :=
  write_json_with_indent item 4.

End FileText.

(** ** Vocabulary of the properties *)

Definition is_object (v : json) : bool :=
  match v with
  | JObj _ => true
  | _ => false
  end.

(** an item whose "name" field equals "other" *)
Definition is_other (item : json) : bool :=
  match item with
  | JObj o => match assoc "name" o with
              | Some (JStr s) => String.eqb s "other"
              | _ => false
              end
  | _ => false
  end.

Definition not_other (item : json) : bool := negb (is_other item).

(** an item sequence that consists of exactly one item named "other" *)
Definition lone_other (items : list json) : bool :=
  match items with
  | [item] => is_other item
  | _ => false
  end.

(** the item sequence of a response: the list under "data" *)
Definition page_data (d : json) : option (list json) :=
  match d with
  | JObj kvs => match assoc "data" kvs with
                | Some (JArr l) => Some l
                | _ => None
                end
  | _ => None
  end.

Definition page_meta (d : json) : option (list (string * json)) :=
  match d with
  | JObj kvs => match assoc "metaData" kvs with
                | Some (JObj m) => Some m
                | _ => None
                end
  | _ => None
  end.

(** [metaData.more] and [metaData.nextPageLink] of a response *)
Definition page_more (d : json) : option json :=
  match page_meta d with
  | Some m => assoc "more" m
  | None => None
  end.

Definition page_link (d : json) : option json :=
  match page_meta d with
  | Some m => assoc "nextPageLink" m
  | None => None
  end.

Definition items_of (d : json) : list json :=
  match page_data d with
  | Some l => l
  | None => []
  end.

(** a successful page: status 200 and a body that parses to [d] *)
Definition ok (d : json) : post_result := Response 200 (Some d).

Definition field (k : string) (body : json) : option json :=
  match body with
  | JObj kvs => assoc k kvs
  | _ => None
  end.

Definition field_names (body : json) : list string :=
  match body with
  | JObj kvs => keys kvs
  | _ => []
  end.

Definition non_200 (r : post_result) : bool :=
  match r with
  | Response status_code _ => negb (status_code =? 200)%Z
  | RequestException => false
  end.

(** status 200 and a body that parses to an object without "data" *)
Definition missing_data (r : post_result) : bool :=
  match r with
  | Response status_code (Some (JObj kvs)) =>
      (status_code =? 200)%Z && match assoc "data" kvs with Some _ => false | None => true end
  | _ => false
  end.

(** The array the main process is meant to leave in the file: the opening
    bracket, the items separated by [",\n"], the closing bracket. *)
Definition following (items : list json) : list file_op :=
  flat_map (fun y => [Write array_sep; WriteJson y 4]) items.

Definition separated (items : list json) : list file_op :=
  match items with
  | [] => []
  | x :: rest => WriteJson x 4 :: following rest
  end.

(** the writes for [items] when the file holds no element yet
    ([FirstElement] true) or holds some *)
Definition chunk_ops (FirstElement : bool) (items : list json) : list file_op :=
  if FirstElement then separated items else following items.

Definition is_nil {A : Type} (l : list A) : bool :=
  match l with
  | [] => true
  | _ => false
  end.

Definition framed (items : list json) : list file_op :=
  (Write array_open :: separated items ++ [Write array_close])%list.

(** JSON text of an array (RFC 8259): [ws "[" ws] then nothing, or values
    separated by [ws "," ws], then [ws "]" ws].  [V] recognises the text of
    one value together with the white space around it. *)
Definition is_ws_char (c : ascii) : bool :=
  match nat_of_ascii c with
  | 9 | 10 | 13 | 32 => true
  | _ => false
  end.

Fixpoint is_ws (s : string) : bool :=
  match s with
  | EmptyString => true
  | String c rest => is_ws_char c && is_ws rest
  end.

Inductive elements_text (V : string -> Prop) : string -> Prop :=
| elements_one v : V v -> elements_text V v
| elements_more v w rest :
    V v -> is_ws w = true -> elements_text V rest ->
    elements_text V (v ++ "," ++ w ++ rest).

Inductive array_text (V : string -> Prop) : string -> Prop :=
| array_empty w : is_ws w = true -> array_text V ("[" ++ w ++ "]")
| array_elements w1 body w2 :
    is_ws w1 = true -> elements_text V body -> is_ws w2 = true ->
    array_text V ("[" ++ w1 ++ body ++ w2 ++ "]").

(** a response with status 200 whose item sequence is exactly one item
    named "other" *)
Definition lone_other_response (r : post_result) : bool :=
  match r with
  | Response status_code (Some d) =>
      (status_code =? 200)%Z &&
      match page_data d with
      | Some items => lone_other items
      | None => false
      end
  | _ => false
  end.

(** an item sequence the flow-metrics worker puts on the queue *)
Definition sent (items : list json) : bool := negb (lone_other items).

(** a page whose items are all objects *)
Definition well_formed_page (d : json) : bool :=
  match page_data d with
  | Some items => forallb is_object items
  | None => false
  end.

(** [metaData.more] is the boolean [b] *)
Definition more_is (b : bool) (d : json) : bool :=
  match page_more d with
  | Some (JBool b') => Bool.eqb b b'
  | _ => false
  end.

Definition has_link (d : json) : bool :=
  match page_link d with
  | Some _ => true
  | None => false
  end.

(** a page that announces a next page and says where it is *)
Definition inner_page (d : json) : bool :=
  well_formed_page d && more_is true d && has_link d.

(** a page that announces no next page *)
Definition last_page (d : json) : bool :=
  well_formed_page d && more_is false d.

(** a queue message that is not the end mark *)
Definition batch (m : json) : Prop := is_None m = false.

(** an iteration puts batches and then, on leaving the loop by [break] and
    only then, the end mark *)
Definition step_shape (after : locals -> post_result -> M json control) : Prop :=
  forall st r q c, after st r = (q, c) ->
    exists bs, Forall batch bs /\
      match c with
      | inr Break => q = (bs ++ [StreamEnd])%list
      | _ => q = bs
      end.

(** ** Sample data *)

Module Sample.

Definition item (n : Z) : json := JObj [("id", JNum n)].
Definition other : json := JObj [("name", JStr "other")].

Definition page (items : list json) (meta : list (string * json)) : json :=
  JObj [("data", JArr items); ("metaData", JObj meta)].

Definition P1 : json :=
  page [item 1; item 2] [("more", JBool true); ("nextPageLink", JStr "T1")].
Definition P2 : json := page [item 3] [("more", JBool false)].
Definition P_other : json :=
  page [other] [("more", JBool true); ("nextPageLink", JStr "T1")].
Definition P4 : json := page [item 4] [("more", JBool false)].
Definition P_other_last : json := page [other] [("more", JBool false)].
Definition P_empty : json := page [] [("more", JBool false)].
Definition P_no_link : json := page [item 1] [("more", JBool true)].

Definition flow : EdgeFlow.params :=
  EdgeFlow.mkParams (JNum 99) (JNum 42)
    (JStr "2024-02-20T03:04:00.000000000+00:00")
    (JStr "2025-02-22T15:04:00.000000000+00:00") (JNum 204800).

Definition events : Events.params :=
  Events.mkParams (JNum 42) (JNum 1708398240000) (JNum 1740236640000)
    (JStr "past12Months") (JNum 2048).

(** a stand-in for [json.dumps] where a text has to be computed: it
    tells objects from other values and no more *)
Definition dumps (v : json) (indent : nat) : string :=
  match v with
  | JObj _ => "{}"
  | _ => "null"
  end.

End Sample.

(** ** Further vocabulary: outcomes, pages and counts *)

(** an outcome on which the worker only signals the end: the post raised,
    the status is not 200, the body does not parse, or the parsed body is
    falsy or is an object, list or str in which "data" is not found *)
Definition ends_stream (r : post_result) : bool :=
  match r with
  | RequestException => true
  | Response status_code parsed =>
      negb (status_code =? 200)%Z ||
      match parsed with
      | None => true
      | Some d =>
          negb (truthy d) ||
          match d with
          | JObj kvs => match assoc "data" kvs with Some _ => false | None => true end
          | JArr l => negb (existsb (fun x => eq_str x "data") l)
          | JStr s => negb (substring_of "data" s)
          | _ => false
          end
      end
  end.

(** a page that holds only the "other" item and announces more pages *)
Definition lone_other_more (d : json) : bool :=
  lone_other (items_of d) && well_formed_page d && more_is true d.

(** a page after which the worker stops asking: no "metaData", or a
    "metaData" object in which "more" is absent or falsy *)
Definition ends_pagination (d : json) : bool :=
  match d with
  | JObj kvs =>
      match assoc "metaData" kvs with
      | None => true
      | Some (JObj m) =>
          match assoc "more" m with
          | None => true
          | Some v => negb (truthy v)
          end
      | Some _ => false
      end
  | _ => false
  end.

(** the number of queue messages that are not the end mark *)
Definition count_batches (q : list json) : nat :=
  List.length (filter (fun m => negb (is_None m)) q).

(** ** Lines and indentation *)

(** no character of [s] ends a line for [str.splitlines] *)
Fixpoint no_boundary (s : string) : bool :=
  match s with
  | EmptyString => true
  | String c rest => negb (is_line_boundary c) && no_boundary rest
  end.

(** ** Configuration, times and names

    What the library and the system give is a parameter: [int] on a str,
    [str.upper], [str.lower], [str] of a value that is not a str, a bool or
    None, [datetime.strptime] with the default format followed by
    [strftime], [time.mktime], and the UTC offset of the local time zone. *)

Record library : Type := mkLibrary {
  int_of_str : string -> option Z;        (* int(s); None: ValueError *)
  upper : string -> string;               (* s.upper() *)
  lower : string -> string;               (* s.lower() *)
  str_of : json -> string;                (* str(v) for numbers, lists, dicts *)
  strptime_base : string -> option string;
    (* datetime.strptime(s, "%Y-%m-%d %H:%M:%S").strftime('%Y-%m-%dT%H:%M:%S');
       None: ValueError *)
  mktime : string -> option Z;
    (* int(time.mktime(datetime.strptime(s, "%Y-%m-%d %H:%M:%S").timetuple()));
       None: ValueError *)
  local_offset_sec : Z
    (* -time.timezone if time.localtime().tm_isdst == 0 else -time.altzone *)
}.

(** How a call that does not return ends. *)
Inductive failure : Type :=
| Uncaught (e : exn)       (* an exception of [Py.exn] *)
| ValueError
| SystemExit (code : Z).   (* sys.exit(code) *)

Definition outcome (A : Type) : Type := (failure + A)%type.

Definition obind {A B : Type} (o : outcome A) (f : A -> outcome B) : outcome B :=
  match o with
  | inl e => inl e
  | inr a => f a
  end.

Declare Scope outcome_scope.
Delimit Scope outcome_scope with outcome.
Notation "x <-- o ; k" := (obind o (fun x => k))
  (at level 100, o at next level, right associativity) : outcome_scope.

(** [d.get(k, default)] and [d[k] = v] on a dict *)
Definition dict_get (d : list (string * json)) (k : string) (default : json) : json :=
  match assoc k d with
  | Some v => v
  | None => default
  end.

Fixpoint dict_set (d : list (string * json)) (k : string) (v : json)
  : list (string * json) :=
  match d with
  | [] => [(k, v)]
  | (k', v') :: rest =>
      if String.eqb k k' then (k', v) :: rest else (k', v') :: dict_set rest k v
  end.

(** [os.getenv(name, default)]: the environment holds strs *)
Definition getenv (env : string -> option string) (name : string) (default : json)
  : json :=
  match env name with
  | Some s => JStr s
  | None => default
  end.

(** [int(v)] *)
Definition py_int (L : library) (v : json) : outcome Z :=
  match v with
  | JNum n => inr n
  | JBool b => inr (if b then 1%Z else 0%Z)
  | JStr s => match int_of_str L s with
              | Some n => inr n
              | None => inl ValueError
              end
  | _ => inl (Uncaught TypeError)
  end.

(** [str(v)] *)
Definition py_str (L : library) (v : json) : string :=
  match v with
  | JStr s => s
  | JBool true => "True"
  | JBool false => "False"
  | JNull => "None"
  | _ => str_of L v
  end.

(** [s[:n]] and [s[n:]] *)
Fixpoint take (n : nat) (s : string) : string :=
  match n, s with
  | S n', String c rest => String c (take n' rest)
  | _, _ => EmptyString
  end.

Fixpoint drop (n : nat) (s : string) : string :=
  match n, s with
  | S n', String _ rest => drop n' rest
  | _, _ => s
  end.

(** ['%02d' % n] for [n < 100] *)
Definition digit (n : nat) : ascii := ascii_of_nat (48 + n).

Definition two_digits (n : nat) : string :=
  String (digit (n / 10)) (String (digit (n mod 10)) EmptyString).

(** [dt.strftime('%z')] for a time zone at [offset_sec] seconds from UTC,
    within a day of it: the sign, hours and minutes, and the seconds when
    there are any *)
Definition strftime_z (offset_sec : Z) : string :=
  let a := Z.to_nat (Z.abs offset_sec) in
  (if (offset_sec <? 0)%Z then "-" else "+") ++
  two_digits (a / 3600) ++ two_digits ((a mod 3600) / 60) ++
  (if Nat.eqb (a mod 60) 0 then "" else two_digits (a mod 60)).

(** [s.replace(a, b)] for one-character [a] and [b] *)
Fixpoint replace_char (a b : ascii) (s : string) : string :=
  match s with
  | EmptyString => EmptyString
  | String c rest => String (if Ascii.eqb c a then b else c) (replace_char a b rest)
  end.

(** the arguments argparse hands over: each is None or a str *)
Record cli_args : Type := mkArgs {
  start_human : option string;
  stop_human : option string
}.

(** [cli_args.x if cli_args and cli_args.x else fallback] *)
Definition cli_or (x : option string) (fallback : json) : json :=
  match x with
  | Some s => if String.eqb s "" then fallback else JStr s
  | None => fallback
  end.

Definition cli_start (cli : option cli_args) : option string :=
  match cli with
  | Some a => start_human a
  | None => None
  end.

Definition cli_stop (cli : option cli_args) : option string :=
  match cli with
  | Some a => stop_human a
  | None => None
  end.

(** [v.upper()] and [v.lower()]: a method of str only *)
Definition upper_of (L : library) (v : json) : outcome json :=
  match v with
  | JStr s => inr (JStr (upper L s))
  | _ => inl (Uncaught AttributeError)
  end.

(** [name.replace(':', '-').replace(' ', '_')] *)
Definition file_safe (s : string) : string :=
  replace_char " " "_" (replace_char ":" "-" s).

(** [os.getenv('SSL_VERIFY', str(config.get('ssl_verify', 'True'))).lower()
      in ('1', 'true', 'yes')] *)
Definition ssl_verify_of (L : library) (env : string -> option string)
    (config : list (string * json)) : bool :=
  match getenv env "SSL_VERIFY" (JStr (py_str L (dict_get config "ssl_verify" (JStr "True")))) with
  | JStr s =>
      let l := lower L s in
      String.eqb l "1" || String.eqb l "true" || String.eqb l "yes"
  | _ => false
  end.

Module EdgeFlowConfig.

Definition human_to_rfc3339_nano (L : library) (human_time : json)
    (tz_offset_min : option Z) : outcome string :=
  match human_time with
  | JStr s =>
      match strptime_base L s with
      | None => inl ValueError
      | Some base =>
          let offset_sec :=
            match tz_offset_min with
            | None => local_offset_sec L
            | Some m => (60 * m)%Z
            end in
          if ((-86400 <? offset_sec) && (offset_sec <? 86400))%Z then
            let offset := strftime_z offset_sec in
            let offset :=
              if negb (String.eqb offset "") then take 3 offset ++ ":" ++ drop 3 offset
              else "+00:00" in
            inr (base ++ ".000000000" ++ offset)
          else inl ValueError
      end
  | _ => inl (Uncaught TypeError)
  end.

(** [parsed]: what [parser.load(file)] returned, None when opening or
    parsing raised *)
Definition load_config (L : library) (env : string -> option string)
    (cli : option cli_args) (parsed : option json)
  : outcome (list (string * json)) :=
  match parsed with
  | None => inl (SystemExit 1)
  | Some (JObj config) =>
      (limit_flow <-- py_int L (getenv env "LIMIT_FLOW"
                                 (dict_get config "limit_flow" (JNum 204800)));
       let config := dict_set config "limit_flow" (JNum limit_flow) in
       let start_h := cli_or (cli_start cli)
                        (getenv env "START_HUMAN"
                           (dict_get config "start_human" (JStr "2024-02-20 03:04:00"))) in
       let stop_h := cli_or (cli_stop cli)
                       (getenv env "STOP_HUMAN"
                          (dict_get config "stop_human" (JStr "2025-02-22 15:04:00"))) in
       let config := dict_set config "start_human" start_h in
       let config := dict_set config "stop_human" stop_h in
       let config := dict_set config "VCO"
                       (getenv env "VCO"
                          (dict_get config "VCO" (JStr "vco99-us.velocloud.net"))) in
       let config := dict_set config "AUTHTOKEN"
                       (getenv env "AUTHTOKEN"
                          (dict_get config "AUTHTOKEN" (JStr "your_default_token"))) in
       let config := dict_set config "basepath"
                       (getenv env "BASEPATH"
                          (dict_get config "basepath" (JStr "/portal/rest/"))) in
       edge_id <-- py_int L (getenv env "EDGEID" (dict_get config "EdgeID" (JNum 12345)));
       let config := dict_set config "EdgeID" (JNum edge_id) in
       log_level <-- upper_of L (getenv env "LOG_LEVEL"
                                   (dict_get config "LOG_LEVEL" (JStr "INFO")));
       let config := dict_set config "log_level" log_level in
       let enterprise_id := getenv env "ENTERPRISEID" (dict_get config "enterpriseId" JNull) in
       if is_None enterprise_id then inl (SystemExit 1)
       else
         enterprise <-- py_int L enterprise_id;
         let config := dict_set config "enterpriseId" (JNum enterprise) in
         let config := dict_set config "ssl_verify" (JBool (ssl_verify_of L env config)) in
         start <-- human_to_rfc3339_nano L (dict_get config "start_human" JNull) None;
         let config := dict_set config "start" (JStr start) in
         stop <-- human_to_rfc3339_nano L (dict_get config "stop_human" JNull) None;
         inr (dict_set config "stop" (JStr stop)))%outcome
  | Some _ => inl (Uncaught AttributeError)
  end.

(** the file [main] opens for writing *)
Definition output_filename (start_human stop_human : string) : string :=
  "output-EdgeFlowVisibilityMetrics_" ++ file_safe start_human ++ "_to_" ++
  file_safe stop_human ++ ".json".

End EdgeFlowConfig.

Module EventsConfig.

Definition human_to_unixtime (L : library) (human_time : json) : outcome Z :=
  match human_time with
  | JStr s =>
      match mktime L s with
      | Some t => inr t
      | None => inl ValueError
      end
  | _ => inl (Uncaught TypeError)
  end.

Definition load_config (L : library) (env : string -> option string)
    (cli : option cli_args) (parsed : option json)
  : outcome (list (string * json)) :=
  match parsed with
  | None => inl (SystemExit 1)
  | Some (JObj config) =>
      (limit_event <-- py_int L (getenv env "LIMIT_EVENT"
                                  (dict_get config "limit_event" (JNum 2048)));
       let config := dict_set config "limit_event" (JNum limit_event) in
       let start_h := cli_or (cli_start cli)
                        (getenv env "START_HUMAN"
                           (dict_get config "start_human" (JStr "2024-02-20 03:04:00"))) in
       let stop_h := cli_or (cli_stop cli)
                       (getenv env "STOP_HUMAN"
                          (dict_get config "stop_human" (JStr "2025-02-22 15:04:00"))) in
       let config := dict_set config "start_human" start_h in
       let config := dict_set config "stop_human" stop_h in
       let config := dict_set config "VCO"
                       (getenv env "VCO"
                          (dict_get config "VCO" (JStr "vco99-us.velocloud.net"))) in
       let config := dict_set config "AUTHTOKEN"
                       (getenv env "AUTHTOKEN"
                          (dict_get config "AUTHTOKEN" (JStr "your_default_token"))) in
       let config := dict_set config "basepath"
                       (getenv env "BASEPATH"
                          (dict_get config "basepath" (JStr "/portal/rest/"))) in
       log_level <-- upper_of L (getenv env "LOG_LEVEL"
                                   (dict_get config "log_level" (JStr "INFO")));
       let config := dict_set config "log_level" log_level in
       let enterprise_id := getenv env "ENTERPRISEID" (dict_get config "enterpriseId" JNull) in
       if is_None enterprise_id then inl (SystemExit 1)
       else
         enterprise <-- py_int L enterprise_id;
         let config := dict_set config "enterpriseId" (JNum enterprise) in
         let config := dict_set config "ssl_verify" (JBool (ssl_verify_of L env config)) in
         start <-- human_to_unixtime L (dict_get config "start_human" JNull);
         let config := dict_set config "start" (JNum (start * 1000)) in
         stop <-- human_to_unixtime L (dict_get config "stop_human" JNull);
         inr (dict_set config "stop" (JNum (stop * 1000))))%outcome
  | Some _ => inl (Uncaught AttributeError)
  end.

Definition output_filename (start_human stop_human : string) : string :=
  "output-EnterpriseEvents_" ++ file_safe start_human ++ "_to_" ++
  file_safe stop_human ++ ".json".

End EventsConfig.

(** a library to compute with: decimal digits for [int], ASCII case,
    nineteen-character times *)
Module SampleLib.

Fixpoint digits_value (s : string) (acc : Z) : option Z :=
  match s with
  | EmptyString => Some acc
  | String c rest =>
      let n := nat_of_ascii c in
      if (48 <=? n)%nat && (n <=? 57)%nat
      then digits_value rest (10 * acc + Z.of_nat (n - 48))%Z
      else None
  end.

Definition int_of_str (s : string) : option Z :=
  match s with
  | EmptyString => None
  | _ => digits_value s 0
  end.

Definition upper_char (c : ascii) : ascii :=
  let n := nat_of_ascii c in
  if (97 <=? n)%nat && (n <=? 122)%nat then ascii_of_nat (n - 32) else c.

Definition lower_char (c : ascii) : ascii :=
  let n := nat_of_ascii c in
  if (65 <=? n)%nat && (n <=? 90)%nat then ascii_of_nat (n + 32) else c.

Fixpoint map_chars (f : ascii -> ascii) (s : string) : string :=
  match s with
  | EmptyString => EmptyString
  | String c rest => String (f c) (map_chars f rest)
  end.

Definition strptime_base (s : string) : option string :=
  if Nat.eqb (String.length s) 19 then Some (take 10 s ++ "T" ++ drop 11 s) else None.

Definition lib : library :=
  mkLibrary int_of_str (map_chars upper_char) (map_chars lower_char)
            (fun _ => "") strptime_base (fun _ => Some 0%Z) 3600.

Definition no_env : string -> option string := fun _ => None.

Definition env_of (kvs : list (string * string)) : string -> option string :=
  fun name => assoc name kvs.

End SampleLib.

(** [c in s] for a character [c] *)
Fixpoint occurs (c : ascii) (s : string) : bool :=
  match s with
  | EmptyString => false
  | String x rest => Ascii.eqb x c || occurs c rest
  end.

(** [config[k]] in [main] *)
Definition config_item (config : list (string * json)) (k : string) : outcome json :=
  match assoc k config with
  | Some v => inr v
  | None => inl (Uncaught KeyError)
  end.

(** the arguments [main] hands to the worker process *)
Module MainArgs.

Definition flow (config : list (string * json)) : outcome EdgeFlow.params :=
  (edge <-- config_item config "EdgeID";
   enterprise <-- config_item config "enterpriseId";
   start <-- config_item config "start";
   stop <-- config_item config "stop";
   limit <-- config_item config "limit_flow";
   inr (EdgeFlow.mkParams edge enterprise start stop limit))%outcome.

(** [Vtype] is the constant "past12Months" of [main] *)
Definition events (config : list (string * json)) : outcome Events.params :=
  (enterprise <-- config_item config "enterpriseId";
   start <-- config_item config "start";
   stop <-- config_item config "stop";
   limit <-- config_item config "limit_event";
   inr (Events.mkParams enterprise start stop (JStr "past12Months") limit))%outcome.

End MainArgs.

Definition is_number (v : json) : bool :=
  match v with
  | JNum _ => true
  | _ => false
  end.

Definition is_str (v : json) : bool :=
  match v with
  | JStr _ => true
  | _ => false
  end.

(** the value a setting takes: the environment first, then the file, then
    the default *)
Definition setting (env : string -> option string) (config : list (string * json))
    (name key : string) (default : json) : json :=
  getenv env name (dict_get config key default).

(** the last character of a text *)
Fixpoint last_char (s : string) : option ascii :=
  match s with
  | EmptyString => None
  | String c rest =>
      match rest with
      | EmptyString => Some c
      | _ => last_char rest
      end
  end.

(** how many times the end mark is on a queue *)
Definition count_occ_end (q : list json) : nat :=
  List.length (filter is_None q).

(** * Properties *)

Arguments assoc : simpl never.
Arguments String.eqb : simpl never.

(** ** The monad *)

Lemma bind_ret {E A B : Type} (a : A) (f : A -> M E B) :
  bind (ret a) f = f a.
Proof. unfold bind, ret; simpl. now destruct (f a). Qed.

Lemma bind_lift_inl {E A B : Type} (e : exn) (f : A -> M E B) :
  bind (lift (inl e)) f = ([], inl e).
Proof. reflexivity. Qed.

Lemma bind_lift_inr {E A B : Type} (a : A) (f : A -> M E B) :
  bind (lift (inr a)) f = f a.
Proof. unfold bind, lift; simpl. now destruct (f a). Qed.

Lemma bind_emit {E B : Type} (ev : E) (f : unit -> M E B) :
  bind (emit ev) f = (ev :: fst (f tt), snd (f tt)).
Proof. reflexivity. Qed.

Lemma emit_end_break {E : Type} (ev : E) :
  bind (emit ev) (fun _ => @ret E control Break) = ([ev], inr Break).
Proof. reflexivity. Qed.

(** ** The loop *)

Section LoopFacts.

Variable build : locals -> result json.
Variable after : locals -> post_result -> M json control.

Lemma loop_nil st :
  loop build after st [] =
    match build st with
    | inl e => mkRun [] [] (Raised e)
    | inr body => mkRun [body] [] AwaitingResponse
    end.
Proof. reflexivity. Qed.

Lemma loop_cons st r script :
  loop build after st (r :: script) =
    match build st with
    | inl e => mkRun [] [] (Raised e)
    | inr body =>
        match after st r with
        | (q, inl e) => mkRun [body] q (Raised e)
        | (q, inr Break) => mkRun [body] q Finished
        | (q, inr (Continue st')) =>
            let rest := loop build after st' script in
            mkRun (body :: requests rest) (q ++ puts rest)%list (final rest)
        end
    end.
Proof. reflexivity. Qed.

(** A response at which every run that reaches it stops, with the same
    puts [q] and the same status [f], stops a run at any depth, and
    changes nothing in a run that does not reach it. *)
Lemma loop_app_stop bad q f :
  (forall st body rest, build st = inr body ->
     loop build after st (bad :: rest) = mkRun [body] q f) ->
  forall pre st rest,
    loop build after st (pre ++ bad :: rest) =
      match final (loop build after st pre) with
      | AwaitingResponse =>
          mkRun (requests (loop build after st pre))
                (puts (loop build after st pre) ++ q) f
      | _ => loop build after st pre
      end.
Proof.
  intros Hbad pre.
  induction pre as [|r pre IH]; intros st rest.
  - simpl app. rewrite loop_nil.
    destruct (build st) as [e|body] eqn:Hb.
    + rewrite loop_cons, Hb. reflexivity.
    + now rewrite (Hbad _ _ rest Hb).
  - simpl app. rewrite !loop_cons.
    destruct (build st) as [e|body]; [reflexivity|].
    destruct (after st r) as [q0 [e|[st'|]]]; try reflexivity.
    cbv zeta. rewrite IH.
    destruct (loop build after st' pre) as [rq pq [ | e | ]]; simpl; try reflexivity.
    now rewrite app_assoc.
Qed.

Lemma loop_app_end bad :
  (forall st, after st bad = ([StreamEnd], inr Break)) ->
  forall pre st rest,
    loop build after st (pre ++ bad :: rest) =
      match final (loop build after st pre) with
      | AwaitingResponse =>
          mkRun (requests (loop build after st pre))
                (puts (loop build after st pre) ++ [StreamEnd]) Finished
      | _ => loop build after st pre
      end.
Proof.
  intros Hbad. apply loop_app_stop.
  intros st body rest Hb. now rewrite loop_cons, Hb, Hbad.
Qed.

(** The first request is built from the initial locals; a later request
    exists only when the iteration before it went on. *)
Lemma requests_zero st script body :
  nth_error (requests (loop build after st script)) 0 = Some body ->
  build st = inr body.
Proof.
  destruct script as [|r script]; [rewrite loop_nil|rewrite loop_cons].
  - destruct (build st); simpl; [discriminate|now intros [= ->]].
  - destruct (build st) as [e|b]; simpl; [discriminate|].
    destruct (after st r) as [q [e|[st'|]]]; simpl; now intros [= ->].
Qed.

Lemma requests_succ st script i body :
  nth_error (requests (loop build after st script)) (S i) = Some body ->
  exists r script' q st',
    script = r :: script' /\
    after st r = (q, inr (Continue st')) /\
    nth_error (requests (loop build after st' script')) i = Some body.
Proof.
  destruct script as [|r script]; [rewrite loop_nil|rewrite loop_cons].
  - destruct (build st); simpl; [discriminate|].
    destruct i; discriminate.
  - destruct (build st) as [e|b]; simpl; [discriminate|].
    destruct (after st r) as [q [e|[st'|]]] eqn:Ha; simpl;
      try (destruct i; discriminate).
    intros H. now exists r, script, q, st'.
Qed.

(** The queue of a run, when every iteration puts batches and then, on
    leaving the loop by [break] and only then, the end mark. *)
Lemma loop_shape :
  step_shape after ->
  forall script st,
    exists bs, Forall batch bs /\
      match final (loop build after st script) with
      | Finished => puts (loop build after st script) = (bs ++ [StreamEnd])%list
      | _ => puts (loop build after st script) = bs
      end.
Proof.
  intros Hstep script.
  induction script as [|r script IH]; intros st.
  - rewrite loop_nil. destruct (build st); exists []; simpl; auto.
  - rewrite loop_cons. destruct (build st) as [e|body].
    + exists []; simpl; auto.
    + destruct (after st r) as [q c] eqn:Hafter.
      destruct (Hstep _ _ _ _ Hafter) as [bs [Hbs Hq]].
      destruct c as [e|[st'|]]; simpl.
      * exists bs; auto.
      * destruct (IH st') as [bs' [Hbs' Hrest]].
        exists (bs ++ bs')%list. split; [apply Forall_app; auto|].
        subst q.
        destruct (loop build after st' script) as [rq pq [ | e' | ]];
          simpl in *; subst pq; now rewrite ?app_assoc.
      * exists bs; auto.
Qed.

End LoopFacts.

(** ** One iteration of the workers *)

Lemma len_batch v n : len v = inr n -> batch v.
Proof. destruct v; simpl; intros H; try discriminate; reflexivity. Qed.

Lemma no_data_page d items : page_data d = Some items -> no_data d = inr false.
Proof.
  unfold page_data, no_data. destruct d as [ | | | | |kvs]; try discriminate.
  destruct kvs as [|kv kvs]; [discriminate|].
  simpl.
  destruct (assoc "data" (kv :: kvs)) as [[ | | | | | ]|]; try discriminate.
  reflexivity.
Qed.

Lemma getitem_page d items : page_data d = Some items -> getitem d "data" = inr (JArr items).
Proof.
  unfold page_data. destruct d as [ | | | | |kvs]; try discriminate.
  simpl. destruct (assoc "data" kvs) as [[ | | | | | ]|]; try discriminate.
  now intros [= ->].
Qed.

Lemma get_name_other item : is_object item = true ->
  rbind (get item "name") (fun nm => inr (eq_str nm "other")) = inr (is_other item).
Proof.
  destruct item as [ | | | | |o]; try discriminate. intros _. simpl.
  destruct (assoc "name" o) as [[ | | | | | ]|]; reflexivity.
Qed.

Lemma only_other_objects items :
  forallb is_object items = true ->
  EdgeFlow.only_other (JArr items) = inr (lone_other items).
Proof.
  intros H. unfold EdgeFlow.only_other. simpl len. simpl rbind.
  destruct items as [|x [|y rest]]; simpl; try reflexivity.
  simpl in H. apply andb_prop in H. destruct H as [Hx _].
  now apply get_name_other.
Qed.

Lemma no_more_false d : page_more d = Some (JBool false) -> no_more d = inr true.
Proof.
  unfold page_more, page_meta, no_more.
  destruct d as [ | | | | |kvs]; try discriminate. simpl.
  destruct (assoc "metaData" kvs) as [[ | | | | |m]|]; try discriminate. simpl.
  intros ->. reflexivity.
Qed.

Lemma no_more_true d : page_more d = Some (JBool true) -> no_more d = inr false.
Proof.
  unfold page_more, page_meta, no_more.
  destruct d as [ | | | | |kvs]; try discriminate. simpl.
  destruct (assoc "metaData" kvs) as [[ | | | | |m]|]; try discriminate. simpl.
  intros ->. reflexivity.
Qed.

Lemma next_page_link_page d tok :
  page_link d = Some tok -> next_page_link (Some d) = inr tok.
Proof.
  unfold page_link, page_meta, next_page_link.
  destruct d as [ | | | | |kvs]; try discriminate. simpl.
  destruct (assoc "metaData" kvs) as [[ | | | | |m]|]; try discriminate. simpl.
  intros ->. reflexivity.
Qed.

Lemma next_page_link_missing d m :
  page_meta d = Some m -> assoc "nextPageLink" m = None ->
  next_page_link (Some d) = inl KeyError.
Proof.
  unfold page_meta, next_page_link.
  destruct d as [ | | | | |kvs]; try discriminate. simpl.
  destruct (assoc "metaData" kvs) as [[ | | | | |m']|]; try discriminate. simpl.
  intros [= ->] ->. reflexivity.
Qed.

(** The iteration on a response that is fatal: the status is not 200, or
    the body is an object without "data". *)
Lemma no_data_missing kvs : assoc "data" kvs = None -> no_data (JObj kvs) = inr true.
Proof.
  intros H. unfold no_data. destruct kvs as [|kv kvs]; [reflexivity|].
  simpl. now rewrite H.
Qed.

Lemma EdgeFlow_after_fatal st r :
  non_200 r || missing_data r = true ->
  EdgeFlow.after_post st r = ([StreamEnd], inr Break).
Proof.
  destruct r as [|code parsed]; simpl; [discriminate|].
  destruct (code =? 200)%Z; simpl; [|reflexivity].
  destruct parsed as [[ | | | | |kvs]|]; try discriminate.
  destruct (assoc "data" kvs) eqn:Hd; [discriminate|]. intros _.
  now rewrite (no_data_missing _ Hd).
Qed.

Lemma Events_after_fatal st r :
  non_200 r || missing_data r = true ->
  Events.after_post st r = ([StreamEnd], inr Break).
Proof.
  destruct r as [|code parsed]; simpl; [discriminate|].
  destruct (code =? 200)%Z; simpl; [|reflexivity].
  destruct parsed as [[ | | | | |kvs]|]; try discriminate.
  destruct (assoc "data" kvs) eqn:Hd; [discriminate|]. intros _.
  now rewrite (no_data_missing _ Hd).
Qed.

(** The iteration on a page: a response with status 200 whose body holds a
    list under "data". *)
Lemma EdgeFlow_after_page st d items :
  page_data d = Some items ->
  EdgeFlow.after_post st (ok d) =
    match EdgeFlow.only_other (JArr items) with
    | inl e => ([], inl e)
    | inr skip =>
        let q := if skip then [] else [JArr items] in
        match no_more d with
        | inl e => (q, inl e)
        | inr true => (q ++ [StreamEnd], inr Break)%list
        | inr false =>
            (q, inr (Continue (mkLocals (if skip then first_page st else false) (Some d))))
        end
    end.
Proof.
  intros Hd. unfold EdgeFlow.after_post, ok. simpl negb. cbv iota.
  rewrite (no_data_page _ _ Hd), bind_lift_inr.
  rewrite (getitem_page _ _ Hd), bind_lift_inr.
  simpl len. rewrite bind_lift_inr.
  destruct (EdgeFlow.only_other (JArr items)) as [e|[|]]; [reflexivity| |].
  - rewrite bind_lift_inr, bind_ret.
    destruct (no_more d) as [e|[|]]; reflexivity.
  - rewrite bind_lift_inr.
    destruct (no_more d) as [e|[|]]; reflexivity.
Qed.

Lemma Events_after_page st d items :
  page_data d = Some items ->
  Events.after_post st (ok d) =
    match no_more d with
    | inl e => ([JArr items], inl e)
    | inr true => ([JArr items; StreamEnd], inr Break)
    | inr false => ([JArr items], inr (Continue (mkLocals false (Some d))))
    end.
Proof.
  intros Hd. unfold Events.after_post, ok. simpl negb. cbv iota.
  rewrite (no_data_page _ _ Hd), bind_lift_inr.
  rewrite (getitem_page _ _ Hd), bind_lift_inr.
  simpl len. rewrite bind_lift_inr.
  destruct (no_more d) as [e|[|]]; reflexivity.
Qed.

Ltac shape_with bs :=
  exists bs; split; [repeat constructor; eauto using len_batch | reflexivity].

Lemma EdgeFlow_step_shape : step_shape EdgeFlow.after_post.
Proof.
  intros st r q c. unfold EdgeFlow.after_post.
  destruct r as [|code parsed]; [intros [= <- <-]; shape_with (@nil json)|].
  destruct (negb (code =? 200)%Z); [intros [= <- <-]; shape_with (@nil json)|].
  destruct parsed as [d|]; [|intros [= <- <-]; shape_with (@nil json)].
  destruct (no_data d) as [e|[|]];
    [intros [= <- <-]; shape_with (@nil json)
    |intros [= <- <-]; shape_with (@nil json)|].
  rewrite bind_lift_inr.
  destruct (getitem d "data") as [e|items];
    [intros [= <- <-]; shape_with (@nil json)|].
  rewrite bind_lift_inr.
  destruct (len items) as [e|n] eqn:Hlen;
    [intros [= <- <-]; shape_with (@nil json)|].
  rewrite bind_lift_inr.
  destruct (EdgeFlow.only_other items) as [e|[|]];
    [intros [= <- <-]; shape_with (@nil json)| |].
  - rewrite bind_lift_inr, bind_ret.
    destruct (no_more d) as [e|[|]]; intros [= <- <-]; shape_with (@nil json).
  - rewrite bind_lift_inr.
    destruct (no_more d) as [e|[|]]; intros [= <- <-]; shape_with [items].
Qed.

Lemma Events_step_shape : step_shape Events.after_post.
Proof.
  intros st r q c. unfold Events.after_post.
  destruct r as [|code parsed]; [intros [= <- <-]; shape_with (@nil json)|].
  destruct (negb (code =? 200)%Z); [intros [= <- <-]; shape_with (@nil json)|].
  destruct parsed as [d|]; [|intros [= <- <-]; shape_with (@nil json)].
  destruct (no_data d) as [e|[|]];
    [intros [= <- <-]; shape_with (@nil json)
    |intros [= <- <-]; shape_with (@nil json)|].
  rewrite bind_lift_inr.
  destruct (getitem d "data") as [e|items];
    [intros [= <- <-]; shape_with (@nil json)|].
  rewrite bind_lift_inr.
  destruct (len items) as [e|n] eqn:Hlen;
    [intros [= <- <-]; shape_with (@nil json)|].
  rewrite bind_lift_inr.
  destruct (no_more d) as [e|[|]]; intros [= <- <-]; shape_with [items].
Qed.

(** ** Runs of the workers *)

Lemma awaiting_puts_batches build after script st :
  step_shape after ->
  final (loop build after st script) = AwaitingResponse ->
  Forall batch (puts (loop build after st script)).
Proof.
  intros Hstep Hf.
  destruct (loop_shape build after Hstep script st) as [bs [Hbs Hp]].
  rewrite Hf in Hp. now rewrite Hp.
Qed.

Lemma batch_not_end m : batch m -> m <> StreamEnd.
Proof. intros H ->. discriminate H. Qed.

Lemma batches_no_end bs : Forall batch bs -> ~ In StreamEnd bs.
Proof.
  intros H Hin. rewrite Forall_forall in H.
  exact (batch_not_end _ (H _ Hin) eq_refl).
Qed.

(** Fatal responses: a response whose status is not 200, or whose body
    parses to an object without a "data" field, makes the worker put exactly one
    StreamEnd and stop: whatever batches the run had put before reaching
    that response, its queue is those batches followed by the one StreamEnd,
    no request is sent after it, and nothing of the script behind it
    matters.  The two kinds of response are interchangeable: replacing one
    by the other, with any continuation, gives the same run.  This holds
    for the flow-metrics worker and for the events worker. *)
Theorem fatal_response_ends_stream :
  forall (pE : EdgeFlow.params) (pV : Events.params)
         (pre : list post_result) (bad : post_result) (rest : list post_result),
    non_200 bad || missing_data bad = true ->
    (final (EdgeFlow.fetch_data_worker pE pre) = AwaitingResponse ->
       Forall batch (puts (EdgeFlow.fetch_data_worker pE pre)) /\
       EdgeFlow.fetch_data_worker pE (pre ++ bad :: rest) =
         mkRun (requests (EdgeFlow.fetch_data_worker pE pre))
               (puts (EdgeFlow.fetch_data_worker pE pre) ++ [StreamEnd]) Finished) /\
    (final (Events.fetch_data_worker pV pre) = AwaitingResponse ->
       Forall batch (puts (Events.fetch_data_worker pV pre)) /\
       Events.fetch_data_worker pV (pre ++ bad :: rest) =
         mkRun (requests (Events.fetch_data_worker pV pre))
               (puts (Events.fetch_data_worker pV pre) ++ [StreamEnd]) Finished) /\
    (forall bad' rest',
       non_200 bad' || missing_data bad' = true ->
       EdgeFlow.fetch_data_worker pE (pre ++ bad :: rest) =
         EdgeFlow.fetch_data_worker pE (pre ++ bad' :: rest') /\
       Events.fetch_data_worker pV (pre ++ bad :: rest) =
         Events.fetch_data_worker pV (pre ++ bad' :: rest')).
Proof.
  intros pE pV pre bad rest Hbad.
  assert (HE : forall b, non_200 b || missing_data b = true ->
            forall st, EdgeFlow.after_post st b = ([StreamEnd], inr Break))
    by (intros b Hb st; now apply EdgeFlow_after_fatal).
  assert (HV : forall b, non_200 b || missing_data b = true ->
            forall st, Events.after_post st b = ([StreamEnd], inr Break))
    by (intros b Hb st; now apply Events_after_fatal).
  unfold EdgeFlow.fetch_data_worker, Events.fetch_data_worker.
  repeat split.
  - now apply awaiting_puts_batches with (1 := EdgeFlow_step_shape).
  - rewrite (loop_app_end _ _ bad (HE bad Hbad)). now rewrite H.
  - now apply awaiting_puts_batches with (1 := Events_step_shape).
  - rewrite (loop_app_end _ _ bad (HV bad Hbad)). now rewrite H.
  - rewrite (loop_app_end _ _ bad (HE bad Hbad)).
    now rewrite (loop_app_end _ _ bad' (HE bad' H)).
  - rewrite (loop_app_end _ _ bad (HV bad Hbad)).
    now rewrite (loop_app_end _ _ bad' (HV bad' H)).
Qed.

Lemma fatal_response_ends_stream_witness :
  non_200 (Response 500 None) || missing_data (Response 500 None) = true /\
  final (EdgeFlow.fetch_data_worker Sample.flow [ok Sample.P1]) = AwaitingResponse /\
  EdgeFlow.fetch_data_worker Sample.flow ([ok Sample.P1] ++ Response 500 None :: [ok Sample.P2]) =
    mkRun [EdgeFlow.first_body Sample.flow; EdgeFlow.next_body Sample.flow (JStr "T1")]
          [JArr [Sample.item 1; Sample.item 2]; StreamEnd] Finished /\
  Events.fetch_data_worker Sample.events ([ok Sample.P1] ++ Response 500 None :: [ok Sample.P2]) =
    Events.fetch_data_worker Sample.events
      ([ok Sample.P1] ++ ok (JObj [("metaData", JObj [("more", JBool true)])]) :: []).
Proof.
  pose proof (fatal_response_ends_stream Sample.flow Sample.events
                [ok Sample.P1] (Response 500 None) [ok Sample.P2] eq_refl)
    as [HE [_ Hsame]].
  split; [reflexivity|]. split; [reflexivity|]. split.
  - destruct (HE eq_refl) as [_ Heq]. rewrite Heq. reflexivity.
  - apply (Hsame (ok (JObj [("metaData", JObj [("more", JBool true)])])) [] eq_refl).
Defined.

(** The iteration on a page that announces more pages and carries no
    "nextPageLink": the batch is put, the loop goes on without the first-page
    flag, and the next request body cannot be built. *)
Lemma EdgeFlow_no_link_stops pE d items :
  page_data d = Some items ->
  forallb is_object items = true ->
  lone_other items = false ->
  page_more d = Some (JBool true) ->
  page_link d = None ->
  forall st body rest,
    EdgeFlow.build_body pE st = inr body ->
    loop (EdgeFlow.build_body pE) EdgeFlow.after_post st (ok d :: rest) =
      mkRun [body] [JArr items] (Raised KeyError).
Proof.
  intros Hd Hobj Hlone Hmore Hlink st body rest Hb.
  rewrite loop_cons, Hb, (EdgeFlow_after_page _ _ _ Hd).
  rewrite (only_other_objects _ Hobj), Hlone, (no_more_true _ Hmore). cbv zeta.
  destruct rest as [|r rest]; [rewrite loop_nil|rewrite loop_cons];
    unfold EdgeFlow.build_body; simpl first_page; simpl data; cbv iota.
  all: unfold page_more, page_link in *;
    destruct (page_meta d) as [m|] eqn:Hm; [|discriminate];
    rewrite (next_page_link_missing _ _ Hm Hlink); reflexivity.
Qed.

Lemma Events_no_link_stops pV d items :
  page_data d = Some items ->
  page_more d = Some (JBool true) ->
  page_link d = None ->
  forall st body rest,
    Events.build_body pV st = inr body ->
    loop (Events.build_body pV) Events.after_post st (ok d :: rest) =
      mkRun [body] [JArr items] (Raised KeyError).
Proof.
  intros Hd Hmore Hlink st body rest Hb.
  rewrite loop_cons, Hb, (Events_after_page _ _ _ Hd), (no_more_true _ Hmore).
  destruct rest as [|r rest]; [rewrite loop_nil|rewrite loop_cons];
    unfold Events.build_body; simpl first_page; simpl data; cbv iota.
  all: unfold page_more, page_link in *;
    destruct (page_meta d) as [m|] eqn:Hm; [|discriminate];
    rewrite (next_page_link_missing _ _ Hm Hlink); reflexivity.
Qed.

(** C2, at the input where the code departs from it: the first response is
    a page with one item, "more" true and no "nextPageLink".  Both workers
    put the batch, raise KeyError while building the next request body and
    end without a StreamEnd on the queue; the main process then waits on
    the queue for ever and the file is left without its closing bracket. *)
Theorem stream_end_missing_after_key_error :
  EdgeFlow.fetch_data_worker Sample.flow [ok Sample.P_no_link; ok Sample.P2] =
    mkRun [EdgeFlow.first_body Sample.flow] [JArr [Sample.item 1]] (Raised KeyError) /\
  Events.fetch_data_worker Sample.events [ok Sample.P_no_link; ok Sample.P2] =
    mkRun [Events.first_body Sample.events] [JArr [Sample.item 1]] (Raised KeyError) /\
  ~ In StreamEnd (puts (EdgeFlow.fetch_data_worker Sample.flow [ok Sample.P_no_link; ok Sample.P2])) /\
  ~ In StreamEnd (puts (Events.fetch_data_worker Sample.events [ok Sample.P_no_link; ok Sample.P2])) /\
  EdgeFlow.main Sample.flow [ok Sample.P_no_link; ok Sample.P2] =
    mkOutput [Write array_open; WriteJson (Sample.item 1) 4] Blocked /\
  Events.main Sample.events [ok Sample.P_no_link; ok Sample.P2] =
    mkOutput [Write array_open; WriteJson (Sample.item 1) 4] Blocked.
Proof.
  repeat split; try reflexivity.
  - simpl. intros [H|[]]. discriminate H.
  - simpl. intros [H|[]]. discriminate H.
Qed.

(** C9: a page that announces more pages ("more" true) and carries no
    "nextPageLink" stops the worker with an unhandled KeyError, raised while
    the next request body is built, and no StreamEnd is ever put: the run
    that reaches such a page ends with the batches put so far and that
    page's batch, in state Raised KeyError, whatever the transport would
    have answered next.  For the flow-metrics worker the page is one whose
    batch is sent (its items are objects and it is not the lone "other"
    page); the events worker sends every page. *)
Theorem more_without_link_raises :
  forall (pE : EdgeFlow.params) (pV : Events.params)
         (pre : list post_result) (d : json) (items : list json)
         (rest : list post_result),
    page_data d = Some items ->
    forallb is_object items = true ->
    lone_other items = false ->
    page_more d = Some (JBool true) ->
    page_link d = None ->
    (final (EdgeFlow.fetch_data_worker pE pre) = AwaitingResponse ->
       let r := EdgeFlow.fetch_data_worker pE (pre ++ ok d :: rest) in
       r = mkRun (requests (EdgeFlow.fetch_data_worker pE pre))
                 (puts (EdgeFlow.fetch_data_worker pE pre) ++ [JArr items])
                 (Raised KeyError) /\
       ~ In StreamEnd (puts r)) /\
    (final (Events.fetch_data_worker pV pre) = AwaitingResponse ->
       let r := Events.fetch_data_worker pV (pre ++ ok d :: rest) in
       r = mkRun (requests (Events.fetch_data_worker pV pre))
                 (puts (Events.fetch_data_worker pV pre) ++ [JArr items])
                 (Raised KeyError) /\
       ~ In StreamEnd (puts r)).
Proof.
  intros pE pV pre d items rest Hd Hobj Hlone Hmore Hlink.
  unfold EdgeFlow.fetch_data_worker, Events.fetch_data_worker.
  split; intros Hf; cbv zeta.
  - rewrite (loop_app_stop _ _ (ok d) [JArr items] (Raised KeyError)
               (EdgeFlow_no_link_stops pE d items Hd Hobj Hlone Hmore Hlink)).
    rewrite Hf. split; [reflexivity|]. simpl puts.
    intros Hin. apply in_app_or in Hin. destruct Hin as [Hin|[H|[]]]; [|discriminate H].
    exact (batches_no_end _
             (awaiting_puts_batches _ _ _ _ EdgeFlow_step_shape Hf) Hin).
  - rewrite (loop_app_stop _ _ (ok d) [JArr items] (Raised KeyError)
               (Events_no_link_stops pV d items Hd Hmore Hlink)).
    rewrite Hf. split; [reflexivity|]. simpl puts.
    intros Hin. apply in_app_or in Hin. destruct Hin as [Hin|[H|[]]]; [|discriminate H].
    exact (batches_no_end _
             (awaiting_puts_batches _ _ _ _ Events_step_shape Hf) Hin).
Qed.

Lemma more_without_link_raises_witness :
  EdgeFlow.fetch_data_worker Sample.flow ([ok Sample.P1] ++ ok Sample.P_no_link :: [ok Sample.P2]) =
    mkRun [EdgeFlow.first_body Sample.flow; EdgeFlow.next_body Sample.flow (JStr "T1")]
          [JArr [Sample.item 1; Sample.item 2]; JArr [Sample.item 1]] (Raised KeyError) /\
  Events.fetch_data_worker Sample.events ([ok Sample.P1] ++ ok Sample.P_no_link :: [ok Sample.P2]) =
    mkRun [Events.first_body Sample.events; Events.next_body Sample.events (JStr "T1")]
          [JArr [Sample.item 1; Sample.item 2]; JArr [Sample.item 1]] (Raised KeyError).
Proof.
  pose proof (more_without_link_raises Sample.flow Sample.events
                [ok Sample.P1] Sample.P_no_link [Sample.item 1] [ok Sample.P2]
                eq_refl eq_refl eq_refl eq_refl eq_refl) as [HE HV].
  split.
  - destruct (HE eq_refl) as [Heq _]. rewrite Heq. reflexivity.
  - destruct (HV eq_refl) as [Heq _]. rewrite Heq. reflexivity.
Defined.

(** ** Pages that hold only the "other" item *)

Lemma EdgeFlow_first_page_any_data pE x y script :
  loop (EdgeFlow.build_body pE) EdgeFlow.after_post (mkLocals true x) script =
  loop (EdgeFlow.build_body pE) EdgeFlow.after_post (mkLocals true y) script.
Proof. destruct script; reflexivity. Qed.

Lemma is_other_object item : is_other item = true -> is_object item = true.
Proof. destruct item; simpl; intros H; try discriminate; reflexivity. Qed.

Lemma only_other_lone item :
  is_other item = true -> EdgeFlow.only_other (JArr [item]) = inr true.
Proof.
  intros H. rewrite only_other_objects.
  - simpl. now rewrite H.
  - simpl. now rewrite (is_other_object _ H).
Qed.

(** C3 (amended): in the flow-metrics worker, a response whose item
    sequence is exactly one item named "other" puts no batch and leaves
    the first-page flag as it was, and the "more" test of that same response
    still decides: it raises, ends the stream, or lets the loop go on.  With
    "more" true on the first response the run is the first request followed
    by the run of a fresh worker on the rest of the script: no StreamEnd and
    no batch for that page.  The events worker has no such rule: it puts the
    same page as a batch and clears the first-page flag. *)
Theorem lone_other_page_is_skipped :
  forall (pE : EdgeFlow.params) (st : locals) (d : json) (item : json),
    page_data d = Some [item] ->
    is_other item = true ->
    EdgeFlow.after_post st (ok d) =
      match no_more d with
      | inl e => ([], inl e)
      | inr true => ([StreamEnd], inr Break)
      | inr false => ([], inr (Continue (mkLocals (first_page st) (Some d))))
      end /\
    (page_more d = Some (JBool true) ->
     forall rest,
       EdgeFlow.fetch_data_worker pE (ok d :: rest) =
         mkRun (EdgeFlow.first_body pE :: requests (EdgeFlow.fetch_data_worker pE rest))
               (puts (EdgeFlow.fetch_data_worker pE rest))
               (final (EdgeFlow.fetch_data_worker pE rest))) /\
    Events.after_post st (ok d) =
      match no_more d with
      | inl e => ([JArr [item]], inl e)
      | inr true => ([JArr [item]; StreamEnd], inr Break)
      | inr false => ([JArr [item]], inr (Continue (mkLocals false (Some d))))
      end.
Proof.
  intros pE st d item Hd Hother.
  assert (Hstep : forall st', EdgeFlow.after_post st' (ok d) =
      match no_more d with
      | inl e => ([], inl e)
      | inr true => ([StreamEnd], inr Break)
      | inr false => ([], inr (Continue (mkLocals (first_page st') (Some d))))
      end).
  { intros st'. rewrite (EdgeFlow_after_page _ _ _ Hd), (only_other_lone _ Hother).
    cbv zeta. destruct (no_more d) as [e|[|]]; reflexivity. }
  split; [apply Hstep|]. split.
  - intros Hmore rest. unfold EdgeFlow.fetch_data_worker.
    rewrite loop_cons, Hstep, (no_more_true _ Hmore). simpl.
    now rewrite (EdgeFlow_first_page_any_data pE (Some d) None).
  - apply (Events_after_page _ _ _ Hd).
Qed.

Lemma lone_other_page_is_skipped_witness :
  EdgeFlow.after_post (mkLocals true None) (ok Sample.P_other) =
    ([], inr (Continue (mkLocals true (Some Sample.P_other)))) /\
  EdgeFlow.fetch_data_worker Sample.flow [ok Sample.P_other; ok Sample.P4] =
    mkRun [EdgeFlow.first_body Sample.flow; EdgeFlow.first_body Sample.flow]
          [JArr [Sample.item 4]; StreamEnd] Finished.
Proof.
  pose proof (lone_other_page_is_skipped Sample.flow (mkLocals true None)
                Sample.P_other Sample.other eq_refl eq_refl) as [Hstep [Hrun _]].
  split.
  - exact Hstep.
  - rewrite (Hrun eq_refl [ok Sample.P4]). reflexivity.
Defined.

(** C3 as stated fails on the events worker: on the first page holding only
    the "other" item, with "more" true, it puts that page as a batch and
    leaves the first phase. *)
Lemma events_sends_lone_other_page :
  Events.after_post (mkLocals true None) (ok Sample.P_other) =
    ([JArr [Sample.other]], inr (Continue (mkLocals false (Some Sample.P_other)))) /\
  lone_other (items_of Sample.P_other) = true /\
  puts (Events.fetch_data_worker Sample.events [ok Sample.P_other; ok Sample.P4]) =
    [JArr [Sample.other]; JArr [Sample.item 4]; StreamEnd].
Proof. repeat split; reflexivity. Qed.

(** ** What a batch holds *)

Lemma EdgeFlow_batch_is_data st r m :
  In m (fst (EdgeFlow.after_post st r)) -> batch m ->
  exists d n, r = ok d /\ getitem d "data" = inr m /\ len m = inr n.
Proof.
  unfold EdgeFlow.after_post.
  destruct r as [|code parsed]; [simpl; intros [<-|[]]; discriminate|].
  destruct (code =? 200)%Z eqn:Hcode; simpl negb; cbv iota;
    [|simpl; intros [<-|[]]; discriminate].
  apply Z.eqb_eq in Hcode. subst code.
  destruct parsed as [d|]; [|simpl; intros [<-|[]]; discriminate].
  destruct (no_data d) as [e|[|]];
    [intros []|simpl; intros [<-|[]]; discriminate|].
  rewrite bind_lift_inr.
  destruct (getitem d "data") as [e|items] eqn:Hget; [simpl; intros []|].
  rewrite bind_lift_inr.
  destruct (len items) as [e|n] eqn:Hlen; [simpl; intros []|].
  rewrite bind_lift_inr.
  destruct (EdgeFlow.only_other items) as [e|[|]]; [simpl; intros []| |].
  - rewrite bind_lift_inr, bind_ret.
    destruct (no_more d) as [e|[|]]; simpl;
      [intros []|intros [<-|[]]; discriminate|intros []].
  - rewrite bind_lift_inr.
    destruct (no_more d) as [e|[|]]; simpl.
    + intros [<-|[]] _. now exists d, n.
    + intros [<-|[<-|[]]]; [|discriminate]. intros _. now exists d, n.
    + intros [<-|[]] _. now exists d, n.
Qed.

Lemma Events_batch_is_data st r m :
  In m (fst (Events.after_post st r)) -> batch m ->
  exists d n, r = ok d /\ getitem d "data" = inr m /\ len m = inr n.
Proof.
  unfold Events.after_post.
  destruct r as [|code parsed]; [simpl; intros [<-|[]]; discriminate|].
  destruct (code =? 200)%Z eqn:Hcode; simpl negb; cbv iota;
    [|simpl; intros [<-|[]]; discriminate].
  apply Z.eqb_eq in Hcode. subst code.
  destruct parsed as [d|]; [|simpl; intros [<-|[]]; discriminate].
  destruct (no_data d) as [e|[|]];
    [intros []|simpl; intros [<-|[]]; discriminate|].
  rewrite bind_lift_inr.
  destruct (getitem d "data") as [e|items] eqn:Hget; [simpl; intros []|].
  rewrite bind_lift_inr.
  destruct (len items) as [e|n] eqn:Hlen; [simpl; intros []|].
  rewrite bind_lift_inr.
  destruct (no_more d) as [e|[|]]; simpl.
  - intros [<-|[]] _. now exists d, n.
  - intros [<-|[<-|[]]]; [|discriminate]. intros _. now exists d, n.
  - intros [<-|[]] _. now exists d, n.
Qed.

(** C8 (amended): every batch a worker puts for a response is the value
    under "data" of that response, as received and with a length; nothing
    makes it non-empty.  A page whose "data" is the empty list is put on
    the queue as an empty batch, by the flow-metrics worker and by the
    events worker. *)
Theorem batch_is_the_page_data :
  (forall (st : locals) (r : post_result) (m : json),
     batch m ->
     In m (fst (EdgeFlow.after_post st r)) \/ In m (fst (Events.after_post st r)) ->
     exists d n, r = ok d /\ getitem d "data" = inr m /\ len m = inr n) /\
  (forall (st : locals) (d : json),
     page_data d = Some [] ->
     In (JArr []) (fst (EdgeFlow.after_post st (ok d))) /\
     In (JArr []) (fst (Events.after_post st (ok d)))).
Proof.
  split.
  - intros st r m Hm [Hin|Hin].
    + now apply (EdgeFlow_batch_is_data st).
    + now apply (Events_batch_is_data st).
  - intros st d Hd.
    rewrite (EdgeFlow_after_page _ _ _ Hd), (Events_after_page _ _ _ Hd).
    split; destruct (no_more d) as [e|[|]]; simpl; auto.
Qed.

Lemma batch_is_the_page_data_witness :
  (exists d n, ok Sample.P1 = ok d /\
     getitem d "data" = inr (JArr [Sample.item 1; Sample.item 2]) /\
     len (JArr [Sample.item 1; Sample.item 2]) = inr n) /\
  In (JArr []) (fst (EdgeFlow.after_post (mkLocals true None) (ok Sample.P_empty))) /\
  In (JArr []) (fst (Events.after_post (mkLocals true None) (ok Sample.P_empty))).
Proof.
  destruct batch_is_the_page_data as [Hdata Hempty].
  split.
  - apply (Hdata (mkLocals true None) (ok Sample.P1)
             (JArr [Sample.item 1; Sample.item 2]) eq_refl).
    left. simpl. auto.
  - apply (Hempty (mkLocals true None) Sample.P_empty eq_refl).
Defined.

(** C8 as stated fails: the page with an empty "data" list is put on the
    queue, a message that is not the StreamEnd and holds no item. *)
Lemma empty_page_is_sent :
  puts (EdgeFlow.fetch_data_worker Sample.flow [ok Sample.P_empty]) = [JArr []; StreamEnd] /\
  puts (Events.fetch_data_worker Sample.events [ok Sample.P_empty]) = [JArr []; StreamEnd] /\
  JArr [] <> StreamEnd /\
  len (JArr []) = inr 0.
Proof. repeat split; try reflexivity. discriminate. Qed.

(** ** The request bodies of a run *)

Lemma next_page_link_inv d tok :
  next_page_link (Some d) = inr tok -> page_link d = Some tok.
Proof.
  unfold next_page_link, page_link, page_meta.
  destruct d as [ | | | | |kvs]; try discriminate. simpl.
  destruct (assoc "metaData" kvs) as [[ | | | | |m]|]; try discriminate. simpl.
  destruct (assoc "nextPageLink" m); [now intros [= ->]|discriminate].
Qed.

Lemma only_other_true items :
  EdgeFlow.only_other items = inr true ->
  exists x, items = JArr [x] /\ is_other x = true.
Proof.
  unfold EdgeFlow.only_other.
  destruct items as [ | | |s|l|kvs]; simpl; try discriminate.
  - destruct (String.length s =? 1)%nat; [|discriminate].
    destruct (char_at s 0) as [x|] eqn:Hc; simpl; [|discriminate].
    unfold char_at in Hc. destruct (String.get 0 s); [|discriminate].
    injection Hc as <-. discriminate.
  - destruct l as [|x [|y l]]; simpl; try discriminate.
    destruct x as [ | | | | |o]; simpl; try discriminate.
    intros [= H]. exists (JObj o). split; [reflexivity|].
    simpl. destruct (assoc "name" o) as [[ | | | | | ]|]; simpl in H;
      try discriminate; exact H.
  - destruct (List.length kvs =? 1)%nat; discriminate.
Qed.

Lemma getitem_data_list d x :
  getitem d "data" = inr (JArr x) -> page_data d = Some x.
Proof.
  unfold page_data. destruct d as [ | | | | |kvs]; simpl; try discriminate.
  destruct (assoc "data" kvs); [now intros [= ->]|discriminate].
Qed.

Lemma Events_continue st r q st' :
  Events.after_post st r = (q, inr (Continue st')) ->
  exists d, r = ok d /\ st' = mkLocals false (Some d).
Proof.
  unfold Events.after_post.
  destruct r as [|code parsed]; [discriminate|].
  destruct (code =? 200)%Z eqn:Hcode; simpl negb; cbv iota; [|discriminate].
  apply Z.eqb_eq in Hcode. subst code.
  destruct parsed as [d|]; [|discriminate].
  destruct (no_data d) as [e|[|]]; try discriminate.
  rewrite bind_lift_inr.
  destruct (getitem d "data") as [e|items]; [discriminate|].
  rewrite bind_lift_inr.
  destruct (len items) as [e|n]; [discriminate|].
  rewrite bind_lift_inr.
  destruct (no_more d) as [e|[|]]; try discriminate.
  intros [= _ <-]. now exists d.
Qed.

Lemma EdgeFlow_continue st r q st' :
  EdgeFlow.after_post st r = (q, inr (Continue st')) ->
  exists d, r = ok d /\ data st' = Some d /\
    (first_page st' = false \/
     (first_page st' = first_page st /\ lone_other_response r = true)).
Proof.
  unfold EdgeFlow.after_post.
  destruct r as [|code parsed]; [discriminate|].
  destruct (code =? 200)%Z eqn:Hcode; simpl negb; cbv iota; [|discriminate].
  apply Z.eqb_eq in Hcode. subst code.
  destruct parsed as [d|]; [|discriminate].
  destruct (no_data d) as [e|[|]]; try discriminate.
  rewrite bind_lift_inr.
  destruct (getitem d "data") as [e|items] eqn:Hget; [discriminate|].
  rewrite bind_lift_inr.
  destruct (len items) as [e|n]; [discriminate|].
  rewrite bind_lift_inr.
  destruct (EdgeFlow.only_other items) as [e|[|]] eqn:Hskip; [discriminate| |].
  - rewrite bind_lift_inr, bind_ret.
    destruct (no_more d) as [e|[|]]; try discriminate.
    intros [= _ <-]. exists d. repeat split. right. split; [reflexivity|].
    destruct (only_other_true _ Hskip) as [x [-> Hx]].
    simpl. rewrite (getitem_data_list _ _ Hget). simpl. exact Hx.
  - rewrite bind_lift_inr.
    destruct (no_more d) as [e|[|]]; try discriminate.
    intros [= _ <-]. exists d. repeat split. now left.
Qed.

(** Every request of the events worker after the first is a next-page
    body built on the token of the response just before it. *)
Lemma Events_later_request pV :
  forall i st script body,
    nth_error (requests (loop (Events.build_body pV) Events.after_post st script)) (S i)
      = Some body ->
    exists d tok,
      nth_error script i = Some (ok d) /\
      page_link d = Some tok /\
      body = Events.next_body pV tok.
Proof.
  induction i as [|i IH]; intros st script body H;
    apply requests_succ in H;
    destruct H as [r [script' [q [st' [-> [Hafter Hnth]]]]]];
    destruct (Events_continue _ _ _ _ Hafter) as [d [-> ->]].
  - apply requests_zero in Hnth. unfold Events.build_body in Hnth.
    cbn [first_page data] in Hnth.
    destruct (next_page_link (Some d)) as [e|tok] eqn:Htok; [discriminate|].
    injection Hnth as <-. exists d, tok.
    repeat split. now apply next_page_link_inv.
  - destruct (IH _ _ _ Hnth) as [d' [tok [Hn [Hl Hb]]]].
    now exists d', tok.
Qed.

(** Every request of the flow-metrics worker after the first is a
    next-page body built on the token of the response just before it, or,
    as long as every response so far was a lone "other" page, the
    first-page body again. *)
Lemma EdgeFlow_later_request pE :
  forall i st script body,
    nth_error (requests (loop (EdgeFlow.build_body pE) EdgeFlow.after_post st script)) (S i)
      = Some body ->
    exists d,
      nth_error script i = Some (ok d) /\
      ((exists tok, page_link d = Some tok /\ body = EdgeFlow.next_body pE tok) \/
       (body = EdgeFlow.first_body pE /\
        first_page st = true /\
        forallb lone_other_response (firstn (S i) script) = true)).
Proof.
  induction i as [|i IH]; intros st script body H;
    apply requests_succ in H;
    destruct H as [r [script' [q [st' [-> [Hafter Hnth]]]]]];
    destruct (EdgeFlow_continue _ _ _ _ Hafter) as [d [-> [Hdata Hfp]]].
  - apply requests_zero in Hnth. unfold EdgeFlow.build_body in Hnth.
    exists d. split; [reflexivity|].
    destruct (first_page st') eqn:Hfp'.
    + right. injection Hnth as <-.
      destruct Hfp as [Hfp|[Hfp Hlone]]; [discriminate|].
      repeat split; [congruence|].
      cbn [firstn forallb]. now rewrite Hlone.
    + left. rewrite Hdata in Hnth.
      destruct (next_page_link (Some d)) as [e|tok] eqn:Htok; [discriminate|].
      injection Hnth as <-. exists tok.
      split; [now apply next_page_link_inv|reflexivity].
  - destruct (IH _ _ _ Hnth) as [d' [Hn [Htok|[Hb [Hfp' Hall]]]]];
      exists d'; (split; [exact Hn|]).
    + now left.
    + right. destruct Hfp as [Hfp|[Hfp Hlone]]; [congruence|].
      repeat split; [exact Hb|congruence|].
      change (firstn (S (S i)) (ok d :: script')) with (ok d :: firstn (S i) script').
      cbn [forallb]. rewrite Hall. now rewrite Hlone.
Qed.




(** C7 (amended): the field set of a subsequent-page body is fixed per
    endpoint and does not mirror the first-page body.  Flow metrics: the
    first page has edgeId, enterpriseId, interval, limit, _filterSpec; a
    next page has edgeId, interval, nextPageLink, so enterpriseId and limit
    are dropped although the first page carried them.  Events: the first
    page has filter, interval, enterpriseId; a next page has nextPageLink,
    limit, interval, enterpriseId, so enterpriseId is kept and limit appears
    at the top level, where the first page had it inside filter.  Every
    request of a run after the first has the next-page fields, or, for flow
    metrics, is the first-page body again. *)
Theorem request_field_sets :
  forall (pE : EdgeFlow.params) (pV : Events.params)
         (script : list post_result) (i : nat) (body link : json),
    field_names (EdgeFlow.first_body pE) =
      ["edgeId"; "enterpriseId"; "interval"; "limit"; "_filterSpec"] /\
    field_names (EdgeFlow.next_body pE link) =
      ["edgeId"; "interval"; "nextPageLink"] /\
    field_names (Events.first_body pV) =
      ["filter"; "interval"; "enterpriseId"] /\
    field_names (Events.next_body pV link) =
      ["nextPageLink"; "limit"; "interval"; "enterpriseId"] /\
    (nth_error (requests (EdgeFlow.fetch_data_worker pE script)) (S i) = Some body ->
       field_names body = ["edgeId"; "interval"; "nextPageLink"] \/
       body = EdgeFlow.first_body pE) /\
    (nth_error (requests (Events.fetch_data_worker pV script)) (S i) = Some body ->
       field_names body = ["nextPageLink"; "limit"; "interval"; "enterpriseId"]).
Proof.
  intros pE pV script i body link.
  repeat split; try reflexivity; intros H.
  - destruct (EdgeFlow_later_request pE _ _ _ _ H)
      as [d [Hn [[tok [Hl ->]]|[-> _]]]]; [now left|now right].
  - destruct (Events_later_request pV _ _ _ _ H) as [d [tok [Hn [Hl ->]]]].
    reflexivity.
Qed.

Lemma request_field_sets_witness :
  field_names (EdgeFlow.next_body Sample.flow (JStr "T1")) =
    ["edgeId"; "interval"; "nextPageLink"] /\
  field_names (Events.next_body Sample.events (JStr "T1")) =
    ["nextPageLink"; "limit"; "interval"; "enterpriseId"].
Proof.
  pose proof (request_field_sets Sample.flow Sample.events
                [ok Sample.P1; ok Sample.P2] 0) as H.
  split.
  - destruct (H (EdgeFlow.next_body Sample.flow (JStr "T1")) JNull)
      as [_ [_ [_ [_ [HE _]]]]].
    destruct (HE eq_refl) as [Hf|Hb]; [exact Hf|discriminate Hb].
  - destruct (H (Events.next_body Sample.events (JStr "T1")) JNull)
      as [_ [_ [_ [_ [_ HV]]]]].
    exact (HV eq_refl).
Defined.

(** C7 as stated fails on the flow-metrics worker: the first-page body
    carries enterpriseId and limit, the second request of the same run
    carries neither. *)
Lemma flow_next_body_drops_fields :
  exists first next,
    requests (EdgeFlow.fetch_data_worker Sample.flow [ok Sample.P1; ok Sample.P2])
      = [first; next] /\
    In "enterpriseId" (field_names first) /\
    ~ In "enterpriseId" (field_names next) /\
    In "limit" (field_names first) /\
    ~ In "limit" (field_names next).
Proof.
  exists (EdgeFlow.first_body Sample.flow), (EdgeFlow.next_body Sample.flow (JStr "T1")).
  split; [reflexivity|]. simpl.
  repeat split; auto;
    intros H; repeat (destruct H as [H|H]; [discriminate H|]); exact H.
Qed.

(** ** The write loop *)

Lemma chunk_ops_cons fe x items :
  chunk_ops fe (x :: items) =
    ((if fe then [] else [Write array_sep]) ++ WriteJson x 4 :: chunk_ops false items)%list.
Proof. destruct fe; reflexivity. Qed.

Lemma chunk_ops_app fe a b :
  chunk_ops fe (a ++ b) = (chunk_ops fe a ++ chunk_ops (fe && is_nil a) b)%list.
Proof.
  destruct a as [|x a]; [destruct fe; reflexivity|].
  rewrite andb_false_r. simpl app. rewrite !chunk_ops_cons.
  unfold chunk_ops, following. rewrite flat_map_app.
  destruct fe; simpl; now rewrite ?app_comm_cons.
Qed.

Lemma Events_write_chunk items :
  forall fe, Events.write_chunk items fe = (chunk_ops fe items, inr (fe && is_nil items)).
Proof.
  induction items as [|x items IH]; intros fe.
  - destruct fe; reflexivity.
  - simpl Events.write_chunk. rewrite chunk_ops_cons, andb_false_r.
    unfold bind. rewrite IH. destruct fe; reflexivity.
Qed.

Lemma EdgeFlow_write_chunk items :
  forallb is_object items = true ->
  forall fe,
    EdgeFlow.write_chunk items fe =
      (chunk_ops fe (filter not_other items),
       inr (fe && is_nil (filter not_other items))).
Proof.
  induction items as [|x items IH]; intros Hobj fe.
  - destruct fe; reflexivity.
  - simpl in Hobj. apply andb_prop in Hobj. destruct Hobj as [Hx Hobj].
    simpl EdgeFlow.write_chunk.
    destruct x as [ | | | | |o]; try discriminate.
    unfold Py.get. rewrite bind_lift_inr.
    assert (Heq : eq_str match assoc "name" o with Some x => x | None => JNull end "other"
                  = is_other (JObj o)).
    { simpl. destruct (assoc "name" o) as [[ | | | | | ]|]; reflexivity. }
    rewrite Heq. clear Heq.
    change (filter not_other (JObj o :: items)) with
      (if not_other (JObj o) then JObj o :: filter not_other items
       else filter not_other items).
    change (not_other (JObj o)) with (negb (is_other (JObj o))).
    destruct (is_other (JObj o)); simpl negb; cbv iota.
    + apply IH, Hobj.
    + rewrite chunk_ops_cons. simpl is_nil. rewrite andb_false_r.
      unfold bind. rewrite (IH Hobj). destruct fe; reflexivity.
Qed.

Section WriteLoopFacts.

Variable write_chunk : list json -> bool -> M file_op bool.
Variable good : list json -> bool.
Variable written : list json -> list json.

(** [written items]: the items of a chunk that reach the file, for the
    chunks the loop body can handle ([good]) *)
Hypothesis write_chunk_ops : forall items fe,
  good items = true ->
  write_chunk items fe = (chunk_ops fe (written items), inr (fe && is_nil (written items))).

Lemma write_loop_batches batches rest :
  forallb good batches = true ->
  forall fe,
    write_loop write_chunk (map JArr batches ++ StreamEnd :: rest) fe =
      mkOutput (chunk_ops fe (flat_map written batches)) Closed.
Proof.
  induction batches as [|b batches IH]; intros Hgood fe.
  - simpl. destruct fe; reflexivity.
  - simpl in Hgood. apply andb_prop in Hgood. destruct Hgood as [Hb Hgood].
    simpl map. simpl app. simpl flat_map. rewrite chunk_ops_app.
    unfold write_loop; fold (write_loop write_chunk).
    assert (Hlog : log_chunk_size (JArr b) = inr tt)
      by (unfold log_chunk_size; destruct b; reflexivity).
    rewrite Hlog. simpl is_None. simpl iter. cbv iota.
    rewrite (write_chunk_ops _ _ Hb), (IH Hgood). reflexivity.
Qed.

Lemma write_file_batches batches rest :
  forallb good batches = true ->
  write_file write_chunk (map JArr batches ++ StreamEnd :: rest) =
    mkOutput (framed (flat_map written batches)) Closed.
Proof.
  intros Hgood. unfold write_file. rewrite (write_loop_batches _ _ Hgood). reflexivity.
Qed.

End WriteLoopFacts.

Section EmptyBatch.

Variable write_chunk : list json -> bool -> M file_op bool.
Hypothesis write_chunk_nil : forall fe, write_chunk [] fe = ([], inr fe).

Lemma write_loop_empty post fe :
  write_loop write_chunk (JArr [] :: post) fe = write_loop write_chunk post fe.
Proof.
  unfold write_loop at 1; fold (write_loop write_chunk).
  simpl. rewrite write_chunk_nil.
  now destruct (write_loop write_chunk post fe).
Qed.

Lemma write_loop_skip_empty pre post :
  forall fe,
    write_loop write_chunk (pre ++ JArr [] :: post) fe =
    write_loop write_chunk (pre ++ post) fe.
Proof.
  induction pre as [|m pre IH]; intros fe.
  - apply write_loop_empty.
  - simpl app. unfold write_loop; fold (write_loop write_chunk).
    destruct (log_chunk_size m); [reflexivity|].
    destruct (is_None m); [reflexivity|].
    destruct (iter m) as [e|items]; [reflexivity|].
    destruct (write_chunk items fe) as [w [e|fe']]; [reflexivity|].
    now rewrite IH.
Qed.

Lemma write_file_skip_empty pre post :
  write_file write_chunk (pre ++ JArr [] :: post) =
  write_file write_chunk (pre ++ post).
Proof. unfold write_file. now rewrite write_loop_skip_empty. Qed.

Lemma write_loop_closed msgs :
  forall fe, wfinal (write_loop write_chunk msgs fe) = Closed -> In StreamEnd msgs.
Proof.
  induction msgs as [|m msgs IH]; intros fe; [discriminate|].
  unfold write_loop; fold (write_loop write_chunk).
  destruct (log_chunk_size m); [discriminate|].
  destruct (is_None m) eqn:Hm.
  - intros _. left. destruct m; try discriminate. reflexivity.
  - destruct (iter m) as [e|items]; [discriminate|].
    destruct (write_chunk items fe) as [w [e|fe']]; [discriminate|].
    simpl. intros H. right. exact (IH _ H).
Qed.

Lemma write_file_closed msgs :
  wfinal (write_file write_chunk msgs) = Closed -> In StreamEnd msgs.
Proof.
  unfold write_file. intros H. apply (write_loop_closed msgs true).
  destruct (wfinal (write_loop write_chunk msgs true)); try reflexivity;
    discriminate H.
Qed.

Lemma write_file_only_empty n :
  write_file write_chunk (repeat (JArr []) n) = mkOutput [Write array_open] Blocked.
Proof.
  unfold write_file.
  assert (H : write_loop write_chunk (repeat (JArr []) n) true = mkOutput [] Blocked).
  { induction n as [|n IH]; [reflexivity|].
    simpl repeat. now rewrite write_loop_empty. }
  now rewrite H.
Qed.

End EmptyBatch.

(** ** The text of the file *)

Lemma string_app_nil_r (s : string) : s ++ "" = s.
Proof. induction s as [|c s IH]; simpl; [reflexivity|now rewrite IH]. Qed.

Lemma string_app_assoc (a b c : string) : (a ++ b) ++ c = a ++ b ++ c.
Proof. induction a as [|x a IH]; simpl; [reflexivity|now rewrite IH]. Qed.

Lemma concat_empty_cons (x : string) (l : list string) :
  String.concat "" (x :: l) = x ++ String.concat "" l.
Proof.
  destruct l as [|y l]; simpl; [now rewrite string_app_nil_r|reflexivity].
Qed.

Lemma concat_empty_app (a b : list string) :
  String.concat "" (a ++ b) = String.concat "" a ++ String.concat "" b.
Proof.
  induction a as [|x a IH]; [reflexivity|].
  change ((x :: a) ++ b)%list with (x :: (a ++ b)%list).
  now rewrite !concat_empty_cons, IH, string_app_assoc.
Qed.

Section FileTextFacts.

Variable dumps : json -> nat -> string.

Lemma file_text_cons op l :
  file_text dumps (op :: l) = op_text dumps op ++ file_text dumps l.
Proof. unfold file_text. simpl map. apply concat_empty_cons. Qed.

Lemma file_text_app a b :
  file_text dumps (a ++ b) = file_text dumps a ++ file_text dumps b.
Proof. unfold file_text. rewrite map_app. apply concat_empty_app. Qed.

Lemma file_text_following items :
  file_text dumps (following items) =
    String.concat "" (map (fun x => array_sep ++ element_text dumps x) items).
Proof.
  induction items as [|x items IH]; [reflexivity|].
  change (following (x :: items)) with
    (Write array_sep :: WriteJson x 4 :: following items).
  rewrite !file_text_cons, IH. cbn [map]. rewrite concat_empty_cons.
  cbn [op_text]. fold (element_text dumps x). now rewrite string_app_assoc.
Qed.

Lemma concat_sep_cons x items :
  String.concat array_sep (map (element_text dumps) (x :: items)) =
    element_text dumps x ++ String.concat "" (map (fun y => array_sep ++ element_text dumps y) items).
Proof.
  revert x. induction items as [|y items IH]; intros x.
  - simpl. now rewrite string_app_nil_r.
  - change (String.concat array_sep (map (element_text dumps) (x :: y :: items))) with
      (element_text dumps x ++ array_sep ++ String.concat array_sep (map (element_text dumps) (y :: items))).
    rewrite IH. cbn [map]. rewrite concat_empty_cons.
    now rewrite !string_app_assoc.
Qed.

Lemma file_text_separated items :
  file_text dumps (separated items) = String.concat array_sep (map (element_text dumps) items).
Proof.
  destruct items as [|x items]; [reflexivity|].
  rewrite concat_sep_cons. unfold separated.
  now rewrite file_text_cons, file_text_following.
Qed.

Lemma file_text_framed items :
  file_text dumps (framed items) =
    array_open ++ String.concat array_sep (map (element_text dumps) items) ++ array_close.
Proof.
  unfold framed.
  rewrite file_text_cons, file_text_app, file_text_separated.
  cbn [op_text]. f_equal.
Qed.

Lemma elements_text_concat (V : string -> Prop) x items :
  Forall (fun y => V (element_text dumps y)) (x :: items) ->
  elements_text V (String.concat array_sep (map (element_text dumps) (x :: items))).
Proof.
  revert x. induction items as [|y items IH]; intros x H.
  - simpl. apply elements_one. now inversion H.
  - change (String.concat array_sep (map (element_text dumps) (x :: y :: items))) with
      (element_text dumps x ++ ("," ++ LF) ++ String.concat array_sep (map (element_text dumps) (y :: items))).
    rewrite string_app_assoc.
    inversion H as [|? ? Hx Hrest]; subst.
    apply elements_more; [exact Hx|reflexivity|now apply IH].
Qed.

Lemma array_text_framed (V : string -> Prop) items :
  Forall (fun y => V (element_text dumps y)) items ->
  array_text V (file_text dumps (framed items)).
Proof.
  intros H. rewrite file_text_framed.
  destruct items as [|x items].
  - change (array_open ++ String.concat array_sep (map (element_text dumps) []) ++ array_close)
      with ("[" ++ (LF ++ LF) ++ "]").
    apply array_empty. reflexivity.
  - change array_open with ("[" ++ LF). change array_close with (LF ++ "]").
    rewrite string_app_assoc.
    apply array_elements; [reflexivity| |reflexivity].
    now apply elements_text_concat.
Qed.

End FileTextFacts.

Lemma flat_map_filter {A : Type} (f : A -> bool) (l : list (list A)) :
  flat_map (filter f) l = filter f (List.concat l).
Proof. now rewrite flat_map_concat_map, concat_filter_map. Qed.

Lemma flat_map_self {A : Type} (l : list (list A)) :
  flat_map (fun x => x) l = List.concat l.
Proof. now rewrite flat_map_concat_map, map_id. Qed.

Lemma EdgeFlow_main_write_batches batches rest :
  forallb (forallb is_object) batches = true ->
  EdgeFlow.main_write (map JArr batches ++ StreamEnd :: rest) =
    mkOutput (framed (filter not_other (List.concat batches))) Closed.
Proof.
  intros H. unfold EdgeFlow.main_write.
  rewrite (write_file_batches EdgeFlow.write_chunk (forallb is_object)
             (filter not_other)
             (fun items fe Hobj => EdgeFlow_write_chunk items Hobj fe) _ _ H).
  now rewrite flat_map_filter.
Qed.

Lemma Events_main_write_batches batches rest :
  Events.main_write (map JArr batches ++ StreamEnd :: rest) =
    mkOutput (framed (List.concat batches)) Closed.
Proof.
  unfold Events.main_write.
  rewrite (write_file_batches Events.write_chunk (fun _ => true) (fun x => x)
             (fun items fe _ => Events_write_chunk items fe)).
  - now rewrite flat_map_self.
  - now apply forallb_forall.
Qed.

(** Framing: for any batches followed by the StreamEnd, also for no batch or
    only empty ones, the main process writes exactly: the opening bracket
    "[\n", the items in arrival order, each one after the first ever
    written preceded by ",\n" (across batches, not per batch), and the
    closing "\n]" once the StreamEnd is seen; whatever follows the StreamEnd
    is not read.  The text of the file is the bracket, the element texts
    joined by ",\n", the bracket; it is the text of a JSON array as soon as
    every element text is the text of a JSON value.  The flow-metrics main
    needs its items to be objects (it calls item.get) and writes those not
    named "other"; the events main writes every item. *)
Theorem output_is_a_json_array :
  forall (batches : list (list json)) (rest : list json)
         (dumps : json -> nat -> string) (V : string -> Prop) (items : list json),
    (forallb (forallb is_object) batches = true ->
     EdgeFlow.main_write (map JArr batches ++ StreamEnd :: rest) =
       mkOutput (framed (filter not_other (List.concat batches))) Closed) /\
    Events.main_write (map JArr batches ++ StreamEnd :: rest) =
      mkOutput (framed (List.concat batches)) Closed /\
    file_text dumps (framed items) =
      array_open ++
      String.concat array_sep (map (element_text dumps) items) ++
      array_close /\
    (Forall (fun x => V (element_text dumps x)) items ->
     array_text V (file_text dumps (framed items))).
Proof.
  intros batches rest dumps V items. repeat split.
  - apply EdgeFlow_main_write_batches.
  - apply Events_main_write_batches.
  - apply file_text_framed.
  - apply array_text_framed.
Qed.

Lemma output_is_a_json_array_witness :
  EdgeFlow.main_write
    (map JArr [[Sample.item 1; Sample.other]; []; [Sample.item 3]] ++ StreamEnd :: [JArr [Sample.item 4]]) =
    mkOutput [Write array_open; WriteJson (Sample.item 1) 4; Write array_sep;
              WriteJson (Sample.item 3) 4; Write array_close] Closed /\
  array_text (fun s => s = "    {}")
    (file_text Sample.dumps (framed [Sample.item 1; Sample.item 3])) /\
  array_text (fun s => s = "    {}") (file_text Sample.dumps (framed [])).
Proof.
  split; [|split].
  - apply (output_is_a_json_array
             [[Sample.item 1; Sample.other]; []; [Sample.item 3]]
             [JArr [Sample.item 4]] Sample.dumps (fun _ => True) []).
    reflexivity.
  - apply (output_is_a_json_array [] [] Sample.dumps (fun s => s = "    {}")
             [Sample.item 1; Sample.item 3]).
    repeat constructor.
  - apply (output_is_a_json_array [] [] Sample.dumps (fun s => s = "    {}") []).
    constructor.
Defined.

(** C10: an empty batch is not the StreamEnd.  On an empty list taken from
    the queue the write loop writes nothing, keeps FirstElement and goes on
    with the next message, so an empty batch anywhere in the queue leaves
    the whole output as it is without it; a queue of empty batches alone
    never closes the file; and the loop ends (the file is closed with its
    bracket) only if the StreamEnd was on the queue.  This holds for both
    main processes. *)
Theorem empty_batch_is_not_the_end :
  forall (pre post : list json) (FirstElement : bool) (n : nat),
    JArr [] <> StreamEnd /\
    write_loop EdgeFlow.write_chunk (JArr [] :: post) FirstElement =
      write_loop EdgeFlow.write_chunk post FirstElement /\
    write_loop Events.write_chunk (JArr [] :: post) FirstElement =
      write_loop Events.write_chunk post FirstElement /\
    EdgeFlow.main_write (pre ++ JArr [] :: post) = EdgeFlow.main_write (pre ++ post) /\
    Events.main_write (pre ++ JArr [] :: post) = Events.main_write (pre ++ post) /\
    EdgeFlow.main_write (repeat (JArr []) n) = mkOutput [Write array_open] Blocked /\
    Events.main_write (repeat (JArr []) n) = mkOutput [Write array_open] Blocked /\
    (wfinal (EdgeFlow.main_write pre) = Closed -> In StreamEnd pre) /\
    (wfinal (Events.main_write pre) = Closed -> In StreamEnd pre).
Proof.
  intros pre post fe n.
  assert (HE : forall b, EdgeFlow.write_chunk [] b = ([], inr b)) by reflexivity.
  assert (HV : forall b, Events.write_chunk [] b = ([], inr b)) by reflexivity.
  split; [discriminate|].
  split; [now apply write_loop_empty|].
  split; [now apply write_loop_empty|].
  split; [now apply write_file_skip_empty|].
  split; [now apply write_file_skip_empty|].
  split; [now apply write_file_only_empty|].
  split; [now apply write_file_only_empty|].
  split; now apply write_file_closed.
Qed.

Lemma empty_batch_is_not_the_end_witness :
  In StreamEnd [JArr [Sample.item 1]; JArr []; StreamEnd] /\
  EdgeFlow.main_write ([JArr [Sample.item 1]] ++ JArr [] :: [JArr [Sample.item 3]; StreamEnd]) =
    mkOutput (framed [Sample.item 1; Sample.item 3]) Closed.
Proof.
  pose proof (empty_batch_is_not_the_end [JArr [Sample.item 1]; JArr []; StreamEnd]
                [] true 0) as [_ [_ [_ [_ [_ [_ [_ [HE _]]]]]]]].
  split; [apply HE; reflexivity|].
  pose proof (empty_batch_is_not_the_end [JArr [Sample.item 1]]
                [JArr [Sample.item 3]; StreamEnd] true 0) as [_ [_ [_ [Hskip _]]]].
  rewrite Hskip. reflexivity.
Defined.

(** ** Whole runs over well-formed pages *)

Lemma well_formed_page_inv d :
  well_formed_page d = true ->
  page_data d = Some (items_of d) /\ forallb is_object (items_of d) = true.
Proof.
  unfold well_formed_page, items_of.
  destruct (page_data d); [auto|discriminate].
Qed.

Lemma more_is_inv b d : more_is b d = true -> page_more d = Some (JBool b).
Proof.
  unfold more_is. destruct (page_more d) as [[ |b'| | | | ]|]; try discriminate.
  intros H. apply Bool.eqb_prop in H. now subst.
Qed.

Lemma has_link_inv d : has_link d = true -> exists tok, page_link d = Some tok.
Proof.
  unfold has_link. destruct (page_link d) as [tok|]; [now exists tok|discriminate].
Qed.

Lemma EdgeFlow_puts_pages pE pages last :
  forallb inner_page pages = true ->
  last_page last = true ->
  forall st,
    (exists body, EdgeFlow.build_body pE st = inr body) ->
    puts (loop (EdgeFlow.build_body pE) EdgeFlow.after_post st (map ok (pages ++ [last]))) =
      (map JArr (filter sent (map items_of (pages ++ [last]))) ++ [StreamEnd])%list /\
    final (loop (EdgeFlow.build_body pE) EdgeFlow.after_post st (map ok (pages ++ [last]))) =
      Finished.
Proof.
  intros Hpages Hlast.
  induction pages as [|d pages IH]; intros st [body Hb].
  - apply andb_prop in Hlast. destruct Hlast as [Hwf Hmore].
    destruct (well_formed_page_inv _ Hwf) as [Hd Hobj].
    simpl app. simpl map. rewrite loop_cons, Hb.
    rewrite (EdgeFlow_after_page _ _ _ Hd), (only_other_objects _ Hobj).
    rewrite (no_more_false _ (more_is_inv _ _ Hmore)).
    unfold sent. simpl filter.
    destruct (lone_other (items_of last)); simpl; auto.
  - simpl in Hpages. apply andb_prop in Hpages. destruct Hpages as [Hd0 Hpages].
    unfold inner_page in Hd0.
    apply andb_prop in Hd0. destruct Hd0 as [Hd0 Hlink].
    apply andb_prop in Hd0. destruct Hd0 as [Hwf Hmore].
    destruct (well_formed_page_inv _ Hwf) as [Hd Hobj].
    destruct (has_link_inv _ Hlink) as [tok Htok].
    simpl app. simpl map. rewrite loop_cons, Hb.
    rewrite (EdgeFlow_after_page _ _ _ Hd), (only_other_objects _ Hobj).
    rewrite (no_more_true _ (more_is_inv _ _ Hmore)). cbv beta iota zeta.
    match goal with
    | |- context [loop _ _ ?st' _] =>
        assert (Hpre : exists body', EdgeFlow.build_body pE st' = inr body');
        [|destruct (IH Hpages st' Hpre) as [Hputs Hfinal]]
    end.
    { unfold EdgeFlow.build_body. cbn [first_page data].
      rewrite (next_page_link_page _ _ Htok).
      destruct (if lone_other (items_of d) then first_page st else false);
        simpl; eauto. }
    cbn [puts final]. rewrite Hfinal. split; [|reflexivity].
    rewrite Hputs. unfold sent at 2. simpl filter.
    destruct (lone_other (items_of d)); reflexivity.
Qed.

Lemma Events_puts_pages pV pages last :
  forallb inner_page pages = true ->
  last_page last = true ->
  forall st,
    (exists body, Events.build_body pV st = inr body) ->
    puts (loop (Events.build_body pV) Events.after_post st (map ok (pages ++ [last]))) =
      (map JArr (map items_of (pages ++ [last])) ++ [StreamEnd])%list /\
    final (loop (Events.build_body pV) Events.after_post st (map ok (pages ++ [last]))) =
      Finished.
Proof.
  intros Hpages Hlast.
  induction pages as [|d pages IH]; intros st [body Hb].
  - apply andb_prop in Hlast. destruct Hlast as [Hwf Hmore].
    destruct (well_formed_page_inv _ Hwf) as [Hd Hobj].
    simpl app. simpl map. rewrite loop_cons, Hb.
    rewrite (Events_after_page _ _ _ Hd).
    rewrite (no_more_false _ (more_is_inv _ _ Hmore)). simpl; auto.
  - simpl in Hpages. apply andb_prop in Hpages. destruct Hpages as [Hd0 Hpages].
    unfold inner_page in Hd0.
    apply andb_prop in Hd0. destruct Hd0 as [Hd0 Hlink].
    apply andb_prop in Hd0. destruct Hd0 as [Hwf Hmore].
    destruct (well_formed_page_inv _ Hwf) as [Hd Hobj].
    destruct (has_link_inv _ Hlink) as [tok Htok].
    simpl app. simpl map. rewrite loop_cons, Hb.
    rewrite (Events_after_page _ _ _ Hd).
    rewrite (no_more_true _ (more_is_inv _ _ Hmore)). cbv beta iota zeta.
    assert (Hpre : exists body', Events.build_body pV (mkLocals false (Some d)) = inr body').
    { unfold Events.build_body. cbn [first_page data].
      rewrite (next_page_link_page _ _ Htok). simpl. eauto. }
    destruct (IH Hpages _ Hpre) as [Hputs Hfinal].
    cbn [puts final]. rewrite Hfinal, Hputs. split; reflexivity.
Qed.

Lemma written_items_following l : written_items (following l) = l.
Proof.
  induction l as [|x l IH]; [reflexivity|].
  unfold following, written_items in *. simpl. now rewrite IH.
Qed.

Lemma written_items_framed l : written_items (framed l) = l.
Proof.
  unfold framed. destruct l as [|x l]; [reflexivity|].
  unfold written_items. simpl. rewrite flat_map_app. simpl.
  rewrite app_nil_r. f_equal. apply written_items_following.
Qed.

Lemma lone_other_filtered b : lone_other b = true -> filter not_other b = [].
Proof.
  destruct b as [|x [|y b]]; simpl; try discriminate.
  unfold not_other. now intros ->.
Qed.

Lemma filter_sent_not_other bs :
  filter not_other (List.concat (filter sent bs)) = filter not_other (List.concat bs).
Proof.
  induction bs as [|b bs IH]; [reflexivity|].
  simpl filter at 2. unfold sent at 1.
  destruct (lone_other b) eqn:Hb; simpl negb; cbv iota.
  - simpl List.concat. rewrite filter_app, (lone_other_filtered _ Hb). exact IH.
  - simpl List.concat. now rewrite !filter_app, IH.
Qed.

Lemma pages_well_formed pages last :
  forallb inner_page pages = true ->
  last_page last = true ->
  forallb (forallb is_object) (map items_of (pages ++ [last])) = true.
Proof.
  intros Hpages Hlast.
  rewrite map_app, forallb_app. apply andb_true_intro. split.
  - induction pages as [|d pages IH]; [reflexivity|].
    simpl in Hpages. apply andb_prop in Hpages. destruct Hpages as [Hd Hpages].
    unfold inner_page in Hd.
    apply andb_prop in Hd. destruct Hd as [Hd _].
    apply andb_prop in Hd. destruct Hd as [Hwf _].
    simpl. rewrite (proj2 (well_formed_page_inv _ Hwf)). now apply IH.
  - apply andb_prop in Hlast. destruct Hlast as [Hwf _].
    simpl. now rewrite (proj2 (well_formed_page_inv _ Hwf)).
Qed.

Lemma forallb_filter {A : Type} (f g : A -> bool) l :
  forallb f l = true -> forallb f (filter g l) = true.
Proof.
  induction l as [|x l IH]; [reflexivity|].
  simpl. intros H. apply andb_prop in H. destruct H as [Hx Hl].
  destruct (g x); simpl; [rewrite Hx|]; now apply IH.
Qed.

(** C1 (amended): for every sequence of successful pages whose items are
    objects, each but the last with "more" true and a "nextPageLink", the
    last with "more" false, the flow-metrics script leaves in the file
    exactly the items not named "other" of all pages, in page order and,
    within a page, in item order, framed as one array and closed.  The
    events script leaves every item of every page, those named "other"
    included: it filters nothing. *)
Theorem output_is_the_pages_items :
  forall (pE : EdgeFlow.params) (pV : Events.params)
         (pages : list json) (last : json),
    forallb inner_page pages = true ->
    last_page last = true ->
    EdgeFlow.main pE (map ok (pages ++ [last])) =
      mkOutput (framed (filter not_other (flat_map items_of (pages ++ [last])))) Closed /\
    written_items (ops (EdgeFlow.main pE (map ok (pages ++ [last])))) =
      filter not_other (flat_map items_of (pages ++ [last])) /\
    Events.main pV (map ok (pages ++ [last])) =
      mkOutput (framed (flat_map items_of (pages ++ [last]))) Closed /\
    written_items (ops (Events.main pV (map ok (pages ++ [last])))) =
      flat_map items_of (pages ++ [last]).
Proof.
  intros pE pV pages last Hpages Hlast.
  assert (HE : EdgeFlow.main pE (map ok (pages ++ [last])) =
      mkOutput (framed (filter not_other (flat_map items_of (pages ++ [last])))) Closed).
  { unfold EdgeFlow.main, EdgeFlow.fetch_data_worker.
    destruct (EdgeFlow_puts_pages pE pages last Hpages Hlast (mkLocals true None))
      as [Hputs _]; [now exists (EdgeFlow.first_body pE)|].
    rewrite Hputs, EdgeFlow_main_write_batches.
    - now rewrite filter_sent_not_other, flat_map_concat_map.
    - apply forallb_filter. now apply pages_well_formed. }
  assert (HV : Events.main pV (map ok (pages ++ [last])) =
      mkOutput (framed (flat_map items_of (pages ++ [last]))) Closed).
  { unfold Events.main, Events.fetch_data_worker.
    destruct (Events_puts_pages pV pages last Hpages Hlast (mkLocals true None))
      as [Hputs _]; [now exists (Events.first_body pV)|].
    rewrite Hputs, Events_main_write_batches.
    now rewrite flat_map_concat_map. }
  rewrite HE, HV. cbn [ops]. rewrite !written_items_framed. auto.
Qed.

Lemma output_is_the_pages_items_witness :
  EdgeFlow.main Sample.flow (map ok ([Sample.P_other; Sample.P1] ++ [Sample.P_other_last])) =
    mkOutput (framed [Sample.item 1; Sample.item 2]) Closed /\
  Events.main Sample.events (map ok ([Sample.P_other; Sample.P1] ++ [Sample.P_other_last])) =
    mkOutput (framed [Sample.other; Sample.item 1; Sample.item 2; Sample.other]) Closed.
Proof.
  pose proof (output_is_the_pages_items Sample.flow Sample.events
                [Sample.P_other; Sample.P1] Sample.P_other_last eq_refl eq_refl)
    as [HE [_ [HV _]]].
  split; [exact HE|exact HV].
Defined.

(** C1 as stated fails on the events script: an item named "other" reaches
    the file. *)
Lemma events_writes_other_items :
  written_items (ops (Events.main Sample.events [ok Sample.P_other; ok Sample.P4])) =
    [Sample.other; Sample.item 4] /\
  filter not_other (flat_map items_of [Sample.P_other; Sample.P4]) = [Sample.item 4] /\
  written_items (ops (Events.main Sample.events [ok Sample.P_other; ok Sample.P4])) <>
    filter not_other (flat_map items_of [Sample.P_other; Sample.P4]).
Proof. repeat split; try reflexivity. discriminate. Qed.

(** ** The queue of any run, and the scenarios of the specification *)

(** Whatever the transport answers, the queue of a worker run is batches
    followed by one StreamEnd when the worker left its loop by [break], and
    batches alone when it raised or still waits for a response. *)
Lemma worker_queue_shape pE pV script :
  (exists bs, Forall batch bs /\
     match final (EdgeFlow.fetch_data_worker pE script) with
     | Finished => puts (EdgeFlow.fetch_data_worker pE script) = (bs ++ [StreamEnd])%list
     | _ => puts (EdgeFlow.fetch_data_worker pE script) = bs
     end) /\
  (exists bs, Forall batch bs /\
     match final (Events.fetch_data_worker pV script) with
     | Finished => puts (Events.fetch_data_worker pV script) = (bs ++ [StreamEnd])%list
     | _ => puts (Events.fetch_data_worker pV script) = bs
     end).
Proof.
  split.
  - apply (loop_shape _ _ EdgeFlow_step_shape).
  - apply (loop_shape _ _ Events_step_shape).
Qed.

(** A body that parses to a bare number is outside the responses the
    workers handle: the membership test on it raises TypeError. *)
Example bare_number_body_raises :
  EdgeFlow.fetch_data_worker Sample.flow [ok (JNum 5)] =
    mkRun [EdgeFlow.first_body Sample.flow] [] (Raised TypeError) /\
  Events.fetch_data_worker Sample.events [ok (JNum 5)] =
    mkRun [Events.first_body Sample.events] [] (Raised TypeError).
Proof. split; reflexivity. Qed.

Example scenario_two_pages :
  EdgeFlow.fetch_data_worker Sample.flow [ok Sample.P1; ok Sample.P2] =
    mkRun [EdgeFlow.first_body Sample.flow; EdgeFlow.next_body Sample.flow (JStr "T1")]
          [JArr [Sample.item 1; Sample.item 2]; JArr [Sample.item 3]; StreamEnd]
          Finished /\
  EdgeFlow.main Sample.flow [ok Sample.P1; ok Sample.P2] =
    mkOutput (framed [Sample.item 1; Sample.item 2; Sample.item 3]) Closed.
Proof. split; reflexivity. Qed.

Example scenario_other_first :
  EdgeFlow.fetch_data_worker Sample.flow [ok Sample.P_other; ok Sample.P4] =
    mkRun [EdgeFlow.first_body Sample.flow; EdgeFlow.first_body Sample.flow]
          [JArr [Sample.item 4]; StreamEnd] Finished /\
  EdgeFlow.main Sample.flow [ok Sample.P_other; ok Sample.P4] =
    mkOutput (framed [Sample.item 4]) Closed.
Proof. split; reflexivity. Qed.

Example scenario_connection_error :
  EdgeFlow.fetch_data_worker Sample.flow [RequestException] =
    mkRun [EdgeFlow.first_body Sample.flow] [StreamEnd] Finished /\
  EdgeFlow.main Sample.flow [RequestException] = mkOutput (framed []) Closed /\
  Events.main Sample.events [RequestException] = mkOutput (framed []) Closed /\
  file_text Sample.dumps (framed []) = "[" ++ LF ++ LF ++ "]".
Proof. repeat split; reflexivity. Qed.

(** * Further properties of the workers *)

Lemma no_data_ends d :
  negb (truthy d) ||
  match d with
  | JObj kvs => match assoc "data" kvs with Some _ => false | None => true end
  | JArr l => negb (existsb (fun x => eq_str x "data") l)
  | JStr s => negb (substring_of "data" s)
  | _ => false
  end = true ->
  no_data d = inr true.
Proof.
  unfold no_data. destruct (truthy d) eqn:Ht; simpl negb; cbv iota; [|reflexivity].
  simpl orb. destruct d as [ |b|n|s|l|kvs]; simpl contains; simpl rbind;
    try discriminate.
  - now intros ->.
  - now intros ->.
  - destruct (assoc "data" kvs); [discriminate|reflexivity].
Qed.

Lemma EdgeFlow_after_ends st r :
  ends_stream r = true -> EdgeFlow.after_post st r = ([StreamEnd], inr Break).
Proof.
  destruct r as [|code parsed]; [reflexivity|].
  unfold ends_stream, EdgeFlow.after_post.
  destruct (negb (code =? 200)%Z); [reflexivity|]. simpl orb.
  destruct parsed as [d|]; [|reflexivity].
  intros H. now rewrite (no_data_ends _ H).
Qed.

Lemma Events_after_ends st r :
  ends_stream r = true -> Events.after_post st r = ([StreamEnd], inr Break).
Proof.
  destruct r as [|code parsed]; [reflexivity|].
  unfold ends_stream, Events.after_post.
  destruct (negb (code =? 200)%Z); [reflexivity|]. simpl orb.
  destruct parsed as [d|]; [|reflexivity].
  intros H. now rewrite (no_data_ends _ H).
Qed.

(** X1: every outcome on which the worker only signals the end - the post
    raised, a status other than 200, a body that does not parse, a parsed
    body that is falsy or in which "data" is not found - closes a run in the
    same way: the batches put so far, one StreamEnd, no further request.
    Any two such outcomes, with anything behind them, give the same run. *)
Theorem every_fatal_outcome_ends_stream :
  forall (pE : EdgeFlow.params) (pV : Events.params)
         (pre : list post_result) (r r' : post_result)
         (rest rest' : list post_result),
    ends_stream r = true ->
    ends_stream r' = true ->
    EdgeFlow.fetch_data_worker pE (pre ++ r :: rest) =
      EdgeFlow.fetch_data_worker pE (pre ++ r' :: rest') /\
    Events.fetch_data_worker pV (pre ++ r :: rest) =
      Events.fetch_data_worker pV (pre ++ r' :: rest') /\
    (final (EdgeFlow.fetch_data_worker pE pre) = AwaitingResponse ->
     EdgeFlow.fetch_data_worker pE (pre ++ r :: rest) =
       mkRun (requests (EdgeFlow.fetch_data_worker pE pre))
             (puts (EdgeFlow.fetch_data_worker pE pre) ++ [StreamEnd]) Finished) /\
    (final (Events.fetch_data_worker pV pre) = AwaitingResponse ->
     Events.fetch_data_worker pV (pre ++ r :: rest) =
       mkRun (requests (Events.fetch_data_worker pV pre))
             (puts (Events.fetch_data_worker pV pre) ++ [StreamEnd]) Finished).
Proof.
  intros pE pV pre r r' rest rest' Hr Hr'.
  unfold EdgeFlow.fetch_data_worker, Events.fetch_data_worker.
  repeat split.
  - rewrite (loop_app_end _ _ r (fun st => EdgeFlow_after_ends st r Hr)).
    now rewrite (loop_app_end _ _ r' (fun st => EdgeFlow_after_ends st r' Hr')).
  - rewrite (loop_app_end _ _ r (fun st => Events_after_ends st r Hr)).
    now rewrite (loop_app_end _ _ r' (fun st => Events_after_ends st r' Hr')).
  - intros Hf.
    rewrite (loop_app_end _ _ r (fun st => EdgeFlow_after_ends st r Hr)).
    now rewrite Hf.
  - intros Hf.
    rewrite (loop_app_end _ _ r (fun st => Events_after_ends st r Hr)).
    now rewrite Hf.
Qed.

Lemma every_fatal_outcome_ends_stream_witness :
  EdgeFlow.fetch_data_worker Sample.flow ([ok Sample.P1] ++ RequestException :: []) =
    EdgeFlow.fetch_data_worker Sample.flow
      ([ok Sample.P1] ++ ok (JArr [JStr "error"]) :: [ok Sample.P2]) /\
  Events.fetch_data_worker Sample.events ([ok Sample.P1] ++ Response 200 None :: []) =
    mkRun [Events.first_body Sample.events; Events.next_body Sample.events (JStr "T1")]
          [JArr [Sample.item 1; Sample.item 2]; StreamEnd] Finished.
Proof.
  split.
  - exact (proj1 (every_fatal_outcome_ends_stream Sample.flow Sample.events
                    [ok Sample.P1] RequestException (ok (JArr [JStr "error"]))
                    [] [ok Sample.P2] eq_refl eq_refl)).
  - pose proof (every_fatal_outcome_ends_stream Sample.flow Sample.events [ok Sample.P1]
                  (Response 200 None) RequestException [] [] eq_refl eq_refl)
      as [_ [_ [_ HV]]].
    rewrite (HV eq_refl). reflexivity.
Defined.

Lemma lone_other_more_inv d :
  lone_other_more d = true ->
  page_data d = Some (items_of d) /\
  EdgeFlow.only_other (JArr (items_of d)) = inr true /\
  no_more d = inr false.
Proof.
  unfold lone_other_more. intros H.
  apply andb_prop in H. destruct H as [H Hmore].
  apply andb_prop in H. destruct H as [Hlone Hwf].
  destruct (well_formed_page_inv _ Hwf) as [Hd Hobj].
  split; [exact Hd|]. split.
  - now rewrite (only_other_objects _ Hobj), Hlone.
  - exact (no_more_true _ (more_is_inv _ _ Hmore)).
Qed.

Lemma EdgeFlow_lone_other_pages pE pages :
  forallb lone_other_more pages = true ->
  forall x,
    loop (EdgeFlow.build_body pE) EdgeFlow.after_post (mkLocals true x) (map ok pages) =
      mkRun (repeat (EdgeFlow.first_body pE) (S (List.length pages))) [] AwaitingResponse.
Proof.
  induction pages as [|d pages IH]; intros H x; [reflexivity|].
  simpl in H. apply andb_prop in H. destruct H as [Hd H].
  destruct (lone_other_more_inv _ Hd) as [Hdata [Hskip Hmore]].
  simpl map. rewrite loop_cons.
  change (EdgeFlow.build_body pE (mkLocals true x)) with
    (@inr exn json (EdgeFlow.first_body pE)).
  rewrite (EdgeFlow_after_page _ _ _ Hdata), Hskip, Hmore.
  cbv beta iota zeta. cbn [first_page]. rewrite (IH H (Some d)). reflexivity.
Qed.

(** X2: as long as the transport answers with pages that hold only the
    "other" item and announce more pages, the flow-metrics worker posts the
    same first-page body again and again, puts nothing on the queue and
    never signals the end; the main process has written the opening bracket
    and waits.  Nothing in the worker bounds the number of such rounds. *)
Theorem lone_other_pages_repeat_first_request :
  forall (pE : EdgeFlow.params) (pages : list json),
    forallb lone_other_more pages = true ->
    EdgeFlow.fetch_data_worker pE (map ok pages) =
      mkRun (repeat (EdgeFlow.first_body pE) (S (List.length pages))) []
            AwaitingResponse /\
    EdgeFlow.main pE (map ok pages) = mkOutput [Write array_open] Blocked.
Proof.
  intros pE pages H.
  assert (Hrun := EdgeFlow_lone_other_pages pE pages H None).
  split; [exact Hrun|].
  unfold EdgeFlow.main, EdgeFlow.fetch_data_worker. rewrite Hrun. reflexivity.
Qed.

Lemma lone_other_pages_repeat_first_request_witness :
  EdgeFlow.fetch_data_worker Sample.flow
    (map ok [Sample.P_other; Sample.P_other; Sample.P_other]) =
    mkRun (repeat (EdgeFlow.first_body Sample.flow) 4) [] AwaitingResponse.
Proof.
  exact (proj1 (lone_other_pages_repeat_first_request Sample.flow
                  [Sample.P_other; Sample.P_other; Sample.P_other] eq_refl)).
Defined.

(** ** Counting requests and batches *)

Lemma count_batches_app q q' :
  count_batches (q ++ q') = count_batches q + count_batches q'.
Proof. unfold count_batches. now rewrite filter_app, length_app. Qed.

Lemma EdgeFlow_step_one_batch st r :
  count_batches (fst (EdgeFlow.after_post st r)) <= 1.
Proof.
  unfold EdgeFlow.after_post.
  destruct r as [|code parsed]; [unfold count_batches; simpl; lia|].
  destruct (negb (code =? 200)%Z); [unfold count_batches; simpl; lia|].
  destruct parsed as [d|]; [|unfold count_batches; simpl; lia].
  destruct (no_data d) as [e|[|]]; [unfold count_batches; simpl; lia|unfold count_batches; simpl; lia|].
  rewrite bind_lift_inr.
  destruct (getitem d "data") as [e|items]; [unfold count_batches; simpl; lia|].
  rewrite bind_lift_inr.
  destruct (len items) as [e|n]; [unfold count_batches; simpl; lia|].
  rewrite bind_lift_inr.
  destruct (EdgeFlow.only_other items) as [e|[|]]; [unfold count_batches; simpl; lia| |].
  - rewrite bind_lift_inr, bind_ret.
    destruct (no_more d) as [e|[|]]; unfold count_batches; simpl; lia.
  - rewrite bind_lift_inr.
    destruct (no_more d) as [e|[|]]; unfold count_batches; simpl;
      destruct (is_None items); unfold count_batches; simpl; lia.
Qed.

Lemma Events_step_one_batch st r :
  count_batches (fst (Events.after_post st r)) <= 1.
Proof.
  unfold Events.after_post.
  destruct r as [|code parsed]; [unfold count_batches; simpl; lia|].
  destruct (negb (code =? 200)%Z); [unfold count_batches; simpl; lia|].
  destruct parsed as [d|]; [|unfold count_batches; simpl; lia].
  destruct (no_data d) as [e|[|]]; [unfold count_batches; simpl; lia|unfold count_batches; simpl; lia|].
  rewrite bind_lift_inr.
  destruct (getitem d "data") as [e|items]; [unfold count_batches; simpl; lia|].
  rewrite bind_lift_inr.
  destruct (len items) as [e|n]; [unfold count_batches; simpl; lia|].
  rewrite bind_lift_inr.
  destruct (no_more d) as [e|[|]]; unfold count_batches; simpl;
    destruct (is_None items); unfold count_batches; simpl; lia.
Qed.

Section LoopCounts.

Variable build : locals -> result json.
Variable after : locals -> post_result -> M json control.
Hypothesis step_one_batch : forall st r, count_batches (fst (after st r)) <= 1.

Lemma loop_counts script :
  forall st,
    count_batches (puts (loop build after st script)) <=
      List.length (requests (loop build after st script)) /\
    List.length (requests (loop build after st script)) <= S (List.length script).
Proof.
  induction script as [|r script IH]; intros st.
  - rewrite loop_nil. destruct (build st); unfold count_batches; simpl; lia.
  - rewrite loop_cons.
    destruct (build st) as [e|body]; [unfold count_batches; simpl; lia|].
    pose proof (step_one_batch st r) as Hone.
    destruct (after st r) as [q [e|[st'|]]];
      cbn [puts requests fst List.length] in *; try lia.
    rewrite count_batches_app. destruct (IH st') as [H1 H2]. lia.
Qed.

End LoopCounts.

(** X3: in any run of either worker, against any transport, the first
    request is the first-page body, every further request answers one
    outcome of the transport (one request outstanding at a time), and the
    number of batches on the queue never exceeds the number of requests
    posted: at most one batch per response. *)
Theorem one_request_one_batch :
  forall (pE : EdgeFlow.params) (pV : Events.params) (script : list post_result),
    hd_error (requests (EdgeFlow.fetch_data_worker pE script)) =
      Some (EdgeFlow.first_body pE) /\
    hd_error (requests (Events.fetch_data_worker pV script)) =
      Some (Events.first_body pV) /\
    count_batches (puts (EdgeFlow.fetch_data_worker pE script)) <=
      List.length (requests (EdgeFlow.fetch_data_worker pE script)) /\
    List.length (requests (EdgeFlow.fetch_data_worker pE script)) <=
      S (List.length script) /\
    count_batches (puts (Events.fetch_data_worker pV script)) <=
      List.length (requests (Events.fetch_data_worker pV script)) /\
    List.length (requests (Events.fetch_data_worker pV script)) <=
      S (List.length script).
Proof.
  intros pE pV script.
  destruct (loop_counts (EdgeFlow.build_body pE) _ EdgeFlow_step_one_batch script
              (mkLocals true None)) as [HE1 HE2].
  destruct (loop_counts (Events.build_body pV) _ Events_step_one_batch script
              (mkLocals true None)) as [HV1 HV2].
  unfold EdgeFlow.fetch_data_worker, Events.fetch_data_worker.
  repeat split; try assumption.
  - destruct script as [|r script]; [reflexivity|]. rewrite loop_cons.
    change (EdgeFlow.build_body pE (mkLocals true None)) with
      (@inr exn json (EdgeFlow.first_body pE)).
    destruct (EdgeFlow.after_post _ r) as [q [e|[st'|]]]; reflexivity.
  - destruct script as [|r script]; [reflexivity|]. rewrite loop_cons.
    change (Events.build_body pV (mkLocals true None)) with
      (@inr exn json (Events.first_body pV)).
    destruct (Events.after_post _ r) as [q [e|[st'|]]]; reflexivity.
Qed.

(** ** The end of pagination *)

Lemma no_more_ends d : ends_pagination d = true -> no_more d = inr true.
Proof.
  unfold ends_pagination, no_more.
  destruct d as [ | | | | |kvs]; try discriminate. simpl.
  destruct (assoc "metaData" kvs) as [[ | | | | |m]|]; try discriminate; simpl.
  - destruct (assoc "more" m) as [v|]; simpl; [|reflexivity].
    now intros ->.
  - reflexivity.
Qed.

Lemma no_more_truthy d v :
  page_more d = Some v -> truthy v = true -> no_more d = inr false.
Proof.
  unfold page_more, page_meta, no_more.
  destruct d as [ | | | | |kvs]; try discriminate. simpl.
  destruct (assoc "metaData" kvs) as [[ | | | | |m]|]; try discriminate. simpl.
  intros -> Hv. simpl. now rewrite Hv.
Qed.

Lemma EdgeFlow_last_page_stops pE d items :
  page_data d = Some items ->
  forallb is_object items = true ->
  ends_pagination d = true ->
  forall st body rest,
    EdgeFlow.build_body pE st = inr body ->
    loop (EdgeFlow.build_body pE) EdgeFlow.after_post st (ok d :: rest) =
      mkRun [body] ((if lone_other items then [] else [JArr items]) ++ [StreamEnd])
            Finished.
Proof.
  intros Hd Hobj Hend st body rest Hb.
  rewrite loop_cons, Hb, (EdgeFlow_after_page _ _ _ Hd).
  now rewrite (only_other_objects _ Hobj), (no_more_ends _ Hend).
Qed.

Lemma Events_last_page_stops pV d items :
  page_data d = Some items ->
  ends_pagination d = true ->
  forall st body rest,
    Events.build_body pV st = inr body ->
    loop (Events.build_body pV) Events.after_post st (ok d :: rest) =
      mkRun [body] [JArr items; StreamEnd] Finished.
Proof.
  intros Hd Hend st body rest Hb.
  rewrite loop_cons, Hb, (Events_after_page _ _ _ Hd).
  now rewrite (no_more_ends _ Hend).
Qed.

(** X4: the "more" indicator is read by truthiness and its absence is not
    an error.  At any depth of a run, a page without "metaData", or whose
    "metaData" object has no "more" or a falsy one (false, 0, the empty
    string, null, an empty list), is the last: the run that reaches it ends
    with the batches put so far, that page's batch (unless it is the lone
    "other" page of the flow-metrics worker), then the StreamEnd, and
    nothing behind it is asked for.  Any truthy "more", boolean or not,
    keeps the worker going, whatever its locals. *)
Theorem more_is_read_by_truthiness :
  forall (pE : EdgeFlow.params) (pV : Events.params) (pre : list post_result)
         (d : json) (items : list json) (rest : list post_result)
         (st : locals) (v : json),
    page_data d = Some items ->
    forallb is_object items = true ->
    (ends_pagination d = true ->
     (final (EdgeFlow.fetch_data_worker pE pre) = AwaitingResponse ->
      EdgeFlow.fetch_data_worker pE (pre ++ ok d :: rest) =
        mkRun (requests (EdgeFlow.fetch_data_worker pE pre))
              (puts (EdgeFlow.fetch_data_worker pE pre) ++
               (if lone_other items then [] else [JArr items]) ++ [StreamEnd])
              Finished) /\
     (final (Events.fetch_data_worker pV pre) = AwaitingResponse ->
      Events.fetch_data_worker pV (pre ++ ok d :: rest) =
        mkRun (requests (Events.fetch_data_worker pV pre))
              (puts (Events.fetch_data_worker pV pre) ++ [JArr items; StreamEnd])
              Finished) /\
     EdgeFlow.fetch_data_worker pE (ok d :: rest) =
       mkRun [EdgeFlow.first_body pE]
             ((if lone_other items then [] else [JArr items]) ++ [StreamEnd]) Finished /\
     Events.fetch_data_worker pV (ok d :: rest) =
       mkRun [Events.first_body pV] [JArr items; StreamEnd] Finished) /\
    (page_more d = Some v -> truthy v = true ->
     EdgeFlow.after_post st (ok d) =
       (if lone_other items then [] else [JArr items],
        inr (Continue (mkLocals (if lone_other items then first_page st else false)
                                (Some d)))) /\
     Events.after_post st (ok d) =
       ([JArr items], inr (Continue (mkLocals false (Some d))))).
Proof.
  intros pE pV pre d items rest st v Hd Hobj. split.
  - intros Hend. unfold EdgeFlow.fetch_data_worker, Events.fetch_data_worker.
    split; [|split; [|split]].
    + intros Hf.
      rewrite (loop_app_stop _ _ (ok d) _ Finished
                 (EdgeFlow_last_page_stops pE d items Hd Hobj Hend)).
      now rewrite Hf.
    + intros Hf.
      rewrite (loop_app_stop _ _ (ok d) _ Finished
                 (Events_last_page_stops pV d items Hd Hend)).
      now rewrite Hf.
    + now apply EdgeFlow_last_page_stops.
    + now apply Events_last_page_stops.
  - intros Hv Ht.
    rewrite (EdgeFlow_after_page _ _ _ Hd), (Events_after_page _ _ _ Hd).
    rewrite (only_other_objects _ Hobj), (no_more_truthy _ _ Hv Ht).
    split; reflexivity.
Qed.

Lemma more_is_read_by_truthiness_witness :
  EdgeFlow.fetch_data_worker Sample.flow
    ([ok Sample.P1] ++ ok (JObj [("data", JArr [Sample.item 3])]) :: [ok Sample.P2]) =
    mkRun [EdgeFlow.first_body Sample.flow; EdgeFlow.next_body Sample.flow (JStr "T1")]
          [JArr [Sample.item 1; Sample.item 2]; JArr [Sample.item 3]; StreamEnd]
          Finished /\
  Events.fetch_data_worker Sample.events
    [ok (JObj [("data", JArr [Sample.item 1])]); ok Sample.P2] =
    mkRun [Events.first_body Sample.events] [JArr [Sample.item 1]; StreamEnd] Finished /\
  Events.after_post (mkLocals true None)
    (ok (Sample.page [Sample.item 1] [("more", JStr "false")])) =
    ([JArr [Sample.item 1]],
     inr (Continue (mkLocals false
            (Some (Sample.page [Sample.item 1] [("more", JStr "false")]))))).
Proof.
  split; [|split].
  - rewrite (proj1 (proj1 (more_is_read_by_truthiness Sample.flow Sample.events
               [ok Sample.P1] (JObj [("data", JArr [Sample.item 3])]) [Sample.item 3]
               [ok Sample.P2] (mkLocals true None) JNull eq_refl eq_refl) eq_refl)
               eq_refl).
    reflexivity.
  - exact (proj2 (proj2 (proj2 (proj1 (more_is_read_by_truthiness Sample.flow
             Sample.events [] (JObj [("data", JArr [Sample.item 1])]) [Sample.item 1]
             [ok Sample.P2] (mkLocals true None) JNull eq_refl eq_refl) eq_refl)))).
  - exact (proj2 (proj2 (more_is_read_by_truthiness Sample.flow Sample.events []
             (Sample.page [Sample.item 1] [("more", JStr "false")]) [Sample.item 1] []
             (mkLocals true None) (JStr "false") eq_refl eq_refl) eq_refl eq_refl)).
Defined.

(** ** Runs that stop inside the pagination *)

Lemma inner_pages_well_formed pages :
  forallb inner_page pages = true ->
  forallb (forallb is_object) (map items_of pages) = true.
Proof.
  induction pages as [|d pages IH]; [reflexivity|].
  simpl. intros H. apply andb_prop in H. destruct H as [Hd Hpages].
  unfold inner_page in Hd.
  apply andb_prop in Hd. destruct Hd as [Hd _].
  apply andb_prop in Hd. destruct Hd as [Hwf _].
  rewrite (proj2 (well_formed_page_inv _ Hwf)). now apply IH.
Qed.

Lemma EdgeFlow_run_inner pE pages :
  forallb inner_page pages = true ->
  forall st,
    (exists body, EdgeFlow.build_body pE st = inr body) ->
    puts (loop (EdgeFlow.build_body pE) EdgeFlow.after_post st (map ok pages)) =
      map JArr (filter sent (map items_of pages)) /\
    final (loop (EdgeFlow.build_body pE) EdgeFlow.after_post st (map ok pages)) =
      AwaitingResponse.
Proof.
  induction pages as [|d pages IH]; intros Hpages st [body Hb].
  - simpl map. rewrite loop_nil, Hb. auto.
  - simpl in Hpages. apply andb_prop in Hpages. destruct Hpages as [Hd0 Hpages].
    unfold inner_page in Hd0.
    apply andb_prop in Hd0. destruct Hd0 as [Hd0 Hlink].
    apply andb_prop in Hd0. destruct Hd0 as [Hwf Hmore].
    destruct (well_formed_page_inv _ Hwf) as [Hd Hobj].
    destruct (has_link_inv _ Hlink) as [tok Htok].
    simpl map. rewrite loop_cons, Hb.
    rewrite (EdgeFlow_after_page _ _ _ Hd), (only_other_objects _ Hobj).
    rewrite (no_more_true _ (more_is_inv _ _ Hmore)). cbv beta iota zeta.
    match goal with
    | |- context [loop _ _ ?st' _] =>
        assert (Hpre : exists body', EdgeFlow.build_body pE st' = inr body');
        [|destruct (IH Hpages st' Hpre) as [Hputs Hfinal]]
    end.
    { unfold EdgeFlow.build_body. cbn [first_page data].
      rewrite (next_page_link_page _ _ Htok).
      destruct (if lone_other (items_of d) then first_page st else false);
        simpl; eauto. }
    cbn [puts final]. rewrite Hfinal, Hputs. split; [|reflexivity].
    unfold sent at 2. simpl filter.
    destruct (lone_other (items_of d)); reflexivity.
Qed.

Lemma Events_run_inner pV pages :
  forallb inner_page pages = true ->
  forall st,
    (exists body, Events.build_body pV st = inr body) ->
    puts (loop (Events.build_body pV) Events.after_post st (map ok pages)) =
      map JArr (map items_of pages) /\
    final (loop (Events.build_body pV) Events.after_post st (map ok pages)) =
      AwaitingResponse.
Proof.
  induction pages as [|d pages IH]; intros Hpages st [body Hb].
  - simpl map. rewrite loop_nil, Hb. auto.
  - simpl in Hpages. apply andb_prop in Hpages. destruct Hpages as [Hd0 Hpages].
    unfold inner_page in Hd0.
    apply andb_prop in Hd0. destruct Hd0 as [Hd0 Hlink].
    apply andb_prop in Hd0. destruct Hd0 as [Hwf Hmore].
    destruct (well_formed_page_inv _ Hwf) as [Hd Hobj].
    destruct (has_link_inv _ Hlink) as [tok Htok].
    simpl map. rewrite loop_cons, Hb.
    rewrite (Events_after_page _ _ _ Hd).
    rewrite (no_more_true _ (more_is_inv _ _ Hmore)). cbv beta iota zeta.
    assert (Hpre : exists body', Events.build_body pV (mkLocals false (Some d)) = inr body').
    { unfold Events.build_body. cbn [first_page data].
      rewrite (next_page_link_page _ _ Htok). simpl. eauto. }
    destruct (IH Hpages _ Hpre) as [Hputs Hfinal].
    cbn [puts final]. rewrite Hfinal, Hputs. split; reflexivity.
Qed.

(** X5: when the transport fails in the middle of the pagination (any
    outcome that ends the stream, after any number of good pages), the file
    is still a complete, closed array: it holds the items of the pages
    received so far - for flow metrics those not named "other" - and
    nothing in it tells the truncated run from one that reached the last
    page. *)
Theorem failure_leaves_a_closed_array :
  forall (pE : EdgeFlow.params) (pV : Events.params)
         (pages : list json) (r : post_result) (rest : list post_result),
    forallb inner_page pages = true ->
    ends_stream r = true ->
    EdgeFlow.main pE (map ok pages ++ r :: rest) =
      mkOutput (framed (filter not_other (flat_map items_of pages))) Closed /\
    Events.main pV (map ok pages ++ r :: rest) =
      mkOutput (framed (flat_map items_of pages)) Closed.
Proof.
  intros pE pV pages r rest Hpages Hr. split.
  - unfold EdgeFlow.main, EdgeFlow.fetch_data_worker.
    rewrite (loop_app_end _ _ r (fun st => EdgeFlow_after_ends st r Hr)).
    destruct (EdgeFlow_run_inner pE pages Hpages (mkLocals true None))
      as [Hputs Hfinal]; [now exists (EdgeFlow.first_body pE)|].
    rewrite Hfinal, Hputs. cbn [puts].
    rewrite EdgeFlow_main_write_batches.
    + now rewrite filter_sent_not_other, flat_map_concat_map.
    + apply forallb_filter. now apply inner_pages_well_formed.
  - unfold Events.main, Events.fetch_data_worker.
    rewrite (loop_app_end _ _ r (fun st => Events_after_ends st r Hr)).
    destruct (Events_run_inner pV pages Hpages (mkLocals true None))
      as [Hputs Hfinal]; [now exists (Events.first_body pV)|].
    rewrite Hfinal, Hputs. cbn [puts].
    rewrite Events_main_write_batches.
    now rewrite flat_map_concat_map.
Qed.

Lemma failure_leaves_a_closed_array_witness :
  EdgeFlow.main Sample.flow (map ok [Sample.P1] ++ Response 503 None :: []) =
    mkOutput (framed [Sample.item 1; Sample.item 2]) Closed /\
  Events.main Sample.events (map ok [] ++ RequestException :: []) =
    mkOutput (framed []) Closed.
Proof.
  split.
  - exact (proj1 (failure_leaves_a_closed_array Sample.flow Sample.events
                    [Sample.P1] (Response 503 None) [] eq_refl eq_refl)).
  - exact (proj2 (failure_leaves_a_closed_array Sample.flow Sample.events
                    [] RequestException [] eq_refl eq_refl)).
Defined.

(** * Further properties of the write loop *)

Section WriteLoopPrefix.

Variable write_chunk : list json -> bool -> M file_op bool.
Variable good : list json -> bool.
Variable written : list json -> list json.

Hypothesis write_chunk_ops : forall items fe,
  good items = true ->
  write_chunk items fe = (chunk_ops fe (written items), inr (fe && is_nil (written items))).

(** Good batches at the head of the queue are written, and the loop goes on
    with what follows them. *)
Lemma write_loop_app_batches batches tail :
  forallb good batches = true ->
  forall fe,
    write_loop write_chunk (map JArr batches ++ tail) fe =
      mkOutput
        (chunk_ops fe (flat_map written batches) ++
         ops (write_loop write_chunk tail (fe && is_nil (flat_map written batches))))
        (wfinal (write_loop write_chunk tail (fe && is_nil (flat_map written batches)))).
Proof.
  induction batches as [|b batches IH]; intros Hgood fe.
  - simpl map. simpl app. simpl flat_map. simpl is_nil. rewrite andb_true_r.
    destruct fe; now destruct (write_loop write_chunk tail _).
  - simpl in Hgood. apply andb_prop in Hgood. destruct Hgood as [Hb Hgood].
    simpl map. simpl app. simpl flat_map. rewrite chunk_ops_app.
    unfold write_loop at 1; fold (write_loop write_chunk).
    assert (Hlog : log_chunk_size (JArr b) = inr tt)
      by (unfold log_chunk_size; destruct b; reflexivity).
    rewrite Hlog. simpl is_None. simpl iter. cbv iota.
    rewrite (write_chunk_ops _ _ Hb), (IH Hgood). cbn [ops wfinal].
    assert (Hnil : forall (a c : list json) (x : bool),
               x && is_nil a && is_nil c = x && is_nil (a ++ c))
      by (intros a c x; destruct x, a; reflexivity).
    rewrite Hnil. now rewrite app_assoc.
Qed.

End WriteLoopPrefix.

Lemma EdgeFlow_write_chunk_raises pre x post :
  forallb is_object pre = true ->
  is_object x = false ->
  forall fe,
    EdgeFlow.write_chunk (pre ++ x :: post) fe =
      (chunk_ops fe (filter not_other pre), inl AttributeError).
Proof.
  induction pre as [|y pre IH]; intros Hobj Hx fe.
  - simpl app. simpl EdgeFlow.write_chunk.
    destruct x; try discriminate; destruct fe; reflexivity.
  - simpl in Hobj. apply andb_prop in Hobj. destruct Hobj as [Hy Hobj].
    simpl app. simpl EdgeFlow.write_chunk.
    destruct y as [ | | | | |o]; try discriminate.
    unfold Py.get. rewrite bind_lift_inr.
    assert (Heq : eq_str match assoc "name" o with Some x => x | None => JNull end "other"
                  = is_other (JObj o)).
    { simpl. destruct (assoc "name" o) as [[ | | | | | ]|]; reflexivity. }
    rewrite Heq. clear Heq.
    change (filter not_other (JObj o :: pre)) with
      (if not_other (JObj o) then JObj o :: filter not_other pre
       else filter not_other pre).
    change (not_other (JObj o)) with (negb (is_other (JObj o))).
    destruct (is_other (JObj o)); simpl negb; cbv iota.
    + apply IH; assumption.
    + rewrite chunk_ops_cons. unfold bind. rewrite (IH Hobj Hx).
      destruct fe; reflexivity.
Qed.

(** X6: an item that is not an object stops the flow-metrics main process
    with AttributeError (it calls item.get on every item): the file keeps
    the opening bracket and the items written before it, in order, and
    never gets its closing bracket; the items behind it and the rest of the
    queue are not read.  The events main process has no such call and
    writes the same queue to the end. *)
Theorem non_object_item_stops_flow_writer :
  forall (batches : list (list json)) (pre : list json) (x : json)
         (post : list json) (rest : list json),
    forallb (forallb is_object) batches = true ->
    forallb is_object pre = true ->
    is_object x = false ->
    EdgeFlow.main_write (map JArr batches ++ JArr (pre ++ x :: post) :: rest) =
      mkOutput (Write array_open ::
                separated (filter not_other (List.concat batches ++ pre)))
               (WRaised AttributeError) /\
    Events.main_write (map JArr batches ++ JArr (pre ++ x :: post) :: StreamEnd :: rest) =
      mkOutput (framed (List.concat batches ++ pre ++ x :: post)) Closed.
Proof.
  intros batches pre x post rest Hobj Hpre Hx. split.
  - unfold EdgeFlow.main_write, write_file.
    rewrite (write_loop_app_batches EdgeFlow.write_chunk (forallb is_object)
               (filter not_other)
               (fun items fe Ho => EdgeFlow_write_chunk items Ho fe) _ _ Hobj).
    assert (Hbad : forall fe,
              write_loop EdgeFlow.write_chunk (JArr (pre ++ x :: post) :: rest) fe =
                mkOutput (chunk_ops fe (filter not_other pre)) (WRaised AttributeError)).
    { intros fe. unfold write_loop.
      assert (Hlog : log_chunk_size (JArr (pre ++ x :: post)) = inr tt)
        by (unfold log_chunk_size; destruct pre; reflexivity).
      rewrite Hlog. simpl is_None. simpl iter. cbv iota.
      now rewrite (EdgeFlow_write_chunk_raises _ _ _ Hpre Hx). }
    rewrite Hbad. cbn [ops wfinal].
    rewrite flat_map_filter, filter_app.
    change (separated (filter not_other (List.concat batches) ++ filter not_other pre))
      with (chunk_ops true (filter not_other (List.concat batches) ++ filter not_other pre)).
    rewrite chunk_ops_app. reflexivity.
  - change (map JArr batches ++ JArr (pre ++ x :: post) :: StreamEnd :: rest)%list
      with (map JArr batches ++ [JArr (pre ++ x :: post)] ++ StreamEnd :: rest)%list.
    rewrite app_assoc.
    change [JArr (pre ++ x :: post)%list] with (map JArr [(pre ++ x :: post)%list]).
    rewrite <- map_app, Events_main_write_batches.
    rewrite concat_app. simpl List.concat. now rewrite app_nil_r.
Qed.

Lemma non_object_item_stops_flow_writer_witness :
  EdgeFlow.main_write
    (map JArr [[Sample.item 1]] ++ JArr ([Sample.item 2] ++ JNum 7 :: [Sample.item 3])
       :: [StreamEnd]) =
    mkOutput [Write array_open; WriteJson (Sample.item 1) 4; Write array_sep;
              WriteJson (Sample.item 2) 4] (WRaised AttributeError).
Proof.
  exact (proj1 (non_object_item_stops_flow_writer [[Sample.item 1]] [Sample.item 2]
                  (JNum 7) [Sample.item 3] [StreamEnd] eq_refl eq_refl eq_refl)).
Defined.

(** X7: the output does not depend on how the items are cut into batches:
    any batches and the single batch of all their items leave the same
    file, in both main processes.  Page size only changes the number of
    requests. *)
Theorem batching_is_invisible :
  forall (batches : list (list json)) (rest rest' : list json),
    (forallb (forallb is_object) batches = true ->
     EdgeFlow.main_write (map JArr batches ++ StreamEnd :: rest) =
       EdgeFlow.main_write (JArr (List.concat batches) :: StreamEnd :: rest')) /\
    Events.main_write (map JArr batches ++ StreamEnd :: rest) =
      Events.main_write (JArr (List.concat batches) :: StreamEnd :: rest').
Proof.
  intros batches rest rest'. split.
  - intros Hobj.
    rewrite (EdgeFlow_main_write_batches _ _ Hobj).
    change (JArr (List.concat batches) :: StreamEnd :: rest') with
      (map JArr [List.concat batches] ++ StreamEnd :: rest')%list.
    rewrite EdgeFlow_main_write_batches.
    + simpl List.concat. now rewrite app_nil_r.
    + simpl. rewrite andb_true_r. rewrite <- flat_map_self.
      clear rest rest'. induction batches as [|b batches IH]; [reflexivity|].
      simpl in *. apply andb_prop in Hobj. destruct Hobj as [Hb Hobj].
      rewrite forallb_app, Hb. now apply IH.
  - rewrite Events_main_write_batches.
    change (JArr (List.concat batches) :: StreamEnd :: rest') with
      (map JArr [List.concat batches] ++ StreamEnd :: rest')%list.
    rewrite Events_main_write_batches.
    simpl List.concat. now rewrite app_nil_r.
Qed.

Lemma batching_is_invisible_witness :
  EdgeFlow.main_write
    (map JArr [[Sample.item 1]; []; [Sample.other; Sample.item 2]] ++ StreamEnd :: []) =
  EdgeFlow.main_write
    (JArr (List.concat [[Sample.item 1]; []; [Sample.other; Sample.item 2]])
       :: StreamEnd :: [JArr [Sample.item 3]]).
Proof.
  exact (proj1 (batching_is_invisible [[Sample.item 1]; []; [Sample.other; Sample.item 2]]
                  [] [JArr [Sample.item 3]]) eq_refl).
Defined.

Lemma write_file_no_end write_chunk good written batches :
  (forall items fe, good items = true ->
     write_chunk items fe =
       (chunk_ops fe (written items), inr (fe && is_nil (written items)))) ->
  forallb good batches = true ->
  write_file write_chunk (map JArr batches) =
    mkOutput (Write array_open :: separated (flat_map written batches)) Blocked.
Proof.
  intros Hops Hgood. unfold write_file.
  rewrite <- (app_nil_r (map JArr batches)).
  rewrite (write_loop_app_batches write_chunk good written Hops _ _ Hgood).
  simpl. now rewrite app_nil_r.
Qed.

(** X8: when the worker dies on a page that announces more pages without a
    "nextPageLink" (after any number of good pages), the main process has
    written the opening bracket and every item received, that page's
    included, and then waits on the queue for ever: the file never gets its
    closing bracket. *)
Theorem key_error_leaves_file_open :
  forall (pE : EdgeFlow.params) (pV : Events.params)
         (pages : list json) (d : json) (rest : list post_result),
    forallb inner_page pages = true ->
    well_formed_page d = true ->
    lone_other (items_of d) = false ->
    more_is true d = true ->
    page_link d = None ->
    EdgeFlow.main pE (map ok pages ++ ok d :: rest) =
      mkOutput (Write array_open ::
                separated (filter not_other (flat_map items_of (pages ++ [d]))))
               Blocked /\
    Events.main pV (map ok pages ++ ok d :: rest) =
      mkOutput (Write array_open :: separated (flat_map items_of (pages ++ [d])))
               Blocked.
Proof.
  intros pE pV pages d rest Hpages Hwf Hlone Hmore Hlink.
  destruct (well_formed_page_inv _ Hwf) as [Hd Hobj].
  apply more_is_inv in Hmore.
  assert (Hall : forallb (forallb is_object) (map items_of (pages ++ [d])) = true).
  { rewrite map_app, forallb_app, (inner_pages_well_formed _ Hpages).
    simpl. now rewrite Hobj. }
  split.
  - unfold EdgeFlow.main, EdgeFlow.fetch_data_worker.
    rewrite (loop_app_stop _ _ (ok d) [JArr (items_of d)] (Raised KeyError)
               (EdgeFlow_no_link_stops pE d _ Hd Hobj Hlone Hmore Hlink)).
    destruct (EdgeFlow_run_inner pE pages Hpages (mkLocals true None))
      as [Hputs Hfinal]; [now exists (EdgeFlow.first_body pE)|].
    rewrite Hfinal, Hputs. cbn [puts].
    change [JArr (items_of d)] with (map JArr [items_of d]).
    rewrite <- map_app. unfold EdgeFlow.main_write.
    rewrite (write_file_no_end EdgeFlow.write_chunk (forallb is_object)
               (filter not_other) _
               (fun items fe Ho => EdgeFlow_write_chunk items Ho fe)).
    + rewrite flat_map_filter, concat_app, !filter_app, filter_sent_not_other.
      rewrite <- !filter_app, <- concat_app.
      change [items_of d] with (map items_of [d]).
      now rewrite <- map_app, <- flat_map_concat_map.
    + rewrite forallb_app. apply andb_true_intro. split.
      * apply forallb_filter. now apply inner_pages_well_formed.
      * simpl. now rewrite Hobj.
  - unfold Events.main, Events.fetch_data_worker.
    rewrite (loop_app_stop _ _ (ok d) [JArr (items_of d)] (Raised KeyError)
               (Events_no_link_stops pV d _ Hd Hmore Hlink)).
    destruct (Events_run_inner pV pages Hpages (mkLocals true None))
      as [Hputs Hfinal]; [now exists (Events.first_body pV)|].
    rewrite Hfinal, Hputs. cbn [puts].
    change [JArr (items_of d)] with (map JArr [items_of d]).
    rewrite <- map_app. unfold Events.main_write.
    rewrite (write_file_no_end Events.write_chunk (fun _ => true) (fun x => x) _
               (fun items fe _ => Events_write_chunk items fe)).
    + rewrite flat_map_self.
      change [items_of d] with (map items_of [d]).
      now rewrite <- map_app, <- flat_map_concat_map.
    + now apply forallb_forall.
Qed.

Lemma key_error_leaves_file_open_witness :
  EdgeFlow.main Sample.flow (map ok [Sample.P1] ++ ok Sample.P_no_link :: [ok Sample.P2]) =
    mkOutput [Write array_open; WriteJson (Sample.item 1) 4; Write array_sep;
              WriteJson (Sample.item 2) 4; Write array_sep;
              WriteJson (Sample.item 1) 4] Blocked.
Proof.
  exact (proj1 (key_error_leaves_file_open Sample.flow Sample.events [Sample.P1]
                  Sample.P_no_link [ok Sample.P2]
                  eq_refl eq_refl eq_refl eq_refl eq_refl)).
Defined.

(** * Properties of the indentation *)

Lemma string_app_nil_l (s : string) : "" ++ s = s.
Proof. reflexivity. Qed.

Lemma no_boundary_app a b :
  no_boundary (a ++ b) = no_boundary a && no_boundary b.
Proof.
  induction a as [|c a IH]; [reflexivity|].
  simpl. now rewrite IH, andb_assoc.
Qed.

Lemma no_boundary_spaces n : no_boundary (spaces n) = true.
Proof. induction n as [|n IH]; [reflexivity|]. simpl. exact IH. Qed.

Lemma eqb_cr_boundary c :
  Ascii.eqb c (ascii_of_nat 13) = true -> is_line_boundary c = true.
Proof. intros H. apply Ascii.eqb_eq in H. now subst. Qed.

(** A line without line ends is read in one piece. *)
Lemma splitlines_from_line l :
  no_boundary l = true ->
  forall rest cur,
    splitlines_from (l ++ rest) cur = splitlines_from rest (cur ++ l).
Proof.
  induction l as [|c l IH]; intros Hl rest cur.
  - now rewrite string_app_nil_r.
  - simpl in Hl. apply andb_prop in Hl. destruct Hl as [Hc Hl].
    apply negb_true_iff in Hc.
    change ((String c l) ++ rest) with (String c (l ++ rest)).
    assert (Hcr : Ascii.eqb c (ascii_of_nat 13) = false).
    { destruct (Ascii.eqb c (ascii_of_nat 13)) eqn:E; [|reflexivity].
      rewrite (eqb_cr_boundary _ E) in Hc. discriminate. }
    unfold splitlines_from; fold splitlines_from. rewrite Hcr, Hc.
    rewrite (IH Hl). f_equal.
    now rewrite string_app_assoc.
Qed.

Lemma splitlines_from_lf rest cur :
  splitlines_from (LF ++ rest) cur = cur :: splitlines_from rest "".
Proof. reflexivity. Qed.

(** Joining lines with "\n" and splitting again gives the lines back,
    when no line holds a line end and the last one is not empty. *)
Lemma splitlines_join ls :
  forallb no_boundary ls = true ->
  last ls " " <> "" ->
  splitlines (String.concat LF ls) = ls.
Proof.
  unfold splitlines.
  induction ls as [|l ls IH]; intros Hnb Hlast; [reflexivity|].
  simpl in Hnb. apply andb_prop in Hnb. destruct Hnb as [Hl Hnb].
  destruct ls as [|l2 ls].
  - simpl String.concat. rewrite <- (string_app_nil_r l) at 1.
    rewrite (splitlines_from_line _ Hl). simpl.
    simpl in Hlast. destruct (String.eqb_spec l ""); [contradiction|reflexivity].
  - change (String.concat LF (l :: l2 :: ls)) with
      (l ++ LF ++ String.concat LF (l2 :: ls)).
    rewrite (splitlines_from_line _ Hl), splitlines_from_lf.
    rewrite string_app_nil_l. f_equal.
    apply IH; [exact Hnb|exact Hlast].
Qed.

(** The lines [str.splitlines] gives hold no line end. *)
Lemma splitlines_from_no_boundary n :
  forall s cur,
    String.length s <= n ->
    no_boundary cur = true ->
    forallb no_boundary (splitlines_from s cur) = true.
Proof.
  induction n as [|n IH]; intros s cur Hlen Hcur.
  - destruct s; [|simpl in Hlen; lia].
    simpl. destruct (String.eqb cur ""); simpl; [reflexivity|now rewrite Hcur].
  - destruct s as [|c rest].
    + simpl. destruct (String.eqb cur ""); simpl; [reflexivity|now rewrite Hcur].
    + assert (Hrest : String.length rest <= n) by (simpl in Hlen; lia).
      clear Hlen.
      unfold splitlines_from; fold splitlines_from.
      destruct (Ascii.eqb c (ascii_of_nat 13)).
      * destruct rest as [|c' rest'].
        -- cbn [forallb]. rewrite Hcur. reflexivity.
        -- destruct (Ascii.eqb c' (ascii_of_nat 10)); cbn [forallb];
             rewrite Hcur; cbn [andb]; apply IH; try reflexivity;
             [simpl in Hrest; lia|exact Hrest].
      * destruct (is_line_boundary c) eqn:Hb.
        -- cbn [forallb]. rewrite Hcur. cbn [andb]. apply IH; [exact Hrest|reflexivity].
        -- apply IH; [exact Hrest|].
           rewrite no_boundary_app, Hcur. simpl. now rewrite Hb.
Qed.

Lemma last_map_nonempty (f : string -> string) ls :
  (forall l, f l <> "") -> last (map f ls) " " <> "".
Proof.
  intros Hf. induction ls as [|l ls IH]; [discriminate|].
  simpl. destruct (map f ls) eqn:E; [apply Hf|].
  destruct ls; [discriminate|]. exact IH.
Qed.

(** X9: [write_json_with_indent] keeps the line structure of the text
    [json.dumps] gave it: for a positive indent, the lines of what it
    writes are the lines of that text, in order and as many, each one with
    [indent] spaces put before it.  No line is lost, joined or split, and
    the element does not end with a line end. *)
Theorem indent_keeps_lines :
  forall (dumps : json -> nat -> string) (item : json) (indent : nat),
    0 < indent ->
    splitlines (write_json_with_indent dumps item indent) =
      map (fun line => spaces indent ++ line) (splitlines (dumps item indent)) /\
    List.length (splitlines (write_json_with_indent dumps item indent)) =
      List.length (splitlines (dumps item indent)).
Proof.
  intros dumps item indent Hpos.
  assert (H : splitlines (write_json_with_indent dumps item indent) =
      map (fun line => spaces indent ++ line) (splitlines (dumps item indent))).
  { unfold write_json_with_indent. apply splitlines_join.
    - assert (Hnb := splitlines_from_no_boundary _ (dumps item indent) ""
                       (Nat.le_refl _) eq_refl).
      fold (splitlines (dumps item indent)) in Hnb.
      induction (splitlines (dumps item indent)) as [|l ls IH]; [reflexivity|].
      simpl in *. apply andb_prop in Hnb. destruct Hnb as [Hl Hls].
      rewrite no_boundary_app, no_boundary_spaces, Hl. simpl. now apply IH.
    - apply last_map_nonempty. intros l.
      destruct indent as [|k]; [lia|]. discriminate. }
  split; [exact H|]. now rewrite H, length_map.
Qed.

Lemma indent_keeps_lines_witness :
  splitlines (write_json_with_indent
                (fun _ _ => "{" ++ LF ++ "    x" ++ LF ++ "}") JNull 4) =
    ["    {"; "        x"; "    }"].
Proof.
  exact (proj1 (indent_keeps_lines
                  (fun _ _ => "{" ++ LF ++ "    x" ++ LF ++ "}") JNull 4
                  (Nat.lt_0_succ 3))).
Defined.

(** * Properties of the names and times *)

Lemma occurs_app c a b : occurs c (a ++ b) = occurs c a || occurs c b.
Proof.
  induction a as [|x a IH]; [reflexivity|].
  simpl. now rewrite IH, orb_assoc.
Qed.

Lemma occurs_replaced a b s : Ascii.eqb b a = false -> occurs a (replace_char a b s) = false.
Proof.
  intros Hba. induction s as [|x s IH]; [reflexivity|].
  simpl. rewrite IH, orb_false_r.
  destruct (Ascii.eqb x a) eqn:E; [exact Hba|exact E].
Qed.

Lemma occurs_replace_other c a b s :
  Ascii.eqb b c = false ->
  occurs c s = false ->
  occurs c (replace_char a b s) = false.
Proof.
  intros Hbc. induction s as [|x s IH]; [reflexivity|].
  simpl. intros H. apply orb_false_elim in H. destruct H as [Hx Hs].
  rewrite (IH Hs), orb_false_r.
  destruct (Ascii.eqb x a); [exact Hbc|exact Hx].
Qed.

Lemma file_safe_clean s :
  occurs ":" (file_safe s) = false /\ occurs " " (file_safe s) = false.
Proof.
  unfold file_safe. split.
  - apply occurs_replace_other; [reflexivity|].
    now apply occurs_replaced.
  - now apply occurs_replaced.
Qed.

(** X10: whatever the two times are, the name of the output file of either
    script holds no colon and no space: every ':' of a time has become '-'
    and every ' ' has become '_', and the fixed parts of the name hold
    neither. *)
Theorem output_filename_is_clean :
  forall (start_human stop_human : string),
    occurs ":" (EdgeFlowConfig.output_filename start_human stop_human) = false /\
    occurs " " (EdgeFlowConfig.output_filename start_human stop_human) = false /\
    occurs ":" (EventsConfig.output_filename start_human stop_human) = false /\
    occurs " " (EventsConfig.output_filename start_human stop_human) = false.
Proof.
  intros a b.
  destruct (file_safe_clean a) as [Ha1 Ha2].
  destruct (file_safe_clean b) as [Hb1 Hb2].
  unfold EdgeFlowConfig.output_filename, EventsConfig.output_filename.
  rewrite !occurs_app, Ha1, Ha2, Hb1, Hb2.
  repeat split; reflexivity.
Qed.

Lemma take_two_digits sign h rest :
  take 3 (String sign (two_digits h ++ rest)) = String sign (two_digits h).
Proof. reflexivity. Qed.

Lemma drop_two_digits sign h rest :
  drop 3 (String sign (two_digits h ++ rest)) = rest.
Proof. reflexivity. Qed.

Lemma strftime_z_minutes m :
  strftime_z (60 * m) =
    (if (m <? 0)%Z then "-" else "+") ++
    two_digits (Z.to_nat (Z.abs m) / 60) ++ two_digits (Z.to_nat (Z.abs m) mod 60).
Proof.
  unfold strftime_z.
  assert (Ha : Z.to_nat (Z.abs (60 * m)) = 60 * Z.to_nat (Z.abs m)) by lia.
  rewrite Ha.
  assert (Hs : (60 * m <? 0)%Z = (m <? 0)%Z).
  { destruct (Z.ltb_spec m 0), (Z.ltb_spec (60 * m) 0); try reflexivity; lia. }
  rewrite Hs.
  set (k := Z.to_nat (Z.abs m)).
  assert (H1 : (60 * k) / 3600 = k / 60).
  { change 3600 with (60 * 60). now rewrite Nat.Div0.div_mul_cancel_l. }
  assert (H2 : ((60 * k) mod 3600) / 60 = k mod 60).
  { change 3600 with (60 * 60). rewrite Nat.Div0.mul_mod_distr_l.
    rewrite Nat.mul_comm. now apply Nat.div_mul. }
  assert (H3 : (60 * k) mod 60 = 0).
  { rewrite Nat.mul_comm. apply Nat.Div0.mod_mul. }
  rewrite H1, H2, H3. simpl Nat.eqb. cbv iota.
  now rewrite string_app_nil_r.
Qed.

Lemma rfc3339_whole_minutes L s base tz m :
  strptime_base L s = Some base ->
  (-1440 < m < 1440)%Z ->
  match tz with
  | Some m' => m' = m
  | None => local_offset_sec L = (60 * m)%Z
  end ->
  EdgeFlowConfig.human_to_rfc3339_nano L (JStr s) tz =
    inr (base ++ ".000000000" ++
         (if (m <? 0)%Z then "-" else "+") ++
         two_digits (Z.to_nat (Z.abs m) / 60) ++ ":" ++
         two_digits (Z.to_nat (Z.abs m) mod 60)).
Proof.
  intros Hbase Hm Htz. unfold EdgeFlowConfig.human_to_rfc3339_nano.
  rewrite Hbase.
  assert (Hoff : match tz with
                 | Some m' => (60 * m')%Z
                 | None => local_offset_sec L
                 end = (60 * m)%Z)
    by (destruct tz; [now subst|exact Htz]).
  rewrite Hoff.
  assert (Hrange : ((-86400 <? 60 * m) && (60 * m <? 86400))%Z = true).
  { apply andb_true_intro. split; apply Z.ltb_lt; lia. }
  rewrite Hrange, strftime_z_minutes.
  destruct (m <? 0)%Z; reflexivity.
Qed.

(** X11: for a time the library parses and an offset of whole minutes less
    than a day from UTC - given in minutes, or, when none is given, the
    offset of the local zone - [human_to_rfc3339_nano] returns the parsed
    date and time, nine zeros for the nanoseconds, and the offset as sign,
    two digits of hours, a colon, two digits of minutes. *)
Theorem rfc3339_offset_has_colon :
  forall (L : library) (s base : string) (m : Z),
    strptime_base L s = Some base ->
    (-1440 < m < 1440)%Z ->
    EdgeFlowConfig.human_to_rfc3339_nano L (JStr s) (Some m) =
      inr (base ++ ".000000000" ++
           (if (m <? 0)%Z then "-" else "+") ++
           two_digits (Z.to_nat (Z.abs m) / 60) ++ ":" ++
           two_digits (Z.to_nat (Z.abs m) mod 60)) /\
    (local_offset_sec L = (60 * m)%Z ->
     EdgeFlowConfig.human_to_rfc3339_nano L (JStr s) None =
       EdgeFlowConfig.human_to_rfc3339_nano L (JStr s) (Some m)).
Proof.
  intros L s base m Hbase Hm. split.
  - now apply (rfc3339_whole_minutes L s base (Some m) m).
  - intros Hloc.
    rewrite (rfc3339_whole_minutes L s base None m Hbase Hm Hloc).
    now rewrite (rfc3339_whole_minutes L s base (Some m) m Hbase Hm eq_refl).
Qed.

Lemma rfc3339_offset_has_colon_witness :
  EdgeFlowConfig.human_to_rfc3339_nano SampleLib.lib (JStr "2024-02-20 03:04:00")
    (Some 330%Z) = inr "2024-02-20T03:04:00.000000000+05:30" /\
  EdgeFlowConfig.human_to_rfc3339_nano SampleLib.lib (JStr "2024-02-20 03:04:00")
    (Some (-120)%Z) = inr "2024-02-20T03:04:00.000000000-02:00" /\
  EdgeFlowConfig.human_to_rfc3339_nano SampleLib.lib (JStr "2024-02-20 03:04:00") None =
    EdgeFlowConfig.human_to_rfc3339_nano SampleLib.lib (JStr "2024-02-20 03:04:00")
      (Some 60%Z).
Proof.
  split; [|split].
  - exact (proj1 (rfc3339_offset_has_colon SampleLib.lib "2024-02-20 03:04:00"
                    "2024-02-20T03:04:00" 330 eq_refl (conj eq_refl eq_refl))).
  - exact (proj1 (rfc3339_offset_has_colon SampleLib.lib "2024-02-20 03:04:00"
                    "2024-02-20T03:04:00" (-120) eq_refl (conj eq_refl eq_refl))).
  - exact (proj2 (rfc3339_offset_has_colon SampleLib.lib "2024-02-20 03:04:00"
                    "2024-02-20T03:04:00" 60 eq_refl (conj eq_refl eq_refl)) eq_refl).
Defined.

(** * Properties of the configuration *)

Lemma assoc_cons {A : Type} k k' (v : A) rest :
  assoc k ((k', v) :: rest) = if String.eqb k k' then Some v else assoc k rest.
Proof. reflexivity. Qed.

Lemma assoc_dict_set_same d k v : assoc k (dict_set d k v) = Some v.
Proof.
  induction d as [|[k' v'] d IH]; simpl.
  - now rewrite assoc_cons, String.eqb_refl.
  - destruct (String.eqb k k') eqn:E; rewrite assoc_cons, E; [reflexivity|exact IH].
Qed.

Lemma assoc_dict_set_other d k k' v :
  String.eqb k k' = false -> assoc k (dict_set d k' v) = assoc k d.
Proof.
  intros Hk. induction d as [|[k0 v0] d IH]; simpl.
  - now rewrite assoc_cons, Hk.
  - destruct (String.eqb k' k0) eqn:E; rewrite !assoc_cons.
    + apply String.eqb_eq in E. subst k0. now rewrite Hk.
    + now rewrite IH.
Qed.

Lemma dict_get_set_same d k v default : dict_get (dict_set d k v) k default = v.
Proof. unfold dict_get. now rewrite assoc_dict_set_same. Qed.

Lemma dict_get_set_other d k k' v default :
  String.eqb k k' = false ->
  dict_get (dict_set d k' v) k default = dict_get d k default.
Proof. intros Hk. unfold dict_get. now rewrite assoc_dict_set_other. Qed.

Lemma ssl_verify_of_set L env d k v :
  String.eqb "ssl_verify" k = false ->
  ssl_verify_of L env (dict_set d k v) = ssl_verify_of L env d.
Proof. intros Hk. unfold ssl_verify_of. now rewrite dict_get_set_other. Qed.

Ltac read_through :=
  repeat first
    [ rewrite dict_get_set_same
    | rewrite dict_get_set_other by reflexivity
    | rewrite ssl_verify_of_set by reflexivity ].

Ltac lookup_through :=
  repeat first
    [ rewrite assoc_dict_set_same
    | rewrite assoc_dict_set_other by reflexivity ].

(** What a successful [load_config] of the flow-metrics script did. *)
Lemma EdgeFlow_load_config_inv L env cli c0 cfg :
  EdgeFlowConfig.load_config L env cli (Some (JObj c0)) = inr cfg ->
  exists limit edge level enterprise start stop,
    py_int L (setting env c0 "LIMIT_FLOW" "limit_flow" (JNum 204800)) = inr limit /\
    py_int L (setting env c0 "EDGEID" "EdgeID" (JNum 12345)) = inr edge /\
    upper_of L (setting env c0 "LOG_LEVEL" "LOG_LEVEL" (JStr "INFO")) = inr level /\
    is_None (setting env c0 "ENTERPRISEID" "enterpriseId" JNull) = false /\
    py_int L (setting env c0 "ENTERPRISEID" "enterpriseId" JNull) = inr enterprise /\
    EdgeFlowConfig.human_to_rfc3339_nano L
      (cli_or (cli_start cli)
         (setting env c0 "START_HUMAN" "start_human" (JStr "2024-02-20 03:04:00")))
      None = inr start /\
    EdgeFlowConfig.human_to_rfc3339_nano L
      (cli_or (cli_stop cli)
         (setting env c0 "STOP_HUMAN" "stop_human" (JStr "2025-02-22 15:04:00")))
      None = inr stop /\
    assoc "limit_flow" cfg = Some (JNum limit) /\
    assoc "EdgeID" cfg = Some (JNum edge) /\
    assoc "log_level" cfg = Some level /\
    assoc "enterpriseId" cfg = Some (JNum enterprise) /\
    assoc "start" cfg = Some (JStr start) /\
    assoc "stop" cfg = Some (JStr stop) /\
    assoc "start_human" cfg =
      Some (cli_or (cli_start cli)
              (setting env c0 "START_HUMAN" "start_human" (JStr "2024-02-20 03:04:00"))) /\
    assoc "stop_human" cfg =
      Some (cli_or (cli_stop cli)
              (setting env c0 "STOP_HUMAN" "stop_human" (JStr "2025-02-22 15:04:00"))) /\
    assoc "VCO" cfg = Some (setting env c0 "VCO" "VCO" (JStr "vco99-us.velocloud.net")) /\
    assoc "AUTHTOKEN" cfg =
      Some (setting env c0 "AUTHTOKEN" "AUTHTOKEN" (JStr "your_default_token")) /\
    assoc "basepath" cfg = Some (setting env c0 "BASEPATH" "basepath" (JStr "/portal/rest/")) /\
    assoc "ssl_verify" cfg = Some (JBool (ssl_verify_of L env c0)).
Proof.
  unfold EdgeFlowConfig.load_config, setting.
  destruct (py_int L (getenv env "LIMIT_FLOW" (dict_get c0 "limit_flow" (JNum 204800))))
    as [e|limit] eqn:Hlimit; [discriminate|].
  cbn [obind]. cbv zeta. read_through.
  destruct (py_int L (getenv env "EDGEID" (dict_get c0 "EdgeID" (JNum 12345))))
    as [e|edge] eqn:Hedge; [discriminate|].
  cbn [obind]. read_through.
  destruct (upper_of L (getenv env "LOG_LEVEL" (dict_get c0 "LOG_LEVEL" (JStr "INFO"))))
    as [e|level] eqn:Hlevel; [discriminate|].
  cbn [obind]. read_through.
  destruct (is_None (getenv env "ENTERPRISEID" (dict_get c0 "enterpriseId" JNull)))
    eqn:Hnone; [discriminate|].
  destruct (py_int L (getenv env "ENTERPRISEID" (dict_get c0 "enterpriseId" JNull)))
    as [e|enterprise] eqn:Hent; [discriminate|].
  cbn [obind]. read_through.
  destruct (EdgeFlowConfig.human_to_rfc3339_nano L
              (cli_or (cli_start cli)
                 (getenv env "START_HUMAN"
                    (dict_get c0 "start_human" (JStr "2024-02-20 03:04:00")))) None)
    as [e|start] eqn:Hstart; [discriminate|].
  cbn [obind]. read_through.
  destruct (EdgeFlowConfig.human_to_rfc3339_nano L
              (cli_or (cli_stop cli)
                 (getenv env "STOP_HUMAN"
                    (dict_get c0 "stop_human" (JStr "2025-02-22 15:04:00")))) None)
    as [e|stop] eqn:Hstop; [discriminate|].
  cbn [obind]. intros [= <-].
  exists limit, edge, level, enterprise, start, stop.
  repeat (split; [first [assumption | reflexivity | (lookup_through; reflexivity)]|]).
  lookup_through. reflexivity.
Qed.

(** What a successful [load_config] of the events script did. *)
Lemma Events_load_config_inv L env cli c0 cfg :
  EventsConfig.load_config L env cli (Some (JObj c0)) = inr cfg ->
  exists limit level enterprise start stop,
    py_int L (setting env c0 "LIMIT_EVENT" "limit_event" (JNum 2048)) = inr limit /\
    upper_of L (setting env c0 "LOG_LEVEL" "log_level" (JStr "INFO")) = inr level /\
    is_None (setting env c0 "ENTERPRISEID" "enterpriseId" JNull) = false /\
    py_int L (setting env c0 "ENTERPRISEID" "enterpriseId" JNull) = inr enterprise /\
    EventsConfig.human_to_unixtime L
      (cli_or (cli_start cli)
         (setting env c0 "START_HUMAN" "start_human" (JStr "2024-02-20 03:04:00")))
      = inr start /\
    EventsConfig.human_to_unixtime L
      (cli_or (cli_stop cli)
         (setting env c0 "STOP_HUMAN" "stop_human" (JStr "2025-02-22 15:04:00")))
      = inr stop /\
    assoc "limit_event" cfg = Some (JNum limit) /\
    assoc "log_level" cfg = Some level /\
    assoc "enterpriseId" cfg = Some (JNum enterprise) /\
    assoc "start" cfg = Some (JNum (start * 1000)) /\
    assoc "stop" cfg = Some (JNum (stop * 1000)) /\
    assoc "start_human" cfg =
      Some (cli_or (cli_start cli)
              (setting env c0 "START_HUMAN" "start_human" (JStr "2024-02-20 03:04:00"))) /\
    assoc "stop_human" cfg =
      Some (cli_or (cli_stop cli)
              (setting env c0 "STOP_HUMAN" "stop_human" (JStr "2025-02-22 15:04:00"))) /\
    assoc "VCO" cfg = Some (setting env c0 "VCO" "VCO" (JStr "vco99-us.velocloud.net")) /\
    assoc "AUTHTOKEN" cfg =
      Some (setting env c0 "AUTHTOKEN" "AUTHTOKEN" (JStr "your_default_token")) /\
    assoc "basepath" cfg = Some (setting env c0 "BASEPATH" "basepath" (JStr "/portal/rest/")) /\
    assoc "ssl_verify" cfg = Some (JBool (ssl_verify_of L env c0)).
Proof.
  unfold EventsConfig.load_config, setting.
  destruct (py_int L (getenv env "LIMIT_EVENT" (dict_get c0 "limit_event" (JNum 2048))))
    as [e|limit] eqn:Hlimit; [discriminate|].
  cbn [obind]. cbv zeta. read_through.
  destruct (upper_of L (getenv env "LOG_LEVEL" (dict_get c0 "log_level" (JStr "INFO"))))
    as [e|level] eqn:Hlevel; [discriminate|].
  cbn [obind]. read_through.
  destruct (is_None (getenv env "ENTERPRISEID" (dict_get c0 "enterpriseId" JNull)))
    eqn:Hnone; [discriminate|].
  destruct (py_int L (getenv env "ENTERPRISEID" (dict_get c0 "enterpriseId" JNull)))
    as [e|enterprise] eqn:Hent; [discriminate|].
  cbn [obind]. read_through.
  destruct (EventsConfig.human_to_unixtime L
              (cli_or (cli_start cli)
                 (getenv env "START_HUMAN"
                    (dict_get c0 "start_human" (JStr "2024-02-20 03:04:00")))))
    as [e|start] eqn:Hstart; [discriminate|].
  cbn [obind]. read_through.
  destruct (EventsConfig.human_to_unixtime L
              (cli_or (cli_stop cli)
                 (getenv env "STOP_HUMAN"
                    (dict_get c0 "stop_human" (JStr "2025-02-22 15:04:00")))))
    as [e|stop] eqn:Hstop; [discriminate|].
  cbn [obind]. intros [= <-].
  exists limit, level, enterprise, start, stop.
  repeat (split; [first [assumption | reflexivity | (lookup_through; reflexivity)]|]).
  lookup_through. reflexivity.
Qed.

Lemma setting_missing env c0 :
  env "ENTERPRISEID" = None ->
  (assoc "enterpriseId" c0 = None \/ assoc "enterpriseId" c0 = Some JNull) ->
  setting env c0 "ENTERPRISEID" "enterpriseId" JNull = JNull.
Proof.
  intros He Hc. unfold setting, getenv, dict_get. rewrite He.
  destruct Hc as [-> | ->]; reflexivity.
Qed.

(** X12: a configuration without an enterpriseId - none in the
    environment, none in the file or JSON null there - makes [load_config]
    leave by sys.exit(1), in both scripts, once the settings converted
    before it (the page limit, the edge id, the log level) are usable; a
    file that cannot be opened or parsed does the same at once. *)
Theorem missing_enterprise_id_exits :
  forall (L : library) (env : string -> option string) (cli : option cli_args)
         (c0 : list (string * json)),
    env "ENTERPRISEID" = None ->
    (assoc "enterpriseId" c0 = None \/ assoc "enterpriseId" c0 = Some JNull) ->
    ((exists n, py_int L (setting env c0 "LIMIT_FLOW" "limit_flow" (JNum 204800)) = inr n) ->
     (exists n, py_int L (setting env c0 "EDGEID" "EdgeID" (JNum 12345)) = inr n) ->
     (exists s, setting env c0 "LOG_LEVEL" "LOG_LEVEL" (JStr "INFO") = JStr s) ->
     EdgeFlowConfig.load_config L env cli (Some (JObj c0)) = inl (SystemExit 1)) /\
    ((exists n, py_int L (setting env c0 "LIMIT_EVENT" "limit_event" (JNum 2048)) = inr n) ->
     (exists s, setting env c0 "LOG_LEVEL" "log_level" (JStr "INFO") = JStr s) ->
     EventsConfig.load_config L env cli (Some (JObj c0)) = inl (SystemExit 1)) /\
    EdgeFlowConfig.load_config L env cli None = inl (SystemExit 1) /\
    EventsConfig.load_config L env cli None = inl (SystemExit 1).
Proof.
  intros L env cli c0 He Hc.
  pose proof (setting_missing env c0 He Hc) as Hnull. unfold setting in Hnull.
  repeat split.
  - intros [limit Hlimit] [edge Hedge] [s Hs].
    unfold EdgeFlowConfig.load_config. unfold setting in *.
    rewrite Hlimit. cbn [obind]. cbv zeta. read_through.
    rewrite Hedge. cbn [obind]. read_through.
    rewrite Hs. cbn [upper_of obind]. read_through.
    now rewrite Hnull.
  - intros [limit Hlimit] [s Hs].
    unfold EventsConfig.load_config. unfold setting in *.
    rewrite Hlimit. cbn [obind]. cbv zeta. read_through.
    rewrite Hs. cbn [upper_of obind]. read_through.
    now rewrite Hnull.
Qed.

Lemma missing_enterprise_id_exits_witness :
  EdgeFlowConfig.load_config SampleLib.lib SampleLib.no_env None
    (Some (JObj [("limit_flow", JNum 1);
                 ("start_human", JStr "2024-02-20 03:04:00");
                 ("stop_human", JStr "2025-02-22 15:04:00");
                 ("EdgeID", JNum 1)])) = inl (SystemExit 1) /\
  EventsConfig.load_config SampleLib.lib SampleLib.no_env None
    (Some (JObj [("limit_event", JNum 1); ("enterpriseId", JNull)])) = inl (SystemExit 1).
Proof.
  split.
  - exact (proj1 (missing_enterprise_id_exits SampleLib.lib SampleLib.no_env None
                    [("limit_flow", JNum 1);
                     ("start_human", JStr "2024-02-20 03:04:00");
                     ("stop_human", JStr "2025-02-22 15:04:00");
                     ("EdgeID", JNum 1)] eq_refl (or_introl eq_refl))
             (ex_intro _ 1%Z eq_refl) (ex_intro _ 1%Z eq_refl)
             (ex_intro _ "INFO" eq_refl)).
  - exact (proj1 (proj2 (missing_enterprise_id_exits SampleLib.lib SampleLib.no_env None
                           [("limit_event", JNum 1); ("enterpriseId", JNull)]
                           eq_refl (or_intror eq_refl)))
             (ex_intro _ 1%Z eq_refl) (ex_intro _ "INFO" eq_refl)).
Defined.

(** X13: after a successful [load_config], [main] finds every key it
    hands to the worker, and the values have the types of the wire format:
    numbers for the edge id, the enterprise id and the page limit; for flow
    metrics the interval bounds are strs (the RFC 3339 times), for events
    they are numbers, a multiple of 1000 (milliseconds). *)
Theorem loaded_config_feeds_the_worker :
  forall (L : library) (env : string -> option string) (cli : option cli_args)
         (c0 cfg : list (string * json)),
    (EdgeFlowConfig.load_config L env cli (Some (JObj c0)) = inr cfg ->
     exists p, MainArgs.flow cfg = inr p /\
       is_number (EdgeFlow.EdgeID p) = true /\
       is_number (EdgeFlow.enterpriseId p) = true /\
       is_number (EdgeFlow.limit_flow p) = true /\
       is_str (EdgeFlow.start p) = true /\
       is_str (EdgeFlow.stop p) = true) /\
    (EventsConfig.load_config L env cli (Some (JObj c0)) = inr cfg ->
     exists p a b, MainArgs.events cfg = inr p /\
       is_number (Events.enterpriseId p) = true /\
       is_number (Events.limit_event p) = true /\
       Events.start p = JNum (a * 1000) /\
       Events.stop p = JNum (b * 1000)).
Proof.
  intros L env cli c0 cfg. split; intros H.
  - destruct (EdgeFlow_load_config_inv _ _ _ _ _ H)
      as (limit & edge & level & ent & start & stop & _ & _ & _ & _ & _ & _ & _
          & Hl & He & _ & Hent & Hs & Hp & _).
    exists (EdgeFlow.mkParams (JNum edge) (JNum ent) (JStr start) (JStr stop) (JNum limit)).
    unfold MainArgs.flow, config_item. rewrite He, Hent, Hs, Hp, Hl.
    repeat split; reflexivity.
  - destruct (Events_load_config_inv _ _ _ _ _ H)
      as (limit & level & ent & start & stop & _ & _ & _ & _ & _ & _
          & Hl & _ & Hent & Hs & Hp & _).
    exists (Events.mkParams (JNum ent) (JNum (start * 1000)) (JNum (stop * 1000))
              (JStr "past12Months") (JNum limit)), start, stop.
    unfold MainArgs.events, config_item. rewrite Hent, Hs, Hp, Hl.
    repeat split; reflexivity.
Qed.

Lemma loaded_config_feeds_the_worker_witness :
  exists p,
    MainArgs.flow
      (match EdgeFlowConfig.load_config SampleLib.lib
               (SampleLib.env_of [("ENTERPRISEID", "99")]) None
               (Some (JObj [("limit_flow", JNum 123); ("EdgeID", JNum 99);
                            ("enterpriseId", JNum 42)]))
       with inr cfg => cfg | inl _ => [] end) = inr p /\
    is_number (EdgeFlow.EdgeID p) = true /\
    is_number (EdgeFlow.enterpriseId p) = true /\
    is_number (EdgeFlow.limit_flow p) = true /\
    is_str (EdgeFlow.start p) = true /\
    is_str (EdgeFlow.stop p) = true.
Proof.
  exact (proj1 (loaded_config_feeds_the_worker SampleLib.lib
                  (SampleLib.env_of [("ENTERPRISEID", "99")]) None
                  [("limit_flow", JNum 123); ("EdgeID", JNum 99); ("enterpriseId", JNum 42)]
                  _) eq_refl).
Defined.

(** X14: precedence of the sources, in both scripts.  A non-empty time on
    the command line wins; an absent or empty one falls back to the
    environment variable, which wins over the file whenever it is set (even
    to the empty string); the file wins over the built-in default.  The
    enterprise id of the environment wins over the one of the file and is
    converted with int. *)
Theorem settings_precedence :
  forall (L : library) (env : string -> option string) (cli : option cli_args)
         (c0 cfg : list (string * json)),
    EdgeFlowConfig.load_config L env cli (Some (JObj c0)) = inr cfg \/
    EventsConfig.load_config L env cli (Some (JObj c0)) = inr cfg ->
    (forall s, cli_start cli = Some s -> s <> "" ->
       assoc "start_human" cfg = Some (JStr s)) /\
    (cli_start cli = None \/ cli_start cli = Some "" ->
     (forall s, env "START_HUMAN" = Some s -> assoc "start_human" cfg = Some (JStr s)) /\
     (env "START_HUMAN" = None ->
      (forall v, assoc "start_human" c0 = Some v -> assoc "start_human" cfg = Some v) /\
      (assoc "start_human" c0 = None ->
       assoc "start_human" cfg = Some (JStr "2024-02-20 03:04:00")))) /\
    (forall s, env "ENTERPRISEID" = Some s ->
       exists n, int_of_str L s = Some n /\ assoc "enterpriseId" cfg = Some (JNum n)) /\
    (env "ENTERPRISEID" = None ->
     forall n, assoc "enterpriseId" c0 = Some (JNum n) ->
       assoc "enterpriseId" cfg = Some (JNum n)).
Proof.
  intros L env cli c0 cfg H.
  assert (Hfacts :
    assoc "start_human" cfg =
      Some (cli_or (cli_start cli)
              (setting env c0 "START_HUMAN" "start_human" (JStr "2024-02-20 03:04:00"))) /\
    exists ent,
      py_int L (setting env c0 "ENTERPRISEID" "enterpriseId" JNull) = inr ent /\
      assoc "enterpriseId" cfg = Some (JNum ent)).
  { destruct H as [H|H].
    - destruct (EdgeFlow_load_config_inv _ _ _ _ _ H)
        as (limit & edge & level & ent & start & stop & _ & _ & _ & _ & Hpi & _ & _
            & _ & _ & _ & Hent & _ & _ & Hsh & _).
      split; [exact Hsh|]. now exists ent.
    - destruct (Events_load_config_inv _ _ _ _ _ H)
        as (limit & level & ent & start & stop & _ & _ & _ & Hpi & _ & _
            & _ & _ & Hent & _ & _ & Hsh & _).
      split; [exact Hsh|]. now exists ent. }
  destruct Hfacts as [Hsh [ent [Hpi Hent]]].
  unfold setting, getenv, dict_get in *.
  repeat split.
  - intros s Hs Hne. rewrite Hsh, Hs. unfold cli_or.
    destruct (String.eqb_spec s ""); [contradiction|reflexivity].
  - intros s Hs. rewrite Hsh, Hs.
    destruct H0 as [-> | ->]; reflexivity.
  - intros v Hv. rewrite Hsh, H1, Hv.
    destruct H0 as [-> | ->]; reflexivity.
  - intros Hv. rewrite Hsh, H1, Hv.
    destruct H0 as [-> | ->]; reflexivity.
  - intros s Hs. rewrite Hs in Hpi. simpl in Hpi.
    destruct (int_of_str L s) as [n|]; [|discriminate].
    injection Hpi as <-. now exists n.
  - intros He n Hn. rewrite He, Hn in Hpi. simpl in Hpi.
    injection Hpi as <-. exact Hent.
Qed.

Lemma settings_precedence_witness :
  assoc "enterpriseId"
    (match EventsConfig.load_config SampleLib.lib
             (SampleLib.env_of [("ENTERPRISEID", "99")])
             (Some (mkArgs (Some "2099-01-01 00:00:00") (Some "")))
             (Some (JObj [("limit_event", JNum 1);
                          ("start_human", JStr "2024-02-20 03:04:00");
                          ("enterpriseId", JNum 42)]))
     with inr cfg => cfg | inl _ => [] end) = Some (JNum 99) /\
  assoc "start_human"
    (match EventsConfig.load_config SampleLib.lib
             (SampleLib.env_of [("ENTERPRISEID", "99")])
             (Some (mkArgs (Some "2099-01-01 00:00:00") (Some "")))
             (Some (JObj [("limit_event", JNum 1);
                          ("start_human", JStr "2024-02-20 03:04:00");
                          ("enterpriseId", JNum 42)]))
     with inr cfg => cfg | inl _ => [] end) = Some (JStr "2099-01-01 00:00:00").
Proof.
  pose proof (settings_precedence SampleLib.lib
                (SampleLib.env_of [("ENTERPRISEID", "99")])
                (Some (mkArgs (Some "2099-01-01 00:00:00") (Some "")))
                [("limit_event", JNum 1);
                 ("start_human", JStr "2024-02-20 03:04:00");
                 ("enterpriseId", JNum 42)] _ (or_intror eq_refl))
    as [Hcli [_ [Henv _]]].
  split.
  - destruct (Henv "99" eq_refl) as [n [Hn Hassoc]].
    injection Hn as <-. exact Hassoc.
  - apply (Hcli "2099-01-01 00:00:00" eq_refl). discriminate.
Defined.

(** X15: the two scripts read the log level of the file under different
    keys.  With no LOG_LEVEL in the environment, the flow-metrics script
    takes it from the key "LOG_LEVEL" and the events script from the key
    "log_level"; each ignores the other key and falls back to INFO, and the
    level is stored upper-cased under "log_level" in both. *)
Theorem log_level_keys_differ :
  forall (L : library) (env : string -> option string) (cli : option cli_args)
         (c0 cfgE cfgV : list (string * json)),
    EdgeFlowConfig.load_config L env cli (Some (JObj c0)) = inr cfgE ->
    EventsConfig.load_config L env cli (Some (JObj c0)) = inr cfgV ->
    env "LOG_LEVEL" = None ->
    (assoc "LOG_LEVEL" c0 = None ->
     assoc "log_level" cfgE = Some (JStr (upper L "INFO"))) /\
    (assoc "log_level" c0 = None ->
     assoc "log_level" cfgV = Some (JStr (upper L "INFO"))) /\
    (forall s, assoc "LOG_LEVEL" c0 = Some (JStr s) ->
       assoc "log_level" cfgE = Some (JStr (upper L s))) /\
    (forall s, assoc "log_level" c0 = Some (JStr s) ->
       assoc "log_level" cfgV = Some (JStr (upper L s))).
Proof.
  intros L env cli c0 cfgE cfgV HE HV Henv.
  destruct (EdgeFlow_load_config_inv _ _ _ _ _ HE)
    as (limit & edge & level & ent & start & stop & _ & _ & Hup & _ & _ & _ & _
        & _ & _ & Hlevel & _).
  destruct (Events_load_config_inv _ _ _ _ _ HV)
    as (limit' & level' & ent' & start' & stop' & _ & Hup' & _ & _ & _ & _
        & _ & Hlevel' & _).
  unfold setting, getenv, dict_get in Hup, Hup'. rewrite Henv in Hup, Hup'.
  split; [|split; [|split]].
  - intros Hk. rewrite Hk in Hup. simpl in Hup. injection Hup as <-. exact Hlevel.
  - intros Hk. rewrite Hk in Hup'. simpl in Hup'. injection Hup' as <-. exact Hlevel'.
  - intros s Hk. rewrite Hk in Hup. simpl in Hup. injection Hup as <-. exact Hlevel.
  - intros s Hk. rewrite Hk in Hup'. simpl in Hup'. injection Hup' as <-. exact Hlevel'.
Qed.

Lemma log_level_keys_differ_witness :
  assoc "log_level"
    (match EdgeFlowConfig.load_config SampleLib.lib SampleLib.no_env None
             (Some (JObj [("log_level", JStr "debug"); ("enterpriseId", JNum 42)]))
     with inr cfg => cfg | inl _ => [] end) = Some (JStr "INFO") /\
  assoc "log_level"
    (match EventsConfig.load_config SampleLib.lib SampleLib.no_env None
             (Some (JObj [("log_level", JStr "debug"); ("enterpriseId", JNum 42)]))
     with inr cfg => cfg | inl _ => [] end) = Some (JStr "DEBUG").
Proof.
  pose proof (log_level_keys_differ SampleLib.lib SampleLib.no_env None
                [("log_level", JStr "debug"); ("enterpriseId", JNum 42)] _ _
                eq_refl eq_refl eq_refl) as [HE [_ [_ HV]]].
  split.
  - exact (HE eq_refl).
  - exact (HV "debug" eq_refl).
Defined.

(** X16: certificate verification.  The stored "ssl_verify" is always a
    boolean.  With SSL_VERIFY in the environment it is true exactly when
    the value, lower-cased, is "1", "true" or "yes" - any other text
    ("on", "0", the empty string) turns verification off.  Without it,
    and with a library that lower-cases "True" and "False" as expected, a
    file without the key or with JSON true verifies, a file with JSON false
    does not. *)
Theorem ssl_verify_from_sources :
  forall (L : library) (env : string -> option string) (cli : option cli_args)
         (c0 cfg : list (string * json)),
    EdgeFlowConfig.load_config L env cli (Some (JObj c0)) = inr cfg \/
    EventsConfig.load_config L env cli (Some (JObj c0)) = inr cfg ->
    (forall s, env "SSL_VERIFY" = Some s ->
       assoc "ssl_verify" cfg =
         Some (JBool (String.eqb (lower L s) "1" || String.eqb (lower L s) "true"
                      || String.eqb (lower L s) "yes"))) /\
    (env "SSL_VERIFY" = None ->
     lower L "True" = "true" ->
     lower L "False" = "false" ->
     (assoc "ssl_verify" c0 = None \/ assoc "ssl_verify" c0 = Some (JBool true) ->
      assoc "ssl_verify" cfg = Some (JBool true)) /\
     (assoc "ssl_verify" c0 = Some (JBool false) ->
      assoc "ssl_verify" cfg = Some (JBool false))).
Proof.
  intros L env cli c0 cfg H.
  assert (Hssl : assoc "ssl_verify" cfg = Some (JBool (ssl_verify_of L env c0))).
  { destruct H as [H|H].
    - destruct (EdgeFlow_load_config_inv _ _ _ _ _ H)
        as (limit & edge & level & ent & start & stop & _ & _ & _ & _ & _ & _ & _
            & _ & _ & _ & _ & _ & _ & _ & _ & _ & _ & _ & Hs).
      exact Hs.
    - destruct (Events_load_config_inv _ _ _ _ _ H)
        as (limit & level & ent & start & stop & _ & _ & _ & _ & _ & _
            & _ & _ & _ & _ & _ & _ & _ & _ & _ & _ & Hs).
      exact Hs. }
  rewrite Hssl. unfold ssl_verify_of, getenv, dict_get. split.
  - intros s Hs. now rewrite Hs.
  - intros Henv Ht Hf. rewrite Henv. split.
    + intros [Hk|Hk]; rewrite Hk; simpl py_str; rewrite Ht; reflexivity.
    + intros Hk. rewrite Hk. simpl py_str. rewrite Hf. reflexivity.
Qed.

Lemma ssl_verify_from_sources_witness :
  assoc "ssl_verify"
    (match EdgeFlowConfig.load_config SampleLib.lib
             (SampleLib.env_of [("SSL_VERIFY", "on")]) None
             (Some (JObj [("enterpriseId", JNum 42); ("ssl_verify", JBool true)]))
     with inr cfg => cfg | inl _ => [] end) = Some (JBool false) /\
  assoc "ssl_verify"
    (match EventsConfig.load_config SampleLib.lib SampleLib.no_env None
             (Some (JObj [("enterpriseId", JNum 42); ("ssl_verify", JBool false)]))
     with inr cfg => cfg | inl _ => [] end) = Some (JBool false) /\
  assoc "ssl_verify"
    (match EventsConfig.load_config SampleLib.lib SampleLib.no_env None
             (Some (JObj [("enterpriseId", JNum 42)]))
     with inr cfg => cfg | inl _ => [] end) = Some (JBool true).
Proof.
  split; [|split].
  - exact (proj1 (ssl_verify_from_sources SampleLib.lib
                    (SampleLib.env_of [("SSL_VERIFY", "on")]) None
                    [("enterpriseId", JNum 42); ("ssl_verify", JBool true)] _
                    (or_introl eq_refl)) "on" eq_refl).
  - exact (proj2 (proj2 (ssl_verify_from_sources SampleLib.lib SampleLib.no_env None
                           [("enterpriseId", JNum 42); ("ssl_verify", JBool false)] _
                           (or_intror eq_refl)) eq_refl eq_refl eq_refl) eq_refl).
  - exact (proj1 (proj2 (ssl_verify_from_sources SampleLib.lib SampleLib.no_env None
                           [("enterpriseId", JNum 42)] _
                           (or_intror eq_refl)) eq_refl eq_refl eq_refl)
             (or_introl eq_refl)).
Defined.

(** * Runs that end without the StreamEnd *)

Lemma last_char_app a b : b <> "" -> last_char (a ++ b) = last_char b.
Proof.
  intros Hb. induction a as [|c a IH]; [reflexivity|].
  change (String c a ++ b) with (String c (a ++ b)).
  cbn [last_char]. rewrite IH.
  destruct (a ++ b) eqn:E; [|reflexivity].
  destruct a; [simpl in E; contradiction|discriminate].
Qed.

(** The text of a JSON array ends with the closing bracket. *)
Lemma array_text_last (V : string -> Prop) s :
  array_text V s -> last_char s = Some "]"%char.
Proof.
  intros [w Hw | w1 body w2 Hw1 Hbody Hw2].
  - rewrite !last_char_app; [reflexivity|discriminate|].
    destruct w; discriminate.
  - rewrite !last_char_app; try discriminate; try reflexivity.
    + destruct w2; discriminate.
    + destruct body; [destruct w2|]; discriminate.
    + destruct w1; [destruct body; [destruct w2|]|]; discriminate.
Qed.

(** A file holding the opening bracket and one element that does not end
    with a closing bracket is not the text of a JSON array, whatever
    [json.dumps] gives and whatever texts count as values. *)
Lemma open_file_is_not_an_array dumps (V : string -> Prop) item :
  last_char (element_text dumps item) <> Some "]"%char ->
  ~ array_text V (file_text dumps [Write array_open; WriteJson item 4]).
Proof.
  intros Hlast Harr. apply array_text_last in Harr.
  rewrite !file_text_cons in Harr. cbn [op_text] in Harr.
  change (file_text dumps []) with "" in Harr.
  rewrite string_app_nil_r in Harr.
  fold (element_text dumps item) in Harr.
  destruct (element_text dumps item) as [|c e] eqn:E.
  - discriminate Harr.
  - rewrite last_char_app in Harr; [contradiction|discriminate].
Qed.

(** C4, at the input where the code departs from it: a response with
    status 200 whose body parses to a bare number (or to true) holds no
    "data" field, yet the test [not data or 'data' not in data] does not
    catch it: the membership test raises TypeError, and both workers end
    without a StreamEnd, whatever they had put before; the main process
    then waits for ever. *)
Theorem stream_end_missing_after_type_error :
  field "data" (JNum 5) = None /\
  EdgeFlow.fetch_data_worker Sample.flow [ok Sample.P1; ok (JNum 5); ok Sample.P2] =
    mkRun [EdgeFlow.first_body Sample.flow; EdgeFlow.next_body Sample.flow (JStr "T1")]
          [JArr [Sample.item 1; Sample.item 2]] (Raised TypeError) /\
  Events.fetch_data_worker Sample.events [ok Sample.P1; ok (JNum 5); ok Sample.P2] =
    mkRun [Events.first_body Sample.events; Events.next_body Sample.events (JStr "T1")]
          [JArr [Sample.item 1; Sample.item 2]] (Raised TypeError) /\
  EdgeFlow.fetch_data_worker Sample.flow [ok (JBool true)] =
    mkRun [EdgeFlow.first_body Sample.flow] [] (Raised TypeError) /\
  Events.fetch_data_worker Sample.events [ok (JBool true)] =
    mkRun [Events.first_body Sample.events] [] (Raised TypeError) /\
  count_occ_end
    (puts (EdgeFlow.fetch_data_worker Sample.flow [ok Sample.P1; ok (JNum 5); ok Sample.P2]))
    = 0 /\
  count_occ_end
    (puts (Events.fetch_data_worker Sample.events [ok Sample.P1; ok (JNum 5); ok Sample.P2]))
    = 0 /\
  wfinal (EdgeFlow.main Sample.flow [ok Sample.P1; ok (JNum 5); ok Sample.P2]) = Blocked /\
  wfinal (Events.main Sample.events [ok Sample.P1; ok (JNum 5); ok Sample.P2]) = Blocked.
Proof. repeat split; reflexivity. Qed.

(** C6, at the input where the code departs from it: in the run whose
    first response is a page with one item, "more" true and no
    "nextPageLink", the worker dies without the StreamEnd (the defect of
    C2), the main process never writes the closing bracket, and what the
    file holds - the opening bracket and the one element - is not the text
    of a JSON array, whatever texts count as values. *)
Theorem file_is_not_an_array_after_key_error :
  EdgeFlow.main Sample.flow [ok Sample.P_no_link; ok Sample.P2] =
    mkOutput [Write array_open; WriteJson (Sample.item 1) 4] Blocked /\
  Events.main Sample.events [ok Sample.P_no_link; ok Sample.P2] =
    mkOutput [Write array_open; WriteJson (Sample.item 1) 4] Blocked /\
  file_text Sample.dumps
    (ops (EdgeFlow.main Sample.flow [ok Sample.P_no_link; ok Sample.P2])) =
    "[" ++ LF ++ "    {}" /\
  (forall V : string -> Prop,
     ~ array_text V
         (file_text Sample.dumps
            (ops (EdgeFlow.main Sample.flow [ok Sample.P_no_link; ok Sample.P2])))) /\
  (forall V : string -> Prop,
     ~ array_text V
         (file_text Sample.dumps
            (ops (Events.main Sample.events [ok Sample.P_no_link; ok Sample.P2])))).
Proof.
  split; [reflexivity|]. split; [reflexivity|]. split; [reflexivity|].
  split; intros V H; apply array_text_last in H; discriminate H.
Qed.
